(** * workbook-emailer: the workbook processing pipeline of [src/processor.py]

    A shallow embedding of [WorkbookProcessor]: the date resolver, the export
    invoker with its masked command logging, the best-effort recalculation
    step, the workbook merger and the [process] orchestrator, followed by the
    properties of the natural-language specification that they satisfy (or
    fail to satisfy).

    Modelling conventions.
    - Python [str] values are [string]s over the ASCII alphabet; the regular
      expression class [\d], [str.strip] and [int()] are therefore the ASCII
      ones ([int()] skips C's white space only, and refuses more than 4300
      digits). A property that would fail on other text says so by a
      hypothesis ([Py.isascii]).
    - A Python call that may raise returns [res]; code that reads or writes
      the file system or the log threads a [world] explicitly. An exception
      leaves the world as it was when it was raised.
    - The file system is a finite map from path to content, a path being
      identified by its text; directories are not modelled. A path can be
      write-protected, which is how a write fails: the file is then not
      opened, so not touched. [shutil.copy] hands the write protection of the
      source on to the copy. The process does not run as root.
    - The platform is CPython 3.11 on Linux (glibc): a C [int] has 32 bits and
      [%Y] is not padded.
    - A worksheet is the map of its cells' values; styles, merged ranges and
      the macro payload that [keep_vba] preserves are not modelled.
    - The log records what [run_vde_export] logs, the only lines a property
      below speaks about; the [LOGGER] calls of the other methods (fixed text
      with paths, dates and counts) are left out.
    - What lives outside the repository (the tz database, the wall clock, the
      export tool, the office suite, the scratch directory) is a field of
      [Platform], over which every definition is parameterised. *)

From Stdlib Require Import ZArith Ascii String List Lia Bool.
From stdpp Require Import base option gmap strings list.

Local Open Scope Z_scope.

(** Appending to a string that starts with a known character simplifies. *)
#[local] Arguments String.append !_ _ : simpl nomatch.

(** ** Python strings *)

Module Py.

Definition is_digit (c : ascii) : bool :=
  let n := nat_of_ascii c in ((48 <=? n) && (n <=? 57))%nat.

Definition digit_val (c : ascii) : Z := Z.of_nat (nat_of_ascii c) - 48.

(** [str.isspace] on ASCII: TAB..CR, FS..US and SPACE. *)
Definition is_space (c : ascii) : bool :=
  let n := nat_of_ascii c in
  (((9 <=? n) && (n <=? 13)) || ((28 <=? n) && (n <=? 32)))%nat.

Fixpoint all_chars (p : ascii -> bool) (s : string) : bool :=
  match s with
  | EmptyString => true
  | String c s' => p c && all_chars p s'
  end.

(** [s.isascii()] *)
Definition isascii (s : string) : bool :=
  all_chars (fun c => (nat_of_ascii c <? 128)%nat) s.

Fixpoint contains_char (c : ascii) (s : string) : bool :=
  match s with
  | EmptyString => false
  | String d s' => Ascii.eqb c d || contains_char c s'
  end.

(** [s.startswith(p)] *)
Fixpoint startswith (s p : string) {struct p} : bool :=
  match p, s with
  | EmptyString, _ => true
  | String a p', String b s' => Ascii.eqb a b && startswith s' p'
  | String _ _, EmptyString => false
  end.

(** [s.endswith(p)] *)
Definition endswith (s p : string) : bool :=
  startswith (String.rev s) (String.rev p).

(** [s[:n]] and [s[n:]] for [n >= 0] *)
Fixpoint take (n : nat) (s : string) : string :=
  match n, s with
  | S n', String c s' => String c (take n' s')
  | _, _ => EmptyString
  end.

Fixpoint drop (n : nat) (s : string) : string :=
  match n, s with
  | S n', String _ s' => drop n' s'
  | _, _ => s
  end.

(** [sub in s] *)
Fixpoint contains (s sub : string) : bool :=
  startswith s sub ||
  match s with
  | EmptyString => false
  | String _ s' => contains s' sub
  end.

(** [s.lstrip()], [s.rstrip()], [s.strip()] *)
Fixpoint lstrip (s : string) : string :=
  match s with
  | String c s' => if is_space c then lstrip s' else s
  | EmptyString => EmptyString
  end.

Definition rstrip (s : string) : string := String.rev (lstrip (String.rev s)).

Definition strip (s : string) : string := rstrip (lstrip s).

(** [s.split(sep)] for a one-character separator: never empty. *)
Fixpoint split (sep : ascii) (s : string) : list string :=
  match s with
  | EmptyString => [EmptyString]
  | String c s' =>
      if Ascii.eqb c sep then EmptyString :: split sep s'
      else match split sep s' with
           | p :: ps => String c p :: ps
           | [] => [String c EmptyString]
           end
  end.

(** [sep.join(l)] *)
Fixpoint join (sep : string) (l : list string) : string :=
  match l with
  | [] => EmptyString
  | [x] => x
  | x :: l' => x +:+ sep +:+ join sep l'
  end.

(** C's [isspace] in the C locale, the white space [int()] skips around an
    ASCII literal: TAB..CR and SPACE (not FS..US, which [str.strip] removes). *)
Definition is_c_space (c : ascii) : bool :=
  let n := nat_of_ascii c in (((9 <=? n) && (n <=? 13)) || (n =? 32))%nat.

Fixpoint skip_spaces (s : string) : string :=
  match s with
  | String c s' => if is_c_space c then skip_spaces s' else s
  | EmptyString => EmptyString
  end.

(** The literal between the white space at both ends. *)
Definition int_trim (s : string) : string :=
  String.rev (skip_spaces (String.rev (skip_spaces s))).

(** Why [int()] refuses a text: it is no literal, or it has more digits than
    [sys.get_int_max_str_digits()] allows. *)
Inductive int_error : Type :=
  | InvalidLiteral
  | TooManyDigits (digits : nat).

(** The default of [sys.get_int_max_str_digits()]. *)
Definition max_str_digits : nat := 4300.

(** The scan of [int()] over the digits after the sign: digits with single
    underscores between them, up to the first other character. The result is
    the value, the number of digits and what is left; [None] for a doubled
    or trailing underscore. [pending] records an underscore that still needs
    a digit after it. *)
Fixpoint int_scan (acc : Z) (digits : nat) (pending : bool) (s : string)
  : option (Z * nat * string) :=
  match s with
  | EmptyString => if pending then None else Some (acc, digits, EmptyString)
  | String c s' =>
      if is_digit c then int_scan (acc * 10 + digit_val c) (S digits) false s'
      else if Ascii.eqb c "_" then
             if pending then None else int_scan acc digits true s'
           else if pending then None else Some (acc, digits, s)
  end.

(** The digits of a literal, which start with a digit: the limit on their
    number is checked before what follows them is. *)
Definition int_body (s : string) : Z + int_error :=
  match s with
  | String d _ =>
      if is_digit d then
        match int_scan 0 0 false s with
        | Some (n, digits, rest) =>
            if (max_str_digits <? digits)%nat then inr (TooManyDigits digits)
            else match rest with
                 | EmptyString => inl n
                 | String _ _ => inr InvalidLiteral
                 end
        | None => inr InvalidLiteral
        end
      else inr InvalidLiteral
  | EmptyString => inr InvalidLiteral
  end.

(** [int(s)] in base 10 with its two ways to fail: white space at both ends,
    an optional sign, digits. *)
Definition int_text (s : string) : Z + int_error :=
  match int_trim s with
  | String c r =>
      if Ascii.eqb c "-" then
        match int_body r with
        | inl n => inl (- n)
        | inr e => inr e
        end
      else if Ascii.eqb c "+" then int_body r
      else int_body (String c r)
  | EmptyString => inr InvalidLiteral
  end.

(** [int(s)], [None] for a [ValueError]. *)
Definition int (s : string) : option Z :=
  match int_text s with
  | inl n => Some n
  | inr _ => None
  end.

Definition digit_char (d : Z) : ascii := ascii_of_nat (48 + Z.to_nat (d mod 10)).

(** Decimal rendering of a natural number on exactly [w] digits (the low
    ones), as [%02d] and [%04d] do for values that fit. *)
Fixpoint zero_pad (w : nat) (n : Z) : string :=
  match w with
  | O => EmptyString
  | S w' => zero_pad w' (n / 10) +:+ String (digit_char n) EmptyString
  end.

(** [str(n)] for an integer. *)
Fixpoint nat_digits (fuel : nat) (n : Z) : string :=
  match fuel with
  | O => EmptyString
  | S f =>
      if (n <? 10)%Z then String (digit_char n) EmptyString
      else nat_digits f (n / 10) +:+ String (digit_char n) EmptyString
  end.

Definition str_int (n : Z) : string :=
  if (n <? 0)%Z then "-" +:+ nat_digits (S (Z.to_nat (Z.log2 (- n)))) (- n)
  else nat_digits (S (Z.to_nat (Z.log2 n))) n.

Definition hex_digit (n : nat) : ascii :=
  ascii_of_nat (if (n <? 10)%nat then 48 + n else 87 + n).

(** [repr(s)]: single quotes unless the text has a single quote and no
    double quote; backslash, the chosen quote, TAB, LF and CR are escaped
    by a backslash, other control characters as [\xNN]. *)
Fixpoint repr_body (q : ascii) (s : string) : string :=
  match s with
  | EmptyString => EmptyString
  | String c s' =>
      (if Ascii.eqb c "\" then "\\"
       else if Ascii.eqb c q then String "\" (String c EmptyString)
       else if Ascii.eqb c "009" then "\t"
       else if Ascii.eqb c "010" then "\n"
       else if Ascii.eqb c "013" then "\r"
       else
         let n := nat_of_ascii c in
         if ((n <? 32) || (n =? 127))%nat then
           "\x" +:+ String (hex_digit (n / 16)) (String (hex_digit (n mod 16)) EmptyString)
         else String c EmptyString) +:+ repr_body q s'
  end.

Definition repr (s : string) : string :=
  let q : ascii :=
    if contains_char "'" s && negb (contains_char "034" s) then "034"%char
    else "'"%char in
  String q (repr_body q s) +:+ String q EmptyString.

(** [str(l)] for a list of strings. *)
Definition str_list (l : list string) : string :=
  "[" +:+ join ", " (repr <$> l) +:+ "]".

End Py.

(** ** [os.path] (the POSIX flavour) *)

Module OsPath.

(** [p.rfind(c)], [None] for Python's [-1]. *)
Fixpoint rfind_from (i : nat) (c : ascii) (s : string) (last : option nat) : option nat :=
  match s with
  | EmptyString => last
  | String d s' => rfind_from (S i) c s' (if Ascii.eqb c d then Some i else last)
  end.

Definition rfind (c : ascii) (s : string) : option nat := rfind_from 0 c s None.

(** [os.path.basename(p)]: what follows the last slash. *)
Fixpoint basename (p : string) : string :=
  match p with
  | EmptyString => EmptyString
  | String c p' =>
      if Py.contains_char "/" p' then basename p'
      else if Ascii.eqb c "/" then p' else p
  end.

(** The part of [p] up to and including its last slash. *)
Fixpoint head (p : string) : string :=
  match p with
  | EmptyString => EmptyString
  | String c p' =>
      if Py.contains_char "/" p' then String c (head p')
      else if Ascii.eqb c "/" then "/" else EmptyString
  end.

Fixpoint lstrip_sep (s : string) : string :=
  match s with
  | String c s' => if Ascii.eqb c "/" then lstrip_sep s' else s
  | EmptyString => EmptyString
  end.

(** [os.path.dirname(p)]: the head, without trailing slashes unless it is
    made of slashes only. *)
Definition dirname (p : string) : string :=
  let h := head p in
  if Py.all_chars (Ascii.eqb "/") h then h
  else String.rev (lstrip_sep (String.rev h)).

(** [os.path.join(a, b)] *)
Definition join (a b : string) : string :=
  if Py.startswith b "/" then b
  else if String.eqb a "" || Py.endswith a "/" then a +:+ b
  else a +:+ "/" +:+ b.

(** [os.path.splitext(p)[0]]: [p] without its extension; leading dots of
    the base name do not start an extension. *)
Definition splitext_root (p : string) : string :=
  match rfind "." p with
  | None => p
  | Some d =>
      let start := match rfind "/" p with None => O | Some i => S i end in
      if (d <? start)%nat then p
      else if Py.all_chars (Ascii.eqb ".") (Py.take (d - start) (Py.drop start p))
           then p
           else Py.take d p
  end.

End OsPath.

(** ** Exceptions and results *)

Inductive exn : Type :=
  | ValueError (msg : string)
  | RuntimeError (msg : string)
  | FileNotFoundError (msg : string)
  | FileExistsError
  | PermissionError
  | SameFileError
  | InvalidFileException
  | OverflowError
  | UnicodeDecodeError
  | OSError.

Inductive res (A : Type) : Type :=
  | Ok (a : A)
  | Raise (e : exn).
Arguments Ok {A} a.
Arguments Raise {A} e.

Definition res_bind {A B} (m : res A) (k : A -> res B) : res B :=
  match m with
  | Ok a => k a
  | Raise e => Raise e
  end.

(** [try: body / except Exception: handler] for a computation without
    side effects. *)
Definition try_except {A} (body : res A) (handler : exn -> res A) : res A :=
  match body with
  | Ok a => Ok a
  | Raise e => handler e
  end.

Definition is_ok {A} (r : res A) : bool :=
  match r with Ok _ => true | Raise _ => false end.

Notation "'let!' x ':=' m 'in' k" := (res_bind m (fun x => k))
  (at level 10, x pattern, m at level 200, k at level 200).

(** ** [datetime] *)

Inductive tzinfo : Type := Zone (key : string).

Record datetime : Type := Datetime {
  year : Z; month : Z; day : Z;
  hour : Z; minute : Z; second : Z; microsecond : Z;
  tz : option tzinfo
}.

(** Timezone-aware: the instant carries a zone. *)
Definition aware (d : datetime) : Prop := is_Some (tz d).

Definition is_leap (y : Z) : bool :=
  (y mod 4 =? 0) && (negb (y mod 100 =? 0) || (y mod 400 =? 0)).

Definition days_in_month (y m : Z) : Z :=
  if m =? 2 then (if is_leap y then 29 else 28)
  else if (m =? 4) || (m =? 6) || (m =? 9) || (m =? 11) then 30
  else 31.

(** [datetime(year, month, day, tzinfo=z)] *)
Definition datetime_new (y m d : Z) (z : option tzinfo) : res datetime :=
  if negb ((1 <=? y) && (y <=? 9999)) then
  Raise (ValueError ("year " +:+ Py.str_int y +:+ " is out of range"))
  else if negb ((1 <=? m) && (m <=? 12)) then
  Raise (ValueError "month must be in 1..12")
  else if negb ((1 <=? d) && (d <=? days_in_month y m)) then
  Raise (ValueError "day is out of range for month")
  else Ok (Datetime y m d 0 0 0 0 z).

(** The Python integers that the argument parser of [datetime.replace]
    converts to a C [int]. *)
Definition fits_c_int (n : Z) : bool := (-2147483648 <=? n) && (n <=? 2147483647).

(** [d.replace(hour=h, minute=mi, second=0, microsecond=0)]: the arguments
    are converted first, then checked. *)
Definition replace_time (d : datetime) (h mi : Z) : res datetime :=
  if negb (fits_c_int h && fits_c_int mi) then Raise OverflowError
  else if negb ((0 <=? h) && (h <=? 23)) then Raise (ValueError "hour must be in 0..23")
  else if negb ((0 <=? mi) && (mi <=? 59)) then Raise (ValueError "minute must be in 0..59")
  else Ok (Datetime (year d) (month d) (day d) h mi 0 0 (tz d)).

(** [d + timedelta(days=1)]: wall-clock arithmetic, the zone is kept. *)
Definition plus_one_day (d : datetime) : res datetime :=
  let '(y, m, dd) :=
  if day d <? days_in_month (year d) (month d) then (year d, month d, day d + 1)
  else if month d <? 12 then (year d, month d + 1, 1)
  else (year d + 1, 1, 1) in
  if 9999 <? y then Raise OverflowError
  else Ok (Datetime y m dd (hour d) (minute d) (second d) (microsecond d) (tz d)).

(** [d - timedelta(days=1)] *)
Definition minus_one_day (d : datetime) : res datetime :=
  let '(y, m, dd) :=
  if 1 <? day d then (year d, month d, day d - 1)
  else if 1 <? month d then (year d, month d - 1, days_in_month (year d) (month d - 1))
  else (year d - 1, 12, 31) in
  if y <? 1 then Raise OverflowError
  else Ok (Datetime y m dd (hour d) (minute d) (second d) (microsecond d) (tz d)).

(** ** The spreadsheet object model (the part of openpyxl the merger uses) *)

Inductive cell_value : Type :=
  | Numeric (literal : string)
  | Text (s : string)
  | Boolean (b : bool).

(** The cells a worksheet holds, keyed by 1-based (row, column). A cell can
    exist and be blank ([Some None]); a coordinate without cell is blank. *)
Abbreviation sheet := (gmap (nat * nat) (option cell_value)).

(** A workbook is its sheets, by title, in tab order. *)
Abbreviation workbook := (list (string * sheet)).

Inductive content : Type :=
  | Xlsx (wb : workbook)
  | Blob (data : string).

(** ** The world: files, write protection, and the log *)

Inductive log_level : Type := INFO | WARNING | ERROR.

Record world : Type := World {
  files : gmap string content;
  readonly : gset string;
  log : list (log_level * string)
}.

(** Outcome of [subprocess.run(cmd, cwd=..., capture_output=True, text=True)]
    for the export tool: no child was started and [subprocess.run] raised [e]
    (an [OSError] such as [FileNotFoundError] for a missing interpreter or
    working directory, [ValueError] for an argument that holds a NUL
    character), or the child ran, possibly changed files, and exited. What
    it wrote to a captured stream is given as the text it decodes to, [None]
    for bytes that are not valid text in the locale's encoding. *)
Inductive proc_outcome : Type :=
  | SpawnFailed (e : exn)
  | Exited (returncode : Z) (stdout stderr : option string)
           (files_after : gmap string content).

(** Outcome of the office suite run: [subprocess.run] raised (the child could
    not be started, or its output is not valid text), or the child exited. It
    writes into the scratch directory only, whose listing (name and content,
    in [os.listdir] order) is kept; the files in it are writable. *)
Inductive convert_outcome : Type :=
  | ConvertSpawnFailed
  | Converted (returncode : Z) (stderr : string) (outdir : list (string * content)).

(** External collaborators. *)
Record Platform : Type := {
  (** [dateutil.tz.gettz(name)]: the zone of that name, [None] when the tz
      database has none. *)
  gettz : string -> option tzinfo;
  (** [z.utcoffset(d)] in minutes. *)
  utcoffset : tzinfo -> datetime -> Z;
  (** wall-clock reading of [datetime.now(z)] *)
  clock : option tzinfo -> datetime;
  (** the export tool, given its command line, working directory and the files *)
  vde : list string -> string -> gmap string content -> proc_outcome;
  (** the office suite, given its command line and the files *)
  libreoffice : list string -> gmap string content -> convert_outcome;
  (** [tempfile.TemporaryDirectory()]: the scratch directory, if one can be made *)
  mkdtemp : option string;
  (** [repr(signal.Signals(n))], [None] where [n] names no signal *)
  signal_repr : Z -> option string
}.

(** The attributes [__init__] sets. [libreoffice_available] is the result of
    the probe [_check_libreoffice]. *)
Record WorkbookProcessor : Type := {
  work_dir : string;
  export_script_path : string;
  api_key_id : string;
  api_key : string;
  org_id : string;
  timezone : string;
  export_start_time : string;
  export_end_time : string;
  libreoffice_available : bool
}.

Definition export_script_dir (self : WorkbookProcessor) : string :=
  OsPath.dirname (export_script_path self).

Definition venv_path (self : WorkbookProcessor) : string :=
  OsPath.join (export_script_dir self) ".venv".

(** *** Worksheets *)

(** [ws.max_row] and [ws.max_column]: the largest row and column that hold a
    cell, 1 for a sheet without cells. *)
Definition max_row (s : sheet) : nat :=
  match map_to_list s with
  | [] => 1%nat
  | l => max_list ((fun kv => fst (fst kv)) <$> l)
  end.

Definition max_column (s : sheet) : nat :=
  match map_to_list s with
  | [] => 1%nat
  | l => max_list ((fun kv => snd (fst kv)) <$> l)
  end.

(** [ws.iter_rows()], also [ws.rows]: nothing for a sheet without cells,
    otherwise the rows 1..max_row, each the cells of columns 1..max_column
    (cells are named by their coordinates). *)
Definition iter_rows (s : sheet) : list (list (nat * nat)) :=
  match map_to_list s with
  | [] => []
  | _ => (fun r => (fun c => (r, c)) <$> seq 1 (max_column s)) <$> seq 1 (max_row s)
  end.

(** [cell.value] of the cell at a coordinate *)
Definition value_at (s : sheet) (rc : nat * nat) : option cell_value :=
  match s !! rc with
  | Some v => v
  | None => None
  end.

(** [enumerate(l, start=n)] *)
Definition enumerate {A} (n : nat) (l : list A) : list (nat * A) :=
  zip (seq n (length l)) l.

(** [for row in ws.iter_rows(): for cell in row: cell.value = None] *)
Definition clear_sheet (s : sheet) : sheet :=
  foldl (fun s row => foldl (fun s rc => <[rc := None]> s) s row) s (iter_rows s).

(** The copy loop: the value of the cell met at position [col_idx] of row
    [row_idx] of the source goes to [dst.cell(row=row_idx, column=col_idx)]. *)
Definition copy_rows (src dst : sheet) : sheet :=
  foldl (fun dst ir =>
         foldl (fun dst jc => <[(fst ir, fst jc) := value_at src (snd jc)]> dst)
               dst (enumerate 1 (snd ir)))
      dst (enumerate 1 (iter_rows src)).

(** [wb[title]], [None] when [title not in wb.sheetnames] *)
Definition get_sheet (title : string) (wb : workbook) : option sheet :=
  snd <$> (snd <$> list_find (fun ts => fst ts = title) wb).

(** The workbook after its sheet [title] was mutated into [s]. *)
Definition set_sheet (title : string) (s : sheet) (wb : workbook) : workbook :=
  match list_find (fun ts => fst ts = title) wb with
  | Some (i, _) => <[i := (title, s)]> wb
  | None => wb
  end.

(** *** Files *)

Definition write_file (path : string) (c : content) (w : world) : res unit * world :=
  if decide (path ∈ readonly w) then (Raise PermissionError, w)
  else (Ok tt, World (<[path := c]> (files w)) (readonly w) (log w)).

(** [shutil.copy(src, dst)] between two files: [copyfile] writes the content,
    then [copymode] gives the copy the permission bits of the source, so the
    copy of a write-protected file is write-protected ([dst] itself was
    writable, or the write had failed). *)
Definition copy_file (src dst : string) (w : world) : res unit * world :=
  match files w !! src with
  | None => (Raise (FileNotFoundError src), w)
  | Some c =>
    if decide (src = dst) then (Raise SameFileError, w)
    else
      match write_file dst c w with
      | (Raise e, w') => (Raise e, w')
      | (Ok _, w') =>
          (Ok tt,
           World (files w')
                 (if decide (src ∈ readonly w) then readonly w' ∪ {[ dst ]} else readonly w')
                 (log w'))
      end
  end.

(** [openpyxl.load_workbook(path)] *)
Definition load_workbook (path : string) (w : world) : res workbook :=
  match files w !! path with
  | None => Raise (FileNotFoundError path)
  | Some (Xlsx wb) => Ok wb
  | Some (Blob _) => Raise InvalidFileException
  end.

(** ** Date resolver *)

(** The pattern [3895th_(\d{6})\.xlsx] tried at the start of [s]; the
    result is group 1. *)
Definition re_match_here (s : string) : option string :=
  if Py.startswith s "3895th_" then
  let r := Py.drop 7 s in
  let d := Py.take 6 r in
  if (String.length d =? 6)%nat && Py.all_chars Py.is_digit d
     && Py.startswith (Py.drop 6 r) ".xlsx"
  then Some d else None
  else None.

(** [re.search(r'3895th_(\d{6})\.xlsx', s)]: the leftmost match. *)
Fixpoint re_search (s : string) : option string :=
  match re_match_here s with
  | Some d => Some d
  | None =>
    match s with
    | EmptyString => None
    | String _ s' => re_search s'
    end
  end.

(** What the pattern denotes: the text holds the prefix, six digits and the
    extension somewhere. *)
Definition has_date_token (s : string) : Prop :=
  exists pre d suf,
  s = pre +:+ "3895th_" +:+ d +:+ ".xlsx" +:+ suf
  /\ String.length d = 6%nat /\ Py.all_chars Py.is_digit d = true.

(** The number a string of decimal digits writes. *)
Fixpoint decimal_from (acc : Z) (s : string) : Z :=
  match s with
  | EmptyString => acc
  | String c s' => decimal_from (acc * 10 + Py.digit_val c) s'
  end.

Definition decimal (s : string) : Z := decimal_from 0 s.

(** Month, day and year that a six-digit token MMDDYY stands for, and whether
    they name a day of the calendar. *)
Definition token_month (d : string) : Z := decimal (Py.take 2 d).
Definition token_day (d : string) : Z := decimal (Py.take 2 (Py.drop 2 d)).
Definition token_year (d : string) : Z := 2000 + decimal (Py.take 2 (Py.drop 4 d)).

Definition valid_token (d : string) : Prop :=
  1 <= token_month d <= 12 /\
  1 <= token_day d <= days_in_month (token_year d) (token_month d).

(** [int(s)] raising [ValueError] *)
Definition int_or_raise (s : string) : res Z :=
  match Py.int_text s with
  | inl n => Ok n
  | inr Py.InvalidLiteral =>
      Raise (ValueError ("invalid literal for int() with base 10: " +:+ Py.repr s))
  | inr (Py.TooManyDigits digits) =>
      Raise (ValueError ("Exceeds the limit (4300 digits) for integer string conversion: "
                         +:+ "value has " +:+ Py.str_int (Z.of_nat digits)
                         +:+ " digits; use sys.set_int_max_str_digits() to increase the limit"))
  end.

(** [s[a:b]] *)
Definition slice (a b : nat) (s : string) : string := Py.take (b - a) (Py.drop a s).

Section Pipeline.

Variable P : Platform.
Variable self : WorkbookProcessor.

(** [datetime.now(z)] *)
Definition datetime_now (z : option tzinfo) : datetime :=
  let c := clock P z in
  Datetime (year c) (month c) (day c) (hour c) (minute c) (second c) (microsecond c) z.

(** The [try] block of [_extract_date_from_filename]. *)
Definition extract_date_body (filename : string) : res (option datetime) :=
  match re_search (OsPath.basename filename) with
  | Some date_str =>
      let! month := int_or_raise (slice 0 2 date_str) in
      let! day := int_or_raise (slice 2 4 date_str) in
      let! year := int_or_raise (slice 4 6 date_str) in
      let year := year + 2000 in
      let! d := datetime_new year month day (gettz P (timezone self)) in
      Ok (Some d)
  | None => Ok None
  end.

Definition _extract_date_from_filename (filename : string) : res (option datetime) :=
  try_except (extract_date_body filename) (fun _ => Ok None).

Definition get_yesterday_date : res datetime :=
  let now := datetime_now (gettz P (timezone self)) in
  minus_one_day now.

(** *** [strftime] and [str] on datetimes *)

(** [d.strftime("%Y-%m-%d")]: the C library does not pad the year. *)
Definition fmt_date (d : datetime) : string :=
  Py.str_int (year d) +:+ "-" +:+ Py.zero_pad 2 (month d) +:+ "-" +:+ Py.zero_pad 2 (day d).

(** The date of [d.isoformat()], with the year on four digits. *)
Definition iso_date (d : datetime) : string :=
  Py.zero_pad 4 (year d) +:+ "-" +:+ Py.zero_pad 2 (month d) +:+ "-" +:+ Py.zero_pad 2 (day d).

(** [%H:%M:%S] *)
Definition fmt_time (d : datetime) : string :=
  Py.zero_pad 2 (hour d) +:+ ":" +:+ Py.zero_pad 2 (minute d) +:+ ":" +:+ Py.zero_pad 2 (second d).

(** The UTC offset as [+HHMM], or [+HH:MM] with [sep] a colon; nothing for
    a naive instant. *)
Definition fmt_offset (sep : string) (d : datetime) : string :=
  match tz d with
  | None => ""
  | Some z =>
      let off := utcoffset P z d in
      (if off <? 0 then "-" else "+") +:+
      Py.zero_pad 2 (Z.abs off / 60) +:+ sep +:+ Py.zero_pad 2 (Z.abs off mod 60)
  end.

(** [d.strftime("%m%d%y")] *)
Definition strftime_mmddyy (d : datetime) : string :=
  Py.zero_pad 2 (month d) +:+ Py.zero_pad 2 (day d) +:+ Py.zero_pad 2 (year d mod 100).

(** [d.strftime("%Y-%m-%dT%H:%M:%S%z")] *)
Definition strftime_iso (d : datetime) : string :=
  fmt_date d +:+ "T" +:+ fmt_time d +:+ fmt_offset "" d.

(** [str(d)], which is [d.isoformat(sep=' ')] *)
Definition str_datetime (d : datetime) : string :=
  iso_date d +:+ " " +:+ fmt_time d +:+
  (if microsecond d =? 0 then "" else "." +:+ Py.zero_pad 6 (microsecond d)) +:+
  fmt_offset ":" d.

(** *** Export invoker *)

Definition emit (lvl : log_level) (msg : string) (w : world) : world :=
  World (files w) (readonly w) (log w ++ [(lvl, msg)]).

Definition emit_lines (lvl : log_level) (lines : list string) (w : world) : world :=
  foldl (fun w line => emit lvl ("  " +:+ line) w) w lines.

(** [h, m = map(int, s.split(':'))]: the iterator is consumed up to one
    element past the two targets. *)
Definition parse_hm (s : string) : res (Z * Z) :=
  match Py.split ":" s with
  | [] => Raise (ValueError "not enough values to unpack (expected 2, got 0)")
  | [a] =>
      let! _ := int_or_raise a in
      Raise (ValueError "not enough values to unpack (expected 2, got 1)")
  | [a; b] =>
      let! h := int_or_raise a in
      let! m := int_or_raise b in
      Ok (h, m)
  | a :: b :: c :: _ =>
      let! _ := int_or_raise a in
      let! _ := int_or_raise b in
      let! _ := int_or_raise c in
      Raise (ValueError "too many values to unpack (expected 2)")
  end.

(** The command line [cmd] of [run_vde_export]. *)
Definition build_cmd (output_file : string) (start_time end_time : datetime) : list string :=
  let venv_python := OsPath.join (OsPath.join (venv_path self) "bin") "python" in
  let export_script_path := export_script_path self in
  [ venv_python;
    export_script_path;
    "-vv";
    "excel";
    "--apiKeyId"; api_key_id self;
    "--apiKey"; api_key self;
    "--orgId"; org_id self;
    "--resourceName"; "langer_fill";
    "--start"; strftime_iso start_time;
    "--end"; strftime_iso end_time;
    "--timezone"; timezone self;
    "--bucketPeriod"; "PT5M";
    "--bucketMethod"; "max";
    "--includeKeys"; ".*_raw";
    "--output"; output_file;
    "--tab"; "RAW" ].

(** [l.index(x)], under the guard [x in l] *)
Definition list_index (x : string) (l : list string) : option nat :=
  fst <$> list_find (fun y => y = x) l.

(** [if flag in l: idx = l.index(flag); if idx + 1 < len(l): l[idx + 1] = "<redacted>"] *)
Definition mask_after (flag : string) (l : list string) : list string :=
  match list_index flag l with
  | Some idx =>
      if (idx + 1 <? length l)%nat then <[(idx + 1)%nat := "<redacted>"]> l else l
  | None => l
  end.

(** The masked copy [cmd_mask] of the command. *)
Definition mask_cmd (cmd : list string) : list string :=
  mask_after "--apiKey" (mask_after "--apiKeyId" cmd).

(** The line logged before the export runs. *)
Definition masked_log_line (cmd : list string) : string :=
  "Running vde.py command: " +:+ Py.join " " (mask_cmd cmd).

(** [str(e)] for the [CalledProcessError] of [cmd] with exit status [rc]. *)
Definition called_process_error_str (cmd : list string) (rc : Z) : string :=
  if rc <? 0 then
    match signal_repr P (- rc) with
    | Some sig => "Command '" +:+ Py.str_list cmd +:+ "' died with " +:+ sig +:+ "."
    | None =>
        "Command '" +:+ Py.str_list cmd +:+ "' died with unknown signal "
        +:+ Py.str_int (- rc) +:+ "."
    end
  else
    "Command '" +:+ Py.str_list cmd +:+ "' returned non-zero exit status "
    +:+ Py.str_int rc +:+ ".".

(** The bounded logging of the tool's standard output. *)
Definition log_stdout (stdout : string) (w : world) : world :=
  let stdout_lines := Py.split "010" (Py.strip stdout) in
  match stdout_lines with
  | [] => w
  | _ =>
      if (10 <? length stdout_lines)%nat then
        let w := emit INFO "vde.py output first lines:" w in
        let w := emit_lines INFO (take 5 stdout_lines) w in
        let w := emit INFO "..." w in
        let w := emit INFO "vde.py output last lines:" w in
        emit_lines INFO (drop (length stdout_lines - 5) stdout_lines) w
      else
        let w := emit INFO "vde.py output:" w in
        emit_lines INFO stdout_lines w
  end.

(** The handler of [subprocess.CalledProcessError]. *)
Definition export_failed (cmd : list string) (rc : Z) (stderr : string) (w : world)
  : res string * world :=
  let e := called_process_error_str cmd rc in
  let w := emit ERROR ("Failed to run vde.py: " +:+ e) w in
  let w :=
    if String.eqb stderr "" then w
    else
      let stderr_lines := Py.split "010" (Py.strip stderr) in
      let w := emit ERROR "vde.py stderr output:" w in
      emit_lines ERROR stderr_lines w in
  (Raise (RuntimeError ("vde.py export failed: " +:+ e)), w).

Definition path_exists (w : world) (path : string) : bool :=
  bool_decide (is_Some (files w !! path)).

(** [subprocess.run(cmd, check=True, cwd=..., capture_output=True, text=True)]
    and what follows it inside the [try]. Output that does not decode makes
    [subprocess.run] raise [UnicodeDecodeError] before the exit status is
    looked at; the handler of [CalledProcessError] does not catch it. *)
Definition run_export_cmd (cmd : list string) (output_file : string) (w : world)
  : res string * world :=
  let w := emit INFO (masked_log_line cmd) w in
  match vde P cmd (export_script_dir self) (files w) with
  | SpawnFailed e => (Raise e, w)
  | Exited rc stdout stderr files' =>
      let w := World files' (readonly w) (log w) in
      match stdout, stderr with
      | Some stdout, Some stderr =>
          if negb (rc =? 0) then export_failed cmd rc stderr w
          else
            let w := log_stdout stdout w in
            if negb (path_exists w output_file) then
              (Raise (FileNotFoundError "vde.py ran but raw_export.xlsx was not created."), w)
            else
              let w := emit INFO ("Generated raw data at " +:+ output_file) w in
              (Ok output_file, w)
      | _, _ => (Raise UnicodeDecodeError, w)
      end
  end.

(** The export window on [target_date], from the configured strings. *)
Definition export_window (target_date : datetime) : res (datetime * datetime) :=
  let! start_hm := parse_hm (export_start_time self) in
  let! end_hm := parse_hm (export_end_time self) in
  let! start_time := replace_time target_date (fst start_hm) (snd start_hm) in
  let! end_time := replace_time target_date (fst end_hm) (snd end_hm) in
  Ok (start_time, end_time).

Definition run_vde_export (output_file : string) (target_date : option datetime) (w : world)
  : res string * world :=
  let resolved :=
    match target_date with
    | Some d => (Ok d, w)
    | None =>
        match get_yesterday_date with
        | Ok d =>
            (Ok d, emit INFO ("No target date provided, using yesterday: " +:+ fmt_date d) w)
        | Raise e => (Raise e, w)
        end
    end in
  match resolved with
  | (Raise e, w) => (Raise e, w)
  | (Ok target_date, w) =>
      match export_window target_date with
      | Raise e => (Raise e, w)
      | Ok (start_time, end_time) =>
          let w := emit INFO ("Exporting data from " +:+ str_datetime start_time +:+ " to "
                              +:+ str_datetime end_time +:+ " (" +:+ export_start_time self
                              +:+ " to " +:+ export_end_time self +:+ ")") w in
          let cmd := build_cmd output_file start_time end_time in
          run_export_cmd cmd output_file w
      end
  end.

(** *** Recalculation trigger *)

(** The [try] block of [_recalculate_with_libreoffice]. *)
Definition recalculate_body (excel_file : string) (w : world) : res unit * world :=
  match mkdtemp P with
  | None => (Raise OSError, w)
  | Some temp_dir =>
      let filename := OsPath.basename excel_file in
      let cmd := [ "libreoffice"; "--headless"; "--calc";
                   "--convert-to"; "xlsx";
                   "--outdir"; temp_dir;
                   excel_file ] in
      match libreoffice P cmd (files w) with
      | ConvertSpawnFailed => (Raise OSError, w)
      | Converted returncode stderr outdir =>
          let converted_files :=
            filter (fun f => Py.startswith (fst f) (OsPath.splitext_root filename) = true)
                   outdir in
          match converted_files with
          | converted :: _ => write_file excel_file (snd converted) w
          | [] => (Ok tt, w)
          end
      end
  end.

Definition _recalculate_with_libreoffice (excel_file : string) (w : world)
  : res unit * world :=
  if negb (libreoffice_available self) then (Ok tt, w)
  else
    match recalculate_body excel_file w with
    | (Ok _, w') => (Ok tt, w')
    | (Raise _, w') => (Ok tt, w')
    end.

(** *** Workbook merger *)

(** The target date of the new workbook. *)
Definition merger_target_date (master_template : string) (target_date : option datetime)
  : res datetime :=
  match target_date with
  | Some d => Ok d
  | None =>
      let! template_date := _extract_date_from_filename master_template in
      match template_date with
      | Some template_date => plus_one_day template_date
      | None => Ok (datetime_now (gettz P (timezone self)))
      end
  end.

Definition new_master_path (target_date : datetime) : string :=
  OsPath.join (work_dir self) ("3895th_" +:+ strftime_mmddyy target_date +:+ ".xlsx").

(** From the two [load_workbook] calls to [master_wb.save]: the number of
    rows copied. The save opens the file for writing before it writes: at a
    write-protected path it raises and the file is as it was. *)
Definition merge_and_save (raw_file new_master_file : string) (w : world)
  : res nat * world :=
  match load_workbook raw_file w with
  | Raise e => (Raise e, w)
  | Ok raw_wb =>
      match load_workbook new_master_file w with
      | Raise e => (Raise e, w)
      | Ok master_wb =>
          match get_sheet "RAW" raw_wb with
          | None => (Raise (ValueError "Raw export workbook missing 'RAW' sheet"), w)
          | Some raw_sheet =>
              match get_sheet "Raw Import" master_wb with
              | None => (Raise (ValueError "Master workbook missing 'Raw Import' sheet"), w)
              | Some import_sheet =>
                  let import_sheet := clear_sheet import_sheet in
                  let import_sheet := copy_rows raw_sheet import_sheet in
                  let row_count := length (iter_rows raw_sheet) in
                  let master_wb := set_sheet "Raw Import" import_sheet master_wb in
                  match write_file new_master_file (Xlsx master_wb) w with
                  | (Raise e, w) => (Raise e, w)
                  | (Ok _, w) => (Ok row_count, w)
                  end
              end
          end
      end
  end.

(** The [try] block of [update_master_workbook]. *)
Definition update_body (raw_file new_master_file : string) (w : world)
  : res string * world :=
  match merge_and_save raw_file new_master_file w with
  | (Raise e, w) => (Raise e, w)
  | (Ok _, w) =>
      match _recalculate_with_libreoffice new_master_file w with
      | (Raise e, w) => (Raise e, w)
      | (Ok _, w) => (Ok new_master_file, w)
      end
  end.

(** The [except Exception] block: keep a copy for troubleshooting, ignore a
    failure to do so. *)
Definition save_error_state (new_master_file : string) (w : world) : world :=
  if path_exists w new_master_file then
    let error_file := new_master_file +:+ ".error" in
    match copy_file new_master_file error_file w with
    | (Ok _, w') => w'
    | (Raise _, w') => w'
    end
  else w.

Definition update_master_workbook (raw_file master_template : string)
    (target_date : option datetime) (w : world) : res string * world :=
  match merger_target_date master_template target_date with
  | Raise e => (Raise e, w)
  | Ok target_date =>
      let new_master_file := new_master_path target_date in
      match copy_file master_template new_master_file w with
      | (Raise e, w) => (Raise e, w)
      | (Ok _, w) =>
          match update_body raw_file new_master_file w with
          | (Ok path, w) => (Ok path, w)
          | (Raise e, w) => (Raise e, save_error_state new_master_file w)
          end
      end
  end.

(** *** Orchestrator *)

(** [os.makedirs(path, exist_ok=True)]; directories themselves are not
    part of [world]. *)
Definition makedirs (path : string) (w : world) : res unit :=
  if String.eqb path "" then Raise (FileNotFoundError path)
  else if path_exists w path then Raise FileExistsError
  else Ok tt.

(** The date [process] works for. *)
Definition process_target_date (master_template : string) (target_date : option datetime)
  : res datetime :=
  match target_date with
  | Some d => Ok d
  | None =>
      let! template_date := _extract_date_from_filename master_template in
      match template_date with
      | Some template_date => plus_one_day template_date
      | None => get_yesterday_date
      end
  end.

Definition process (master_template : string) (target_date : option datetime) (w : world)
  : res string * world :=
  match makedirs (work_dir self) w with
  | Raise e => (Raise e, w)
  | Ok _ =>
      match process_target_date master_template target_date with
      | Raise e => (Raise e, w)
      | Ok target_date =>
          let raw_file := OsPath.join (work_dir self) "raw_export.xlsx" in
          match run_vde_export raw_file (Some target_date) w with
          | (Raise e, w) => (Raise e, w)
          | (Ok _, w) => update_master_workbook raw_file master_template (Some target_date) w
          end
      end
  end.

End Pipeline.

(** ** The claims as predicates, and concrete instances *)

(** Every Business Date the pipeline makes is timezone-aware: the date read
    from a file name, the yesterday fallback, and the merger's fallback to
    the current date. *)
Definition business_dates_aware (P : Platform) (self : WorkbookProcessor) : Prop :=
  (forall filename d,
    _extract_date_from_filename P self filename = Ok (Some d) -> aware d) /\
  (forall d, get_yesterday_date P self = Ok d -> aware d) /\
  (forall master_template d,
    _extract_date_from_filename P self master_template = Ok None ->
    merger_target_date P self master_template None = Ok d -> aware d).

(** The used range of a worksheet: the rectangle from (1, 1) to
    (max_row, max_column) of a sheet that holds a cell. *)
Definition used_range (s : sheet) (rc : nat * nat) : Prop :=
  s <> ∅ /\ (1 <= fst rc <= max_row s)%nat /\ (1 <= snd rc <= max_column s)%nat.

(** [run_vde_export] raises only when a run of the export tool exited with a
    non-zero status or left no file at the output path. *)
Definition raises_only_on_tool_failure (P : Platform) (self : WorkbookProcessor)
  (output_file : string) (target_date : option datetime) (w : world) : Prop :=
  forall e w',
  run_vde_export P self output_file target_date w = (Raise e, w') ->
  exists cmd rc stdout stderr files',
    vde P cmd (export_script_dir self) (files w) = Exited rc stdout stderr files'
    /\ (rc <> 0 \/ files' !! output_file = None).

(** The text of [n] times the character [c]. *)
Fixpoint repeat_char (n : nat) (c : ascii) : string :=
  match n with
  | O => EmptyString
  | S n' => String c (repeat_char n' c)
  end.

(** Some line of the log contains the text [secret]. *)
Definition log_mentions (secret : string) (w : world) : bool :=
  existsb (fun entry => Py.contains (snd entry) secret) (log w).

(** A tz database that knows two zones. *)
Definition demo_gettz (name : string) : option tzinfo :=
  if String.eqb name "America/New_York" then Some (Zone name)
  else if String.eqb name "UTC" then Some (Zone name)
  else None.

Definition demo_utcoffset (z : tzinfo) (d : datetime) : Z :=
  match z with
  | Zone key => if String.eqb key "America/New_York" then -240 else 0
  end.

Definition demo_clock (z : option tzinfo) : datetime :=
  Datetime 2024 7 3 9 30 0 0 z.

Definition demo_raw_sheet : sheet :=
  {[ (1, 1)%nat := Some (Text "time"); (1, 2)%nat := Some (Text "fill_raw");
   (2, 1)%nat := Some (Text "07:00"); (2, 2)%nat := Some (Numeric "41.5") ]}.

Definition demo_import_sheet : sheet :=
  {[ (1, 1)%nat := Some (Text "old"); (3, 3)%nat := Some (Numeric "7") ]}.

Definition demo_raw_wb : workbook := [("RAW", demo_raw_sheet)].

Definition demo_template_wb : workbook :=
  [("Summary", {[ (1, 1)%nat := Some (Text "Daily report") ]});
   ("Raw Import", demo_import_sheet)].

(** An export tool that writes the raw workbook to the path after [--output]
    and exits with status 0. *)
Definition tool_ok (cmd : list string) (cwd : string) (fs : gmap string content)
  : proc_outcome :=
  Exited 0 (Some "exported 2 rows") (Some "")
         (<[default "" (cmd !! 25%nat) := Xlsx demo_raw_wb]> fs).

(** An export tool that writes the raw workbook to [path], whatever its
    command line, and exits with status 0. *)
Definition tool_writes (path : string) (cmd : list string) (cwd : string)
  (fs : gmap string content) : proc_outcome :=
  Exited 0 (Some "") (Some "") (<[path := Xlsx demo_raw_wb]> fs).

(** An export tool that exits with status 1 and writes nothing. *)
Definition tool_fails (cmd : list string) (cwd : string) (fs : gmap string content)
  : proc_outcome :=
  Exited 1 (Some "") (Some "401 Unauthorized") fs.

(** An office suite that exits with status 1 and converts nothing. *)
Definition office_fails (cmd : list string) (fs : gmap string content) : convert_outcome :=
  Converted 1 "source file could not be loaded" [].

Definition demo_signal_repr (n : Z) : option string :=
  if n =? 9 then Some "<Signals.SIGKILL: 9>" else None.

Definition demo_platform
  (tool : list string -> string -> gmap string content -> proc_outcome) : Platform :=
  {| gettz := demo_gettz; utcoffset := demo_utcoffset; clock := demo_clock;
   vde := tool; libreoffice := office_fails; mkdtemp := Some "/tmp/tmpq1w2e3";
   signal_repr := demo_signal_repr |}.

Definition demo_config : WorkbookProcessor :=
  {| work_dir := "/work"; export_script_path := "/opt/vde/vde.py";
   api_key_id := "0d1f-key-id"; api_key := "s3cr3tk3y"; org_id := "org-17";
   timezone := "America/New_York";
   export_start_time := "7:00"; export_end_time := "19:00";
   libreoffice_available := true |}.

Definition with_timezone (self : WorkbookProcessor) (name : string) : WorkbookProcessor :=
  {| work_dir := work_dir self; export_script_path := export_script_path self;
   api_key_id := api_key_id self; api_key := api_key self; org_id := org_id self;
   timezone := name;
   export_start_time := export_start_time self; export_end_time := export_end_time self;
   libreoffice_available := libreoffice_available self |}.

Definition with_export_script (self : WorkbookProcessor) (path : string) : WorkbookProcessor :=
  {| work_dir := work_dir self; export_script_path := path;
   api_key_id := api_key_id self; api_key := api_key self; org_id := org_id self;
   timezone := timezone self;
   export_start_time := export_start_time self; export_end_time := export_end_time self;
   libreoffice_available := libreoffice_available self |}.

Definition with_credentials (self : WorkbookProcessor) (key_id key : string)
  : WorkbookProcessor :=
  {| work_dir := work_dir self; export_script_path := export_script_path self;
   api_key_id := key_id; api_key := key; org_id := org_id self;
   timezone := timezone self;
   export_start_time := export_start_time self; export_end_time := export_end_time self;
   libreoffice_available := libreoffice_available self |}.

Definition with_start_time (self : WorkbookProcessor) (t : string) : WorkbookProcessor :=
  {| work_dir := work_dir self; export_script_path := export_script_path self;
   api_key_id := api_key_id self; api_key := api_key self; org_id := org_id self;
   timezone := timezone self;
   export_start_time := t; export_end_time := export_end_time self;
   libreoffice_available := libreoffice_available self |}.

Definition demo_target_date : datetime :=
  Datetime 2024 7 2 0 0 0 0 (Some (Zone "America/New_York")).

Definition demo_template : string := "/srv/templates/3895th_070124.xlsx".

Definition demo_world : world :=
  World {[ demo_template := Xlsx demo_template_wb ]} ∅ [].

Definition demo_raw_file : string := "/work/raw_export.xlsx".

(** The world once the export has written the raw workbook. *)
Definition demo_world_exported : world :=
  World {[ demo_template := Xlsx demo_template_wb; demo_raw_file := Xlsx demo_raw_wb ]} ∅ [].

(** The same, with the template write-protected. *)
Definition demo_world_protected : world :=
  World {[ demo_template := Xlsx demo_template_wb; demo_raw_file := Xlsx demo_raw_wb ]}
        {[ demo_template ]} [].

(** The same, with a raw workbook whose only sheet has another title. *)
Definition demo_world_untitled : world :=
  World {[ demo_template := Xlsx demo_template_wb;
         demo_raw_file := Xlsx [("Sheet1", demo_raw_sheet)] ]} ∅ [].

(** ** Construction: the probes of [__init__] *)

(** Outcome of [subprocess.run(cmd, check=True)] with nothing captured: the
    child could not be started, or it ran, possibly changed files, and
    exited. *)
Inductive setup_outcome : Type :=
  | SetupNotStarted
  | SetupExited (returncode : Z) (files_after : gmap string content).

(** The two programs [__init__] starts: [which libreoffice], of which only the
    exit status is used ([None]: [subprocess.run] raised), and the [bash] run
    of the setup script, which may change files. *)
Record Shell : Type := {
  which : list string -> option Z;
  bash : list string -> gmap string content -> setup_outcome
}.

(** [os.path.exists(p)] for a path that may be a directory: a file is stored
    at [p], or some file is stored below [p]. *)
Definition exists_on_disk (w : world) (p : string) : bool :=
  path_exists w p
  || existsb (fun q => Py.startswith (fst q) (p +:+ "/")) (map_to_list (files w)).

(** [_check_libreoffice]: the exit status of [which libreoffice] is 0; an
    exception of [subprocess.run] gives [False]. *)
Definition _check_libreoffice (sh : Shell) : bool :=
  match which sh ["which"; "libreoffice"] with
  | Some returncode => returncode =? 0
  | None => false
  end.

(** What [_setup_venv] reports in the log. *)
Inductive setup_report : Type :=
  | SetupCompleted
  | SetupScriptNotFound
  | SetupFailed.

(** [_setup_venv]: every exception is caught and logged; the files are those
    the script left, also when it exits with a non-zero status. *)
Definition _setup_venv (sh : Shell) (export_script_dir : string) (w : world)
  : setup_report * world :=
  let setup_script := OsPath.join export_script_dir "setup.sh" in
  if exists_on_disk w setup_script then
    match bash sh ["bash"; "-c"; "cd " +:+ export_script_dir +:+ " && source ./setup.sh"]
               (files w) with
    | SetupNotStarted => (SetupFailed, w)
    | SetupExited returncode files' =>
        let w := World files' (readonly w) (log w) in
        if negb (returncode =? 0) then (SetupFailed, w) else (SetupCompleted, w)
    end
  else (SetupScriptNotFound, w).

(** [__init__], with [None] for an argument left to its default. *)
Definition __init__ (sh : Shell) (work_dir export_script api_key_id api_key org_id : string)
    (timezone export_start_time export_end_time : option string) (w : world)
  : WorkbookProcessor * world :=
  let export_script_dir := OsPath.dirname export_script in
  let libreoffice_available := _check_libreoffice sh in
  let self :=
    {| work_dir := work_dir; export_script_path := export_script;
       api_key_id := api_key_id; api_key := api_key; org_id := org_id;
       timezone := default "America/New_York" timezone;
       export_start_time := default "7:00" export_start_time;
       export_end_time := default "19:00" export_end_time;
       libreoffice_available := libreoffice_available |} in
  let venv_path := OsPath.join export_script_dir ".venv" in
  if negb (exists_on_disk w venv_path) then
    (self, snd (_setup_venv sh export_script_dir w))
  else (self, w).

(** ** Predicates of the further properties *)

(** A day of the calendar that [datetime] can hold. *)
Definition valid_date (d : datetime) : Prop :=
  1 <= year d <= 9999 /\ 1 <= month d <= 12 /\
  1 <= day d <= days_in_month (year d) (month d).

(** The same instant at midnight, in the zone [z], in the century the
    two-digit year of a file name is read in. *)
Definition read_back (d : datetime) (z : option tzinfo) : datetime :=
  Datetime (2000 + year d mod 100) (month d) (day d) 0 0 0 0 z.

Definition with_window (self : WorkbookProcessor) (start_time end_time : string)
  : WorkbookProcessor :=
  {| work_dir := work_dir self; export_script_path := export_script_path self;
     api_key_id := api_key_id self; api_key := api_key self; org_id := org_id self;
     timezone := timezone self;
     export_start_time := start_time; export_end_time := end_time;
     libreoffice_available := libreoffice_available self |}.

(** An office suite that converts the workbook it is given: the scratch
    directory holds a lock file and the converted workbook. *)
Definition office_converts (wb : workbook) (cmd : list string) (fs : gmap string content)
  : convert_outcome :=
  Converted 0 "" [(".~lock.3895th_070224.xlsx#", Blob "lock"); ("3895th_070224.xlsx", Xlsx wb)].

Definition demo_platform_converting (wb : workbook) : Platform :=
  {| gettz := demo_gettz; utcoffset := demo_utcoffset; clock := demo_clock;
     vde := tool_ok; libreoffice := office_converts wb; mkdtemp := Some "/tmp/tmpq1w2e3";
     signal_repr := demo_signal_repr |}.

(** A shell on which [which libreoffice] finds nothing and the setup script
    creates the interpreter of the virtual environment. *)
Definition demo_shell : Shell :=
  {| which := fun _ => Some 1;
     bash := fun _ fs => SetupExited 0 (<["/opt/vde/.venv/bin/python" := Blob "ELF"]> fs) |}.

Definition demo_world_installed : world :=
  World {[ "/opt/vde/vde.py" := Blob "import sys";
           "/opt/vde/.venv/bin/python" := Blob "ELF" ]} ∅ [].

(** The export tool as checked out: the setup script is there, the virtual
    environment is not. *)
Definition demo_world_fresh : world :=
  World {[ "/opt/vde/vde.py" := Blob "import sys";
           "/opt/vde/setup.sh" := Blob "python3 -m venv .venv" ]} ∅ [].

(** * Properties *)

(** ** The library functions on sample inputs *)

Example basename_of_path : OsPath.basename "/srv/templates/3895th_070124.xlsx" = "3895th_070124.xlsx".
Proof. reflexivity. Qed.

Example dirname_of_script :
  OsPath.dirname "/opt/vde/vde.py" = "/opt/vde" /\ OsPath.dirname "vde.py" = ""
  /\ OsPath.dirname "/vde.py" = "/" /\ OsPath.dirname "a//b" = "a".
Proof. by repeat split. Qed.

Example join_of_paths :
  OsPath.join "/work" "raw_export.xlsx" = "/work/raw_export.xlsx"
  /\ OsPath.join "/work/" "raw_export.xlsx" = "/work/raw_export.xlsx"
  /\ OsPath.join "" ".venv" = ".venv" /\ OsPath.join "/work" "/abs" = "/abs".
Proof. by repeat split. Qed.

Example splitext_of_names :
  OsPath.splitext_root "3895th_070224.xlsx" = "3895th_070224"
  /\ OsPath.splitext_root ".hidden" = ".hidden"
  /\ OsPath.splitext_root "archive.tar.gz" = "archive.tar"
  /\ OsPath.splitext_root "noext" = "noext".
Proof. by repeat split. Qed.

Example int_of_text :
  Py.int "07" = Some 7 /\ Py.int " +1_0 " = Some 10 /\ Py.int "-3" = Some (-3)
  /\ Py.int "7_" = None /\ Py.int "_7" = None /\ Py.int "" = None /\ Py.int "1 0" = None.
Proof. by repeat split. Qed.

Example int_of_margins :
  Py.int (String "031" "7") = None /\ Py.int (String "7" (String "031" "")) = None
  /\ Py.int (String "009" (String "010" (String "011" (String "012" (String "013" " 7")))))
     = Some 7
  /\ Py.strip (String "031" "7") = "7".
Proof. by repeat split. Qed.

Example int_of_long_text :
  Py.int (repeat_char 4300 "1") <> None /\ Py.int (repeat_char 4301 "1") = None
  /\ int_or_raise (repeat_char 4301 "0" +:+ "x")
     = Raise (ValueError "Exceeds the limit (4300 digits) for integer string conversion: value has 4301 digits; use sys.set_int_max_str_digits() to increase the limit")
  /\ int_or_raise "12x" = Raise (ValueError "invalid literal for int() with base 10: '12x'").
Proof. split_and!; by vm_compute. Qed.

Example split_of_times :
  Py.split ":" "7:00" = ["7"; "00"] /\ Py.split ":" "" = [""]
  /\ Py.split ":" "19:00:" = ["19"; "00"; ""].
Proof. by repeat split. Qed.

Example str_of_argv :
  Py.str_list ["python"; "--apiKey"; "it's"] = String.append "['python', '--apiKey', "
    (String "034" (String.append "it's" (String "034" "]")))
  /\ Py.str_int 120 = "120" /\ Py.str_int (-5) = "-5" /\ Py.zero_pad 2 7 = "07".
Proof. by repeat split. Qed.

Example search_of_names :
  re_search "3895th_070124.xlsx" = Some "070124" /\ re_search "notes.xlsx" = None
  /\ re_search "old_3895th_123199.xlsx.bak" = Some "123199"
  /\ re_search "3895th_0701.xlsx" = None.
Proof. by repeat split. Qed.

Example parse_of_times :
  parse_hm "7:00" = Ok (7, 0) /\ parse_hm "19:00" = Ok (19, 0)
  /\ is_ok (parse_hm "7") = false /\ is_ok (parse_hm "7:00:00") = false
  /\ is_ok (parse_hm "seven:00") = false.
Proof. by repeat split. Qed.

Example one_day_steps :
  plus_one_day (Datetime 2024 2 28 0 0 0 0 None) = Ok (Datetime 2024 2 29 0 0 0 0 None)
  /\ plus_one_day (Datetime 2023 12 31 0 0 0 0 None) = Ok (Datetime 2024 1 1 0 0 0 0 None)
  /\ minus_one_day (Datetime 2024 3 1 9 30 0 0 None) = Ok (Datetime 2024 2 29 9 30 0 0 None)
  /\ minus_one_day (Datetime 2024 1 1 0 0 0 0 None) = Ok (Datetime 2023 12 31 0 0 0 0 None)
  /\ plus_one_day (Datetime 9999 12 31 0 0 0 0 None) = Raise OverflowError.
Proof. by repeat split. Qed.

Example replace_of_large_numbers :
  let d := Datetime 2024 7 2 0 0 0 0 None in
  replace_time d 7 30 = Ok (Datetime 2024 7 2 7 30 0 0 None)
  /\ replace_time d 24 0 = Raise (ValueError "hour must be in 0..23")
  /\ replace_time d 2147483647 0 = Raise (ValueError "hour must be in 0..23")
  /\ replace_time d 2147483648 0 = Raise OverflowError
  /\ replace_time d 24 2147483648 = Raise OverflowError
  /\ replace_time d (-2147483649) 0 = Raise OverflowError
  /\ is_ok (export_window (with_start_time demo_config "4294967296:00") d) = false.
Proof. by repeat split. Qed.

Example format_of_early_years :
  let d := Datetime 999 1 2 0 0 0 0 None in
  fmt_date d = "999-01-02" /\ strftime_iso (demo_platform tool_ok) d = "999-01-02T00:00:00"
  /\ str_datetime (demo_platform tool_ok) d = "0999-01-02 00:00:00"
  /\ strftime_mmddyy d = "010299" /\ fmt_date demo_target_date = "2024-07-02".
Proof. by repeat split. Qed.

Example copy_of_protected_file :
  copy_file demo_template "/work/copy.xlsx" demo_world_protected
  = (Ok tt, World (<["/work/copy.xlsx" := Xlsx demo_template_wb]> (files demo_world_protected))
                  {[ demo_template; "/work/copy.xlsx" ]} [])
  /\ fst (copy_file demo_template "/work/copy.xlsx"
                    (World (files demo_world_protected) {[ "/work/copy.xlsx" ]} []))
     = Raise PermissionError.
Proof. split; by vm_compute. Qed.

(** ** Strings *)

Lemma append_assoc (a b c : string) : (a +:+ b) +:+ c = a +:+ b +:+ c.
Proof. induction a as [|x a IH]; simpl; [done|]. by rewrite IH. Qed.

Lemma startswith_app (p t : string) : Py.startswith (p +:+ t) p = true.
Proof.
  induction p as [|a p IH]; simpl; [done|].
  by rewrite Ascii.eqb_refl, IH.
Qed.

Lemma startswith_inv (p s : string) :
  Py.startswith s p = true -> exists t, s = p +:+ t.
Proof.
  revert s. induction p as [|a p IH]; intros s H; simpl in *.
  - by exists s.
  - destruct s as [|b s]; [done|].
    apply andb_true_iff in H as [Hab Hs].
    apply Ascii.eqb_eq in Hab as ->.
    destruct (IH _ Hs) as [t ->]. by exists t.
Qed.

Lemma take_drop (n : nat) (s : string) : Py.take n s +:+ Py.drop n s = s.
Proof.
  revert s. induction n as [|n IH]; intros [|c s]; simpl; try done.
  by rewrite IH.
Qed.

Lemma take_app_length (n : nat) (a b : string) :
  String.length a = n -> Py.take n (a +:+ b) = a.
Proof.
  intros <-. induction a as [|c a IH]; simpl.
  - by destruct b.
  - by rewrite IH.
Qed.

Lemma drop_app_length (n : nat) (a b : string) :
  String.length a = n -> Py.drop n (a +:+ b) = b.
Proof. intros <-. induction a as [|c a IH]; simpl; [by destruct b | done]. Qed.

Lemma take_length_le (n : nat) (s : string) : (String.length (Py.take n s) <= n)%nat.
Proof.
  revert s. induction n as [|n IH]; intros [|c s]; simpl; try lia.
  specialize (IH s). lia.
Qed.

(** ** The filename pattern: the search agrees with what the pattern denotes *)

Lemma re_match_here_Some (s d : string) :
  re_match_here s = Some d <->
  exists suf, s = "3895th_" +:+ d +:+ ".xlsx" +:+ suf
              /\ String.length d = 6%nat /\ Py.all_chars Py.is_digit d = true.
Proof.
  unfold re_match_here. split.
  - destruct (Py.startswith s "3895th_") eqn:Hpre; [|done].
    apply startswith_inv in Hpre as [t ->].
    change (Py.drop 7 ("3895th_" +:+ t)) with t.
    remember (Py.take 6 t) as d' eqn:Hd'.
    destruct (_ && _) eqn:Hc; [|done]. intros [= <-].
    apply andb_true_iff in Hc as [Hc Hext].
    apply andb_true_iff in Hc as [Hlen Hdig].
    apply Nat.eqb_eq in Hlen.
    apply startswith_inv in Hext as [suf Hsuf].
    exists suf. split_and!; [|done..].
    rewrite <- Hsuf, Hd'. by rewrite take_drop.
  - intros (suf & -> & Hlen & Hdig).
    rewrite (startswith_app "3895th_").
    change (Py.drop 7 ("3895th_" +:+ d +:+ ".xlsx" +:+ suf)) with (d +:+ ".xlsx" +:+ suf).
    rewrite (take_app_length 6 d), (drop_app_length 6 d) by done.
    rewrite Hlen, Hdig. by rewrite (startswith_app ".xlsx").
Qed.

Lemma has_date_token_cases (s : string) :
  has_date_token s <->
  (exists d, re_match_here s = Some d) \/
  (exists c s', s = String c s' /\ has_date_token s').
Proof.
  split.
  - intros (pre & d & suf & -> & Hlen & Hdig).
    destruct pre as [|c pre].
    + left. exists d. apply re_match_here_Some. by exists suf.
    + right. exists c, (pre +:+ "3895th_" +:+ d +:+ ".xlsx" +:+ suf).
      split; [done|]. by exists pre, d, suf.
  - intros [[d Hd] | (c & s' & -> & pre & d & suf & -> & Hlen & Hdig)].
    + apply re_match_here_Some in Hd as (suf & -> & Hlen & Hdig).
      by exists "", d, suf.
    + by exists (String c pre), d, suf.
Qed.

Lemma re_search_None (s : string) : re_search s = None <-> ~ has_date_token s.
Proof.
  induction s as [|c s IH].
  - split; [|done]. intros _ H.
    apply has_date_token_cases in H as [[d Hd]|(c & s' & [=] & _)]. done.
  - rewrite has_date_token_cases. simpl.
    destruct (re_match_here (String c s)) as [d|] eqn:Hm.
    + split; [done|]. intros H. destruct H. left. by exists d.
    + rewrite IH. split.
      * intros Hn [[d Hd]|(c' & s' & [= -> ->] & Htok)]; [congruence|done].
      * intros Hn Htok. apply Hn. right. by exists c, s.
Qed.

Lemma re_search_Some (s d : string) :
  re_search s = Some d ->
  String.length d = 6%nat /\ Py.all_chars Py.is_digit d = true /\ has_date_token s.
Proof.
  induction s as [|c s IH]; simpl; [done|].
  destruct (re_match_here (String c s)) as [d'|] eqn:Hm.
  - intros [= ->].
    pose proof Hm as Hm'. apply re_match_here_Some in Hm as (suf & _ & Hlen & Hdig).
    split_and!; [done..|]. apply has_date_token_cases. left. by exists d.
  - intros H. destruct (IH H) as (Hlen & Hdig & Htok).
    split_and!; [done..|]. apply has_date_token_cases. right. by exists c, s.
Qed.

(** ** Date resolver *)

Lemma is_digit_facts (c : ascii) :
  Py.is_digit c = true ->
  Py.is_c_space c = false /\ Ascii.eqb c "-" = false /\ Ascii.eqb c "+" = false
  /\ 0 <= Py.digit_val c <= 9.
Proof.
  destruct c as [[] [] [] [] [] [] [] []]; vm_compute; intros; try discriminate;
    repeat split; congruence.
Qed.

Lemma int_two_digits (a b : ascii) :
  Py.is_digit a = true -> Py.is_digit b = true ->
  Py.int (String a (String b "")) = Some (decimal (String a (String b ""))).
Proof.
  intros Ha Hb.
  destruct (is_digit_facts a Ha) as (Hsa & Hma & Hpa & _).
  destruct (is_digit_facts b Hb) as (Hsb & _).
  unfold Py.int, Py.int_text, Py.int_trim. simpl Py.skip_spaces. rewrite Hsa.
  change (String.rev (String a (String b ""))) with (String b (String a "")).
  simpl Py.skip_spaces. rewrite Hsb.
  change (String.rev (String b (String a ""))) with (String a (String b "")).
  cbv beta iota. rewrite Hma, Hpa. unfold Py.int_body. rewrite Ha.
  cbn [Py.int_scan]. by rewrite Ha, Hb.
Qed.

(** [int()] on two digits, with the error kept. *)
Lemma int_text_two_digits (a b : ascii) :
  Py.is_digit a = true -> Py.is_digit b = true ->
  Py.int_text (String a (String b "")) = inl (decimal (String a (String b ""))).
Proof.
  intros Ha Hb. pose proof (int_two_digits a b Ha Hb) as H.
  unfold Py.int in H. by destruct (Py.int_text _) as [n|e]; [injection H as ->|].
Qed.

Lemma decimal_two_digits_bounds (a b : ascii) :
  Py.is_digit a = true -> Py.is_digit b = true ->
  0 <= decimal (String a (String b "")) <= 99.
Proof.
  intros Ha Hb.
  destruct (is_digit_facts a Ha) as (_ & _ & _ & ?).
  destruct (is_digit_facts b Hb) as (_ & _ & _ & ?).
  unfold decimal. simpl. lia.
Qed.

(** A six-digit token, taken apart. *)
Lemma six_digits (d : string) :
  String.length d = 6%nat -> Py.all_chars Py.is_digit d = true ->
  exists c0 c1 c2 c3 c4 c5,
    d = String c0 (String c1 (String c2 (String c3 (String c4 (String c5 "")))))
    /\ Py.is_digit c0 = true /\ Py.is_digit c1 = true /\ Py.is_digit c2 = true
    /\ Py.is_digit c3 = true /\ Py.is_digit c4 = true /\ Py.is_digit c5 = true.
Proof.
  intros Hlen Hdig.
  destruct d as [|c0 [|c1 [|c2 [|c3 [|c4 [|c5 [|c6 d]]]]]]]; try discriminate.
  simpl in Hdig. repeat (apply andb_true_iff in Hdig as [? Hdig]).
  by exists c0, c1, c2, c3, c4, c5.
Qed.

Section DateResolver.

Variable P : Platform.
Variable self : WorkbookProcessor.

(** With a token found, the [try] block is the [datetime] constructor on
    the token's month, day and year. *)
Lemma extract_date_body_token (filename d : string) :
    re_search (OsPath.basename filename) = Some d ->
    extract_date_body P self filename =
      res_bind (datetime_new (token_year d) (token_month d) (token_day d)
                             (gettz P (timezone self)))
               (fun dt => Ok (Some dt)).
Proof.
    intros Hs. unfold extract_date_body. rewrite Hs.
    apply re_search_Some in Hs as (Hlen & Hdig & _).
    destruct (six_digits d Hlen Hdig)
      as (c0 & c1 & c2 & c3 & c4 & c5 & -> & H0 & H1 & H2 & H3 & H4 & H5).
    unfold int_or_raise, slice, token_year, token_month, token_day. simpl Py.take.
    rewrite !int_text_two_digits by done. simpl res_bind.
    by rewrite (Z.add_comm _ 2000).
Qed.

Lemma token_year_range (d : string) :
    String.length d = 6%nat -> Py.all_chars Py.is_digit d = true ->
    2000 <= token_year d <= 2099.
Proof.
    intros Hlen Hdig.
    destruct (six_digits d Hlen Hdig)
      as (c0 & c1 & c2 & c3 & c4 & c5 & -> & H0 & H1 & H2 & H3 & H4 & H5).
    unfold token_year. simpl Py.take.
    pose proof (decimal_two_digits_bounds c4 c5 H4 H5). lia.
Qed.

Lemma extract_valid_token (filename d : string) :
    re_search (OsPath.basename filename) = Some d -> valid_token d ->
    _extract_date_from_filename P self filename =
      Ok (Some (Datetime (token_year d) (token_month d) (token_day d) 0 0 0 0
                         (gettz P (timezone self)))).
Proof.
    intros Hs [Hm Hd]. unfold _extract_date_from_filename.
    rewrite (extract_date_body_token _ _ Hs).
    apply re_search_Some in Hs as (Hlen & Hdig & _).
    pose proof (token_year_range d Hlen Hdig) as Hy.
    unfold datetime_new.
    replace ((1 <=? token_year d) && (token_year d <=? 9999)) with true by lia.
    replace ((1 <=? token_month d) && (token_month d <=? 12)) with true by lia.
    replace ((1 <=? token_day d) && (token_day d <=? _)) with true by lia.
    done.
Qed.

Lemma extract_invalid_token (filename d : string) :
    re_search (OsPath.basename filename) = Some d -> ~ valid_token d ->
    _extract_date_from_filename P self filename = Ok None.
Proof.
    intros Hs Hinv. unfold _extract_date_from_filename.
    rewrite (extract_date_body_token _ _ Hs). unfold datetime_new.
    destruct (negb ((1 <=? token_year d) && _)); [done|].
    destruct (negb ((1 <=? token_month d) && _)) eqn:Hm; [done|].
    destruct (negb ((1 <=? token_day d) && _)) eqn:Hd; [done|].
    destruct Hinv. split; lia.
Qed.

Lemma extract_no_token (filename : string) :
    ~ has_date_token (OsPath.basename filename) ->
    _extract_date_from_filename P self filename = Ok None.
Proof.
    intros Hn. apply re_search_None in Hn.
    unfold _extract_date_from_filename, extract_date_body. by rewrite Hn.
Qed.

Lemma extract_never_raises (filename : string) :
    exists r, _extract_date_from_filename P self filename = Ok r.
Proof.
    unfold _extract_date_from_filename, try_except.
    destruct (extract_date_body P self filename); eauto.
Qed.

End DateResolver.

(** C8. [_extract_date_from_filename] never raises. It returns [None] when the
    base name holds no [3895th_MMDDYY.xlsx] token and when the six digits of
    the (leftmost) token are not a month and day of the calendar; otherwise it
    returns that day of year 20YY at midnight in the zone [gettz] gives for the
    configured name. So ["3895th_070124.xlsx"] gives 2024-07-01 and
    ["notes.xlsx"] gives [None]. *)
Theorem C8_extract_date_from_filename (P : Platform) (self : WorkbookProcessor) :
  (forall filename, exists r, _extract_date_from_filename P self filename = Ok r) /\
  (forall filename,
      ~ has_date_token (OsPath.basename filename) ->
      _extract_date_from_filename P self filename = Ok None) /\
  (forall filename d,
      re_search (OsPath.basename filename) = Some d -> ~ valid_token d ->
      _extract_date_from_filename P self filename = Ok None) /\
  (forall filename d,
      re_search (OsPath.basename filename) = Some d -> valid_token d ->
      _extract_date_from_filename P self filename =
        Ok (Some (Datetime (token_year d) (token_month d) (token_day d) 0 0 0 0
                           (gettz P (timezone self))))) /\
  _extract_date_from_filename P self "3895th_070124.xlsx" =
    Ok (Some (Datetime 2024 7 1 0 0 0 0 (gettz P (timezone self)))) /\
  _extract_date_from_filename P self "notes.xlsx" = Ok None.
Proof.
  split_and!.
  - apply extract_never_raises.
  - apply extract_no_token.
  - apply extract_invalid_token.
  - apply extract_valid_token.
  - reflexivity.
  - reflexivity.
Qed.

(** ** Timezone awareness *)

Lemma minus_one_day_tz (d d' : datetime) : minus_one_day d = Ok d' -> tz d' = tz d.
Proof.
  unfold minus_one_day.
  repeat match goal with |- context [if ?b then _ else _] => destruct b end;
    by intros [= <-].
Qed.

Lemma plus_one_day_tz (d d' : datetime) : plus_one_day d = Ok d' -> tz d' = tz d.
Proof.
  unfold plus_one_day.
  repeat match goal with |- context [if ?b then _ else _] => destruct b end;
    by intros [= <-].
Qed.

Lemma extract_tz (P : Platform) (self : WorkbookProcessor) (filename : string) (d : datetime) :
  _extract_date_from_filename P self filename = Ok (Some d) ->
  tz d = gettz P (timezone self).
Proof.
  unfold _extract_date_from_filename.
  destruct (re_search (OsPath.basename filename)) as [tok|] eqn:Hs.
  - rewrite (extract_date_body_token _ _ _ _ Hs). unfold datetime_new.
    repeat match goal with |- context [if ?b then _ else _] => destruct b end;
      simpl; by intros [= <-].
  - unfold extract_date_body. by rewrite Hs.
Qed.

(** C9, as stated, fails: with a zone name the tz database does not know,
    [gettz] gives no zone and the date read from the file name is naive. *)
Lemma C9_unknown_zone_gives_naive_date :
  ~ business_dates_aware (demo_platform tool_ok) (with_timezone demo_config "Mars/Olympus_Mons").
Proof.
  intros (Hextract & _).
  specialize (Hextract "3895th_070124.xlsx" _ eq_refl).
  by destruct Hextract.
Qed.

(** C9, amended. When the tz database resolves the configured zone name,
    every Business Date the pipeline makes (from the file name, the yesterday
    fallback, the merger's current-date fallback) carries that zone. *)
Theorem C9_business_dates_aware_for_known_zone (P : Platform) (self : WorkbookProcessor) :
  is_Some (gettz P (timezone self)) ->
  business_dates_aware P self.
Proof.
  intros Hz. split_and!.
  - intros filename d Hd. unfold aware. by rewrite (extract_tz _ _ _ _ Hd).
  - intros d Hd. unfold aware, get_yesterday_date in *.
    by rewrite (minus_one_day_tz _ _ Hd).
  - intros master_template d Hnone. unfold merger_target_date. rewrite Hnone. simpl.
    by intros [= <-].
Qed.

(** The amended C9 at the New York configuration. *)
Lemma C9_business_dates_aware_witness :
  is_Some (gettz (demo_platform tool_ok) (timezone demo_config)) /\
  business_dates_aware (demo_platform tool_ok) demo_config.
Proof.
  assert (H : is_Some (gettz (demo_platform tool_ok) (timezone demo_config))) by (by eexists).
  split; [exact H|].
  exact (C9_business_dates_aware_for_known_zone (demo_platform tool_ok) demo_config H).
Defined.

(** ** Masked command logging *)

Lemma mask_after_spec (flag : string) (l : list string) :
((flag ∉ l) /\ mask_after flag l = l) \/
  (exists i, l !! i = Some flag /\ (forall k, (k < i)%nat -> l !! k <> Some flag)
             /\ mask_after flag l = <[S i := "<redacted>"]> l).
Proof.
  unfold mask_after, list_index.
  destruct (list_find (λ y, y = flag) l) as [[i x]|] eqn:Hfind; simpl.
  - apply list_find_Some in Hfind as (Hi & -> & Hfirst).
    right. exists i. split_and!; [done| |].
    + intros k Hk Hlk. by apply (Hfirst k flag Hlk).
    + rewrite Nat.add_1_r. destruct (S i <? length l)%nat eqn:Hlen; [done|].
      apply Nat.ltb_ge in Hlen. by rewrite list_insert_ge.
  - left. split; [|done]. apply list_find_None in Hfind.
    intros Hin. by apply (proj1 (Forall_forall _ _) Hfind flag).
Qed.

Section MaskedCommand.

Variable P : Platform.
Variable self : WorkbookProcessor.
Variables (output_file : string) (start_time end_time : datetime).

Local Abbreviation cmd := (build_cmd P self output_file start_time end_time).

(** The two elements the masking replaces follow an element that is the text
    of the one and of the other flag. *)
Lemma mask_cmd_shape :
  exists i j : nat,
    (i <= 4)%nat /\ (j <= 6)%nat /\ j <> S i /\
    cmd !! i = Some "--apiKeyId" /\ cmd !! j = Some "--apiKey" /\
    mask_cmd cmd = <[S j := "<redacted>"]> (<[S i := "<redacted>"]> cmd).
Proof.
  unfold mask_cmd.
  destruct (mask_after_spec "--apiKeyId" cmd) as [[Hnot _]|(i & Hi & Hfirst & ->)].
  { destruct Hnot. apply list_elem_of_lookup. by exists 4%nat. }
  assert (i <= 4)%nat as Hi4.
  { destruct (decide (i <= 4)%nat) as [|Hgt]; [done|].
    destruct (Hfirst 4%nat); [lia|done]. }
  set (m1 := <[S i := "<redacted>"]> cmd).
  assert (m1 !! 6%nat = Some "--apiKey") as H6.
  { unfold m1. by rewrite list_lookup_insert_ne by lia. }
  destruct (mask_after_spec "--apiKey" m1) as [[Hnot _]|(j & Hj & Hfirstj & ->)].
  { destruct Hnot. apply list_elem_of_lookup. by exists 6%nat. }
  assert (j <= 6)%nat as Hj6.
  { destruct (decide (j <= 6)%nat) as [|Hgt]; [done|].
    destruct (Hfirstj 6%nat); [lia|done]. }
  assert (j <> S i) as Hne.
  { intros ->. unfold m1 in Hj.
    rewrite list_lookup_insert_eq in Hj; [done|]. simpl. lia. }
  exists i, j. split_and!; [done..| |done].
  unfold m1 in Hj. by rewrite list_lookup_insert_ne in Hj.
Qed.

Lemma venv_python_not_flag :
  cmd !! 0%nat <> Some "--apiKeyId" /\ cmd !! 0%nat <> Some "--apiKey".
Proof.
  assert (exists p, cmd !! 0%nat = Some (p +:+ "python")) as [p ->].
  { simpl. unfold OsPath.join at 1. simpl Py.startswith.
    destruct (_ || _); [by eexists|].
    exists (OsPath.join (venv_path self) "bin" +:+ "/").
    f_equal. by rewrite append_assoc. }
  split; intros [= Heq];
    do 11 (destruct p as [|? p]; [discriminate Heq|]); discriminate Heq.
Qed.

(** Unless the script path is itself the text of a flag, the two elements
    are those at positions 5 and 7: the configured key id and key. *)
Lemma mask_cmd_regular :
  export_script_path self <> "--apiKeyId" -> export_script_path self <> "--apiKey" ->
  mask_cmd cmd = <[7%nat := "<redacted>"]> (<[5%nat := "<redacted>"]> cmd).
Proof.
  intros Hs1 Hs2.
  destruct venv_python_not_flag as [Hv1 Hv2].
  destruct mask_cmd_shape as (i & j & Hi & Hj & Hne & Hci & Hcj & ->).
  assert (i = 4%nat) as ->.
  { destruct i as [|i]; [done|].
    destruct i as [|i]; [by injection Hci|].
    do 2 (destruct i as [|i]; [done|]). lia. }
  assert (j = 6%nat) as ->; [|done].
  destruct j as [|j]; [done|].
  destruct j as [|j]; [by injection Hcj|].
  do 4 (destruct j as [|j]; [done|]). lia.
Qed.

Lemma build_cmd_length : length cmd = 28%nat.
Proof. reflexivity. Qed.

End MaskedCommand.

Lemma emit_log (lvl : log_level) (msg : string) (w : world) :
  log (emit lvl msg w) = log w ++ [(lvl, msg)].
Proof. reflexivity. Qed.

Lemma emit_lines_log (lvl : log_level) (lines : list string) (w : world) :
  exists rest, log (emit_lines lvl lines w) = log w ++ rest.
Proof.
  unfold emit_lines. revert w. induction lines as [|x lines IH]; intros w; cbn [foldl].
  - exists []. by rewrite app_nil_r.
  - destruct (IH (emit lvl ("  " +:+ x) w)) as [rest Hrest].
    exists ((lvl, "  " +:+ x) :: rest).
    rewrite Hrest, emit_log. by rewrite <- app_assoc.
Qed.

Lemma log_stdout_log (stdout : string) (w : world) :
  exists rest, log (log_stdout stdout w) = log w ++ rest.
Proof.
  unfold log_stdout. destruct (Py.split _ _) as [|x l] eqn:Hsplit.
  { exists []. by rewrite app_nil_r. }
  destruct (_ <? _)%nat.
  - destruct (emit_lines_log INFO (take 5 (x :: l)) (emit INFO "vde.py output first lines:" w))
      as [r1 H1].
    destruct (emit_lines_log INFO (drop (length (x :: l) - 5) (x :: l))
                (emit INFO "vde.py output last lines:"
                   (emit INFO "..."
                      (emit_lines INFO (take 5 (x :: l))
                         (emit INFO "vde.py output first lines:" w))))) as [r2 H2].
    eexists. rewrite H2, !emit_log, H1, emit_log. by rewrite <- !app_assoc.
  - destruct (emit_lines_log INFO (x :: l) (emit INFO "vde.py output:" w)) as [r1 H1].
    eexists. rewrite H1, emit_log. by rewrite <- !app_assoc.
Qed.

Lemma export_failed_log (P : Platform) (cmd : list string) (rc : Z) (stderr : string) (w : world) :
  exists rest,
    log (snd (export_failed P cmd rc stderr w)) =
    log w ++ (ERROR, "Failed to run vde.py: " +:+ called_process_error_str P cmd rc) :: rest.
Proof.
  unfold export_failed. cbv zeta. cbn [snd]. destruct (String.eqb stderr "").
  - by exists [].
  - destruct (emit_lines_log ERROR (Py.split "010" (Py.strip stderr))
                (emit ERROR "vde.py stderr output:"
                   (emit ERROR ("Failed to run vde.py: " +:+ called_process_error_str P cmd rc) w)))
      as [rest Hrest].
    eexists. rewrite Hrest, !emit_log. by rewrite <- !app_assoc.
Qed.

(** The first thing [run_export_cmd] does is to log the masked command. *)
Lemma run_export_cmd_log (P : Platform) (self : WorkbookProcessor)
    (cmd : list string) (output_file : string) (w : world) :
  exists rest,
    log (snd (run_export_cmd P self cmd output_file w)) =
    log w ++ (INFO, "Running vde.py command: " +:+ Py.join " " (mask_cmd cmd)) :: rest.
Proof.
  unfold run_export_cmd, masked_log_line. cbv zeta.
  destruct (vde P cmd _ _) as [e|rc [stdout|] [stderr|] files'];
    [by exists [] | | by exists []..].
  - destruct (negb (rc =? 0)).
    + match goal with |- context [export_failed P cmd rc stderr ?w0] =>
        destruct (export_failed_log P cmd rc stderr w0) as [rest Hrest] end.
      eexists. rewrite Hrest. cbn [log emit]. by rewrite <- app_assoc.
    + match goal with |- context [log_stdout stdout ?w0] =>
        destruct (log_stdout_log stdout w0) as [rest Hrest];
        destruct (negb (path_exists (log_stdout stdout w0) output_file)) end;
        cbn [snd].
      * eexists. rewrite Hrest. cbn [log emit]. by rewrite <- app_assoc.
      * eexists. rewrite emit_log, Hrest. cbn [log emit]. by rewrite <- !app_assoc.
Qed.



(** For a script path that is not the text of a flag, the masked command
    does not depend on the configured key id and key. *)
Lemma masked_command_independent_of_credentials (P : Platform) (self : WorkbookProcessor)
    (key_id key : string) (output_file : string) (start_time end_time : datetime) :
  export_script_path self <> "--apiKeyId" -> export_script_path self <> "--apiKey" ->
  mask_cmd (build_cmd P (with_credentials self key_id key) output_file start_time end_time) =
  mask_cmd (build_cmd P self output_file start_time end_time).
Proof.
  intros Hs1 Hs2.
  rewrite (mask_cmd_regular P self) by done.
  by rewrite (mask_cmd_regular P (with_credentials self key_id key)) by done.
Qed.

(** The masking looks for the first element that reads like the flag: with
    the script path [--apiKey] it redacts [-vv] and leaves the key in the
    line. *)
Lemma mask_misses_key_when_script_is_flag :
  let self := with_export_script demo_config "--apiKey" in
  let cmd := build_cmd (demo_platform tool_ok) self demo_raw_file
                       demo_target_date demo_target_date in
  mask_cmd cmd !! 2%nat = Some "<redacted>" /\
  mask_cmd cmd !! 7%nat = Some (api_key self) /\
  Py.contains (masked_log_line cmd) (api_key self) = true.
Proof. by vm_compute. Qed.

(** ** The failure path logs the unmasked command *)

Lemma contains_startswith (s sub : string) :
  Py.startswith s sub = true -> Py.contains s sub = true.
Proof. intros H. destruct s; simpl; by rewrite H. Qed.

Lemma contains_cons (c : ascii) (s sub : string) :
  Py.contains s sub = true -> Py.contains (String c s) sub = true.
Proof. intros H. simpl. rewrite H. apply orb_true_r. Qed.

Lemma contains_app_r (p s sub : string) :
  Py.contains s sub = true -> Py.contains (p +:+ s) sub = true.
Proof.
  intros H. induction p as [|c p IH]; [done|].
  change (String c p +:+ s) with (String c (p +:+ s)). by apply contains_cons.
Qed.

Lemma startswith_app_l (s t sub : string) :
  Py.startswith s sub = true -> Py.startswith (s +:+ t) sub = true.
Proof.
  intros H. apply startswith_inv in H as [u ->].
  rewrite append_assoc. apply startswith_app.
Qed.

Lemma contains_app_l (s t sub : string) :
  Py.contains s sub = true -> Py.contains (s +:+ t) sub = true.
Proof.
  induction s as [|c s IH]; intros H.
  - simpl in H. rewrite orb_false_r in H.
    apply contains_startswith. by apply (startswith_app_l "").
  - simpl in H. apply orb_true_iff in H as [H|H].
    + apply contains_startswith. by apply startswith_app_l.
    + change (String c s +:+ t) with (String c (s +:+ t)).
      apply contains_cons. by apply IH.
Qed.

Lemma contains_refl (s : string) : Py.contains s s = true.
Proof.
  apply contains_startswith.
  replace s with (s +:+ "") at 1; [apply startswith_app|].
  induction s as [|c s IH]; simpl; [done|]. by rewrite IH.
Qed.

Lemma join_contains (sep x : string) (l : list string) :
  x ∈ l -> Py.contains (Py.join sep l) x = true.
Proof.
  induction l as [|y l IH]; intros Hin; [by apply elem_of_nil in Hin|].
  apply elem_of_cons in Hin as [->|Hin].
  - destruct l as [|z l]; simpl; [apply contains_refl|].
    apply contains_app_l, contains_refl.
  - destruct l as [|z l]; [by apply elem_of_nil in Hin|].
    change (Py.join sep (y :: z :: l)) with (y +:+ sep +:+ Py.join sep (z :: l)).
    by apply contains_app_r, contains_app_r, IH.
Qed.

Lemma called_process_error_str_contains (P : Platform) (cmd : list string) (rc : Z) (x : string) :
  x ∈ cmd -> Py.contains (called_process_error_str P cmd rc) (Py.repr x) = true.
Proof.
  intros Hin.
  assert (Py.contains (Py.str_list cmd) (Py.repr x) = true) as Hl.
  { unfold Py.str_list. apply (contains_app_r "["), contains_app_l, join_contains.
    apply list_elem_of_fmap. by exists x. }
  unfold called_process_error_str.
  destruct (rc <? 0); [destruct (signal_repr P (- rc))|];
    by apply (contains_app_r "Command '"), contains_app_l.
Qed.

(** Whenever the export tool exits with a non-zero status and its output is
    text, the [ERROR] line that reports it holds the whole command, the key and key id included (as
    [repr] writes them). *)
Lemma export_failure_logs_credentials (P : Platform) (self : WorkbookProcessor)
    (output_file : string) (d start_time end_time : datetime) (w : world)
    (rc : Z) (stdout stderr : string) (files' : gmap string content) :
  export_window self d = Ok (start_time, end_time) ->
  vde P (build_cmd P self output_file start_time end_time) (export_script_dir self) (files w)
    = Exited rc (Some stdout) (Some stderr) files' ->
  rc <> 0 ->
  exists line,
    (ERROR, line) ∈ log (snd (run_vde_export P self output_file (Some d) w))
    /\ Py.contains line (Py.repr (api_key self)) = true
    /\ Py.contains line (Py.repr (api_key_id self)) = true.
Proof.
  intros Hwin Hvde Hrc.
  unfold run_vde_export. rewrite Hwin. unfold run_export_cmd. cbv zeta.
  cbn [files emit]. rewrite Hvde.
  replace (negb (rc =? 0)) with true by (symmetry; apply negb_true_iff; lia).
  match goal with |- context [export_failed P ?c rc stderr ?w0] =>
    destruct (export_failed_log P c rc stderr w0) as [rest Hrest]; set (cmd := c) in * end.
  exists ("Failed to run vde.py: " +:+ called_process_error_str P cmd rc).
  split_and!.
  - rewrite Hrest. apply elem_of_app. right. apply elem_of_cons. by left.
  - apply contains_app_r, called_process_error_str_contains.
    apply list_elem_of_lookup. by exists 7%nat.
  - apply contains_app_r, called_process_error_str_contains.
    apply list_elem_of_lookup. by exists 5%nat.
Qed.

(** C6 fails on the code. With the export tool exiting with status 1, the
    command is logged a second time, unmasked, inside the text of the
    [CalledProcessError]: the [ERROR] line holds the configured key and key id
    in plaintext, and so does the message of the [RuntimeError] raised. *)
Theorem C6_failed_export_logs_credentials :
  let r := run_vde_export (demo_platform tool_fails) demo_config "/work/raw_export.xlsx"
                          (Some demo_target_date) demo_world in
  log_mentions (api_key demo_config) (snd r) = true /\
  log_mentions (api_key_id demo_config) (snd r) = true /\
  (ERROR,
   "Failed to run vde.py: Command '['/opt/vde/.venv/bin/python', '/opt/vde/vde.py', '-vv', 'excel', '--apiKeyId', '0d1f-key-id', '--apiKey', 's3cr3tk3y', '--orgId', 'org-17', '--resourceName', 'langer_fill', '--start', '2024-07-02T07:00:00-0400', '--end', '2024-07-02T19:00:00-0400', '--timezone', 'America/New_York', '--bucketPeriod', 'PT5M', '--bucketMethod', 'max', '--includeKeys', '.*_raw', '--output', '/work/raw_export.xlsx', '--tab', 'RAW']' returned non-zero exit status 1.")
    ∈ log (snd r) /\
  exists msg, fst r = Raise (RuntimeError msg) /\ Py.contains msg (api_key demo_config) = true.
Proof.
  split_and!.
  - by vm_compute.
  - by vm_compute.
  - apply list_elem_of_In. vm_compute. right. right. by left.
  - eexists. split; [by vm_compute|]. by vm_compute.
Qed.

(** ** Export invoker: when it raises *)

Lemma emit_lines_files (lvl : log_level) (lines : list string) (w : world) :
  files (emit_lines lvl lines w) = files w.
Proof.
  unfold emit_lines. revert w. induction lines as [|x lines IH]; intros w; cbn [foldl]; [done|].
  by rewrite IH.
Qed.

Lemma log_stdout_files (stdout : string) (w : world) :
  files (log_stdout stdout w) = files w.
Proof.
  unfold log_stdout. destruct (Py.split _ _); [done|].
  destruct (_ <? _)%nat; cbv zeta;
    repeat (rewrite emit_lines_files || cbn [files emit]); done.
Qed.

Section ExportOutcome.

Variable P : Platform.
Variable self : WorkbookProcessor.
Variable output_file : string.

(** What [run_export_cmd] returns, by the outcome of the tool. *)
Lemma run_export_cmd_result (cmd : list string) (w : world) :
  fst (run_export_cmd P self cmd output_file w) =
  match vde P cmd (export_script_dir self) (files w) with
  | SpawnFailed e => Raise e
  | Exited rc (Some _) (Some _) files' =>
      if negb (rc =? 0)
      then Raise (RuntimeError ("vde.py export failed: " +:+ called_process_error_str P cmd rc))
      else match files' !! output_file with
           | None => Raise (FileNotFoundError "vde.py ran but raw_export.xlsx was not created.")
           | Some _ => Ok output_file
           end
  | Exited _ _ _ _ => Raise UnicodeDecodeError
  end.
Proof.
  unfold run_export_cmd. cbv zeta. cbn [files emit].
  destruct (vde P cmd _ _) as [e|rc [stdout|] [stderr|] files']; [done| |done..].
  destruct (negb (rc =? 0)); [done|].
  unfold path_exists. rewrite log_stdout_files. cbn [files].
  destruct (files' !! output_file) eqn:Hout.
  - rewrite bool_decide_eq_true_2 by done. done.
  - rewrite bool_decide_eq_false_2 by (by intros [? ?]). done.
Qed.

(** What [run_vde_export] returns once the date and the window are known. *)
Lemma run_vde_export_result (target_date : option datetime) (d start_time end_time : datetime)
    (w : world) :
  match target_date with
  | Some d' => d' = d
  | None => get_yesterday_date P self = Ok d
  end ->
  export_window self d = Ok (start_time, end_time) ->
  fst (run_vde_export P self output_file target_date w) =
  match vde P (build_cmd P self output_file start_time end_time)
            (export_script_dir self) (files w) with
  | SpawnFailed e => Raise e
  | Exited rc (Some _) (Some _) files' =>
      if negb (rc =? 0)
      then Raise (RuntimeError ("vde.py export failed: " +:+
                   called_process_error_str P (build_cmd P self output_file start_time end_time) rc))
      else match files' !! output_file with
           | None => Raise (FileNotFoundError "vde.py ran but raw_export.xlsx was not created.")
           | Some _ => Ok output_file
           end
  | Exited _ _ _ _ => Raise UnicodeDecodeError
  end.
Proof.
  intros Hd Hwin. unfold run_vde_export.
  destruct target_date as [d'|]; [subst d'|rewrite Hd]; rewrite Hwin;
    by rewrite run_export_cmd_result.
Qed.

(** A malformed window raises before the tool is run. *)
Lemma run_vde_export_bad_window (d : datetime) (e : exn) (w : world) :
  export_window self d = Raise e ->
  run_vde_export P self output_file (Some d) w = (Raise e, w).
Proof. intros Hwin. unfold run_vde_export. by rewrite Hwin. Qed.

End ExportOutcome.

(** C2, as stated, fails: with the start of the window configured as
    ["24:00"] the call raises [ValueError] although the export tool, whatever
    command it is given, exits with status 0 and leaves the output file in
    place; the tool is not even run. *)
Lemma C2_raises_without_tool_failure :
  ~ raises_only_on_tool_failure
      (demo_platform (tool_writes "/work/raw_export.xlsx"))
      (with_start_time demo_config "24:00")
      "/work/raw_export.xlsx" (Some demo_target_date) demo_world.
Proof.
  intros Hclaim.
  destruct (Hclaim (ValueError "hour must be in 0..23") demo_world eq_refl)
    as (cmd & rc & stdout & stderr & files' & Hrun & Hfail).
  injection Hrun as <- _ _ <-.
  destruct Hfail as [Hrc|Hmissing]; [done|].
  by rewrite lookup_insert_eq in Hmissing.
Qed.

(** [int()] fails with a [ValueError] only. *)
Lemma int_or_raise_raise (s : string) (e : exn) :
  int_or_raise s = Raise e -> exists msg, e = ValueError msg.
Proof.
  unfold int_or_raise. destruct (Py.int_text s) as [n|[|digits]]; [done|..];
    intros [= <-]; by eexists.
Qed.

(** [int()] returns exactly the numbers of [Py.int]. *)
Lemma int_or_raise_ok (s : string) (n : Z) :
  int_or_raise s = Ok n <-> Py.int s = Some n.
Proof.
  unfold int_or_raise, Py.int. destruct (Py.int_text s) as [m|[|digits]]; split; try done.
  - by intros [= ->].
  - by intros [= ->].
Qed.

(** The unpacking of a time string fails with a [ValueError] only. *)
Lemma parse_hm_raise (s : string) (e : exn) :
  parse_hm s = Raise e -> exists msg, e = ValueError msg.
Proof.
  unfold parse_hm.
  destruct (Py.split ":" s) as [|a [|b [|c rest]]].
  - intros [= <-]. by eexists.
  - destruct (int_or_raise a) eqn:Ha; simpl.
    + intros [= <-]. by eexists.
    + intros [= <-]. by apply (int_or_raise_raise a).
  - destruct (int_or_raise a) eqn:Ha; simpl; [|intros [= <-]; by apply (int_or_raise_raise a)].
    destruct (int_or_raise b) eqn:Hb; simpl; [done|].
    intros [= <-]. by apply (int_or_raise_raise b).
  - destruct (int_or_raise a) eqn:Ha; simpl; [|intros [= <-]; by apply (int_or_raise_raise a)].
    destruct (int_or_raise b) eqn:Hb; simpl; [|intros [= <-]; by apply (int_or_raise_raise b)].
    destruct (int_or_raise c) eqn:Hc; simpl; [|intros [= <-]; by apply (int_or_raise_raise c)].
    intros [= <-]. by eexists.
Qed.

Lemma replace_time_raise (d : datetime) (h mi : Z) (e : exn) :
  replace_time d h mi = Raise e -> e = OverflowError \/ exists msg, e = ValueError msg.
Proof.
  unfold replace_time.
  destruct (negb (fits_c_int h && fits_c_int mi)); [intros [= <-]; by left|].
  destruct (negb ((0 <=? h) && (h <=? 23))); [intros [= <-]; right; by eexists|].
  destruct (negb ((0 <=? mi) && (mi <=? 59))); [intros [= <-]; right; by eexists|done].
Qed.

(** A window that cannot be built is a [ValueError], or an [OverflowError]
    for a number that does not fit a C [int]. *)
Lemma export_window_raise (self : WorkbookProcessor) (d : datetime) (e : exn) :
  export_window self d = Raise e -> e = OverflowError \/ exists msg, e = ValueError msg.
Proof.
  unfold export_window.
  destruct (parse_hm (export_start_time self)) as [[sh sm]|e1] eqn:Hs; simpl;
    [|intros [= <-]; right; by apply (parse_hm_raise _ _ Hs)].
  destruct (parse_hm (export_end_time self)) as [[eh em]|e2] eqn:He; simpl;
    [|intros [= <-]; right; by apply (parse_hm_raise _ _ He)].
  destruct (replace_time d sh sm) as [st|e3] eqn:Hrs; simpl;
    [|intros [= <-]; by apply (replace_time_raise _ _ _ _ Hrs)].
  destruct (replace_time d eh em) as [en|e4] eqn:Hre; simpl; [done|].
  intros [= <-]. by apply (replace_time_raise _ _ _ _ Hre).
Qed.

(** C2, amended. Once the target date is known: when the configured start and
    end strings give a valid window, the export tool could be started and
    what it wrote to its output streams is text, [run_vde_export] raises
    exactly when the tool exits with a non-zero status ([RuntimeError]) or
    leaves no file at the output path ([FileNotFoundError]), and returns the
    output path when the tool exits with status 0 and the file is there. In
    the other cases it raises whatever the exit status and the output file
    are: [ValueError] or [OverflowError] for a start or end string that gives
    no window (the tool is not run, the files are untouched), the exception
    of [subprocess.run] for a tool that is not started, [UnicodeDecodeError]
    for output that is not text. *)
Theorem C2_export_raises_iff_tool_fails (P : Platform) (self : WorkbookProcessor)
    (output_file : string) (target_date : option datetime) (d : datetime) (w : world) :
  match target_date with
  | Some d' => d' = d
  | None => get_yesterday_date P self = Ok d
  end ->
  let r := fst (run_vde_export P self output_file target_date w) in
  (forall start_time end_time rc stdout stderr files',
      export_window self d = Ok (start_time, end_time) ->
      vde P (build_cmd P self output_file start_time end_time) (export_script_dir self) (files w)
        = Exited rc (Some stdout) (Some stderr) files' ->
      (is_ok r = false <-> rc <> 0 \/ files' !! output_file = None) /\
      (rc = 0 -> is_Some (files' !! output_file) -> r = Ok output_file) /\
      (rc <> 0 -> exists msg, r = Raise (RuntimeError msg)) /\
      (rc = 0 -> files' !! output_file = None ->
       exists msg, r = Raise (FileNotFoundError msg))) /\
  (forall e,
      export_window self d = Raise e ->
      r = Raise e /\ (e = OverflowError \/ exists msg, e = ValueError msg) /\
      files (snd (run_vde_export P self output_file target_date w)) = files w) /\
  (forall start_time end_time e,
      export_window self d = Ok (start_time, end_time) ->
      vde P (build_cmd P self output_file start_time end_time) (export_script_dir self) (files w)
        = SpawnFailed e ->
      r = Raise e) /\
  (forall start_time end_time rc stdout stderr files',
      export_window self d = Ok (start_time, end_time) ->
      vde P (build_cmd P self output_file start_time end_time) (export_script_dir self) (files w)
        = Exited rc stdout stderr files' ->
      stdout = None \/ stderr = None ->
      r = Raise UnicodeDecodeError).
Proof.
  intros Hd r. subst r. split_and!.
  - intros start_time end_time rc stdout stderr files' Hwin Hvde.
    rewrite (run_vde_export_result P self output_file target_date d start_time end_time w
               Hd Hwin).
    rewrite Hvde.
    destruct (rc =? 0) eqn:Hrc; simpl.
    + apply Z.eqb_eq in Hrc as ->.
      destruct (files' !! output_file) eqn:Hout; simpl.
      * split_and!; [|done|done|done]. split; [done|]. by intros [?|?].
      * split_and!; [|by intros _ [? ?]|done|by eauto]. split; [by right|done].
    + apply Z.eqb_neq in Hrc.
      split_and!; [|done|by eauto|done]. split; [by left|done].
  - intros e Hwin. split_and!.
    + unfold run_vde_export.
      destruct target_date as [d'|]; [subst d'|rewrite Hd]; by rewrite Hwin.
    + by apply (export_window_raise self d).
    + unfold run_vde_export.
      destruct target_date as [d'|]; [subst d'|rewrite Hd]; by rewrite Hwin.
  - intros start_time end_time e Hwin Hvde.
    rewrite (run_vde_export_result P self output_file target_date d start_time end_time w
               Hd Hwin).
    by rewrite Hvde.
  - intros start_time end_time rc stdout stderr files' Hwin Hvde Hnone.
    rewrite (run_vde_export_result P self output_file target_date d start_time end_time w
               Hd Hwin).
    rewrite Hvde. destruct Hnone as [-> | ->]; [done|]. by destruct stdout.
Qed.

(** The amended C2 at the sample configuration with a tool that succeeds:
    the call returns the output path. *)
Lemma C2_export_raises_iff_witness :
  fst (run_vde_export (demo_platform tool_ok) demo_config "/work/raw_export.xlsx"
                      (Some demo_target_date) demo_world) = Ok "/work/raw_export.xlsx".
Proof.
  destruct (C2_export_raises_iff_tool_fails (demo_platform tool_ok) demo_config
              "/work/raw_export.xlsx" (Some demo_target_date) demo_target_date demo_world
              eq_refl) as (Htool & _).
  destruct (Htool (Datetime 2024 7 2 7 0 0 0 (Some (Zone "America/New_York")))
                  (Datetime 2024 7 2 19 0 0 0 (Some (Zone "America/New_York")))
                  0 "exported 2 rows" ""
                  (<["/work/raw_export.xlsx" := Xlsx demo_raw_wb]> (files demo_world))
                  eq_refl eq_refl) as (_ & Hok & _).
  apply Hok; [reflexivity|]. rewrite lookup_insert_eq. by eexists.
Defined.

(** ** Recalculation trigger *)

Lemma filter_none {A} (p : A -> Prop) `{forall x, Decision (p x)} (l : list A) :
  (forall x, x ∈ l -> ~ p x) -> filter p l = [].
Proof.
  induction l as [|x l IH]; intros Hnone; [done|].
  rewrite filter_cons_False.
  - apply IH. intros y Hy. apply Hnone. by apply elem_of_cons; right.
  - apply Hnone. by apply elem_of_cons; left.
Qed.

Lemma write_file_frame (path : string) (c : content) (w w' : world) (r : res unit) :
  write_file path c w = (r, w') ->
  readonly w' = readonly w /\ log w' = log w /\
  (forall p, p <> path -> files w' !! p = files w !! p) /\
  (match r with
   | Ok _ => (path ∉ readonly w) /\ files w' !! path = Some c
   | Raise e => e = PermissionError /\ path ∈ readonly w /\ w' = w
   end).
Proof.
  unfold write_file. destruct (decide (path ∈ readonly w)); intros [= <- <-]; simpl.
  - done.
  - split_and!; [done|done| |done|].
    + intros p Hp. by rewrite lookup_insert_ne.
    + by rewrite lookup_insert_eq.
Qed.

Section Recalculation.

Variable P : Platform.
Variable self : WorkbookProcessor.
Variables (excel_file : string) (w : world).

(** The command line given to the office suite. *)
Local Abbreviation office_cmd temp_dir :=
  [ "libreoffice"; "--headless"; "--calc"; "--convert-to"; "xlsx";
    "--outdir"; temp_dir; excel_file ].

Lemma recalculate_never_raises :
  exists w', _recalculate_with_libreoffice P self excel_file w = (Ok tt, w').
Proof.
  unfold _recalculate_with_libreoffice.
  destruct (negb (libreoffice_available self)); [by eexists|].
  destruct (recalculate_body P excel_file w) as [[[]|e] w']; by eexists.
Qed.

Lemma recalculate_unavailable :
  libreoffice_available self = false ->
  _recalculate_with_libreoffice P self excel_file w = (Ok tt, w).
Proof. intros Hf. unfold _recalculate_with_libreoffice. by rewrite Hf. Qed.

Lemma recalculate_no_match (temp_dir : string) (rc : Z) (stderr : string)
    (outdir : list (string * content)) :
  mkdtemp P = Some temp_dir ->
  libreoffice P (office_cmd temp_dir) (files w) = Converted rc stderr outdir ->
  (forall name c, (name, c) ∈ outdir ->
     Py.startswith name (OsPath.splitext_root (OsPath.basename excel_file)) = false) ->
  _recalculate_with_libreoffice P self excel_file w = (Ok tt, w).
Proof.
  intros Htmp Hrun Hnone. unfold _recalculate_with_libreoffice.
  destruct (negb (libreoffice_available self)); [done|].
  unfold recalculate_body. rewrite Htmp, Hrun.
  rewrite filter_none; [done|].
  intros [name c] Hin. simpl. rewrite (Hnone name c Hin). discriminate.
Qed.

(** Whatever happens, only the file at the given path can change. *)
Lemma recalculate_frame (w' : world) (r : res unit) :
  _recalculate_with_libreoffice P self excel_file w = (r, w') ->
  readonly w' = readonly w /\ log w' = log w /\
  (forall p, p <> excel_file -> files w' !! p = files w !! p) /\
  (is_Some (files w !! excel_file) -> is_Some (files w' !! excel_file)).
Proof.
  unfold _recalculate_with_libreoffice.
  destruct (negb (libreoffice_available self)); [by intros [= <- <-]|].
  unfold recalculate_body.
  destruct (mkdtemp P) as [temp_dir|]; [|by intros [= <- <-]].
  destruct (libreoffice P _ _) as [|rc stderr outdir]; [by intros [= <- <-]|].
  destruct (filter _ outdir) as [|[name c] rest]; [by intros [= <- <-]|].
  simpl snd.
  destruct (write_file excel_file c w) as [r0 w0] eqn:Hw.
  apply write_file_frame in Hw as (Hro & Hlog & Hframe & Hres).
  intros Heq. assert (w' = w0) as -> by (destruct r0; by injection Heq).
  split_and!; [done..|].
  destruct r0; [destruct Hres as [_ ->]; eauto | by destruct Hres as (_ & _ & ->)].
Qed.

End Recalculation.

(** C7. [_recalculate_with_libreoffice] returns normally on every input: the
    scratch directory that cannot be made, the office suite that cannot be
    started or exits with a non-zero status, the missing converted file and
    the write-protected target are all absorbed. When the capability flag is
    false, and when no file of the scratch directory starts with the file
    name's stem, the world (so the file at the given path) is unchanged; in
    every case no other file changes. *)
Theorem C7_recalculation_is_best_effort (P : Platform) (self : WorkbookProcessor)
    (excel_file : string) (w : world) :
  exists w',
    _recalculate_with_libreoffice P self excel_file w = (Ok tt, w') /\
    (libreoffice_available self = false -> w' = w) /\
    (forall temp_dir rc stderr outdir,
        mkdtemp P = Some temp_dir ->
        libreoffice P [ "libreoffice"; "--headless"; "--calc"; "--convert-to"; "xlsx";
                        "--outdir"; temp_dir; excel_file ] (files w)
          = Converted rc stderr outdir ->
        (forall name c, (name, c) ∈ outdir ->
           Py.startswith name (OsPath.splitext_root (OsPath.basename excel_file)) = false) ->
        w' = w) /\
    (forall p, p <> excel_file -> files w' !! p = files w !! p).
Proof.
  destruct (recalculate_never_raises P self excel_file w) as [w' Hrun].
  exists w'. split_and!; [done| | |].
  - intros Hf. rewrite (recalculate_unavailable P self excel_file w Hf) in Hrun.
    by injection Hrun.
  - intros temp_dir rc stderr outdir Htmp Hconv Hnone.
    rewrite (recalculate_no_match P self excel_file w temp_dir rc stderr outdir
               Htmp Hconv Hnone) in Hrun.
    by injection Hrun.
  - by apply (recalculate_frame P self excel_file w w' (Ok tt)).
Qed.

(** C7 with an office suite that exits with status 1 and converts nothing. *)
Lemma C7_recalculation_witness :
  _recalculate_with_libreoffice (demo_platform tool_ok) demo_config demo_template demo_world
  = (Ok tt, demo_world).
Proof.
  destruct (C7_recalculation_is_best_effort (demo_platform tool_ok) demo_config
              demo_template demo_world) as (w' & Hrun & _ & Hnomatch & _).
  rewrite Hrun. f_equal.
  eapply Hnomatch; [reflexivity|reflexivity|].
  intros name c Hin. by apply elem_of_nil in Hin.
Defined.

(** ** Worksheets: clearing and copying *)

Lemma foldl_insert_lookup (f : nat * nat -> option cell_value) (l : list (nat * nat))
    (s : sheet) (k : nat * nat) :
  foldl (fun s rc => <[rc := f rc]> s) s l !! k =
  if decide (k ∈ l) then Some (f k) else s !! k.
Proof.
  revert s. induction l as [|x l IH]; intros s; cbn [foldl].
  - by rewrite decide_False by apply not_elem_of_nil.
  - rewrite IH. destruct (decide (k ∈ l)) as [Hin|Hnin].
    + rewrite decide_True; [done|]. by apply elem_of_cons; right.
    + destruct (decide (k = x)) as [->|Hne].
      * rewrite decide_True by (by apply elem_of_cons; left). by rewrite lookup_insert_eq.
      * rewrite decide_False by (rewrite elem_of_cons; by intros [?|?]).
        by rewrite lookup_insert_ne.
Qed.

Lemma foldl_rows {A B} (g : A -> B -> A) (rows : list (list B)) (a : A) :
  foldl (fun a row => foldl g a row) a rows = foldl g a (mjoin rows).
Proof.
  revert a. induction rows as [|row rows IH]; intros a; simpl; [done|].
  by rewrite foldl_app, IH.
Qed.

Lemma enumerate_fmap_seq {A} (f : nat -> A) (n m : nat) :
  enumerate n (f <$> seq n m) = (fun i => (i, f i)) <$> seq n m.
Proof.
  unfold enumerate. rewrite length_fmap, length_seq.
  revert n. induction m as [|m IH]; intros n; simpl; [done|]. by rewrite IH.
Qed.

Lemma clear_sheet_flat (s : sheet) :
  clear_sheet s = foldl (fun s rc => <[rc := None]> s) s (mjoin (iter_rows s)).
Proof. unfold clear_sheet. apply foldl_rows. Qed.

Lemma copy_row_flat (src dst : sheet) (r n : nat) :
  foldl (fun dst jc => <[(r, fst jc) := value_at src (snd jc)]> dst) dst
        (enumerate 1 ((fun c => (r, c)) <$> seq 1 n)) =
  foldl (fun dst rc => <[rc := value_at src rc]> dst) dst ((fun c => (r, c)) <$> seq 1 n).
Proof. rewrite enumerate_fmap_seq. by rewrite !foldl_fmap. Qed.

(** The indices that [enumerate] hands out are the coordinates of the cells:
    the copy writes each value at the coordinate it was read from. *)
Lemma copy_rows_flat (src dst : sheet) :
  copy_rows src dst =
  foldl (fun dst rc => <[rc := value_at src rc]> dst) dst (mjoin (iter_rows src)).
Proof.
  unfold copy_rows. rewrite <- foldl_rows. unfold iter_rows.
  destruct (map_to_list src) as [|kv l]; [done|].
  rewrite enumerate_fmap_seq. rewrite !foldl_fmap.
  generalize (seq 1 (max_row src)). intros rows. revert dst.
  induction rows as [|r rows IH]; intros dst; cbn [foldl]; [done|].
  cbn [fst snd]. by rewrite copy_row_flat, IH.
Qed.

Lemma elem_of_iter_rows (s : sheet) (rc : nat * nat) :
  rc ∈ mjoin (iter_rows s) <-> used_range s rc.
Proof.
  unfold used_range, iter_rows. rewrite list_elem_of_join.
  destruct (map_to_list s) as [|kv l] eqn:Hl.
  - split.
    + intros (row & _ & Hrow). by apply elem_of_nil in Hrow.
    + intros [Hne _]. by apply map_to_list_empty_iff in Hl.
  - assert (s <> ∅) as Hne.
    { intros ->. by rewrite map_to_list_empty in Hl. }
    split.
    + intros (row & Hrc & Hrow).
      apply list_elem_of_fmap in Hrow as (r & -> & Hr).
      apply list_elem_of_fmap in Hrc as (c & -> & Hc).
      apply elem_of_seq in Hr. apply elem_of_seq in Hc. simpl. split_and!; [done|lia..].
    + intros (_ & Hr & Hc). destruct rc as [r c]. simpl in *.
      exists ((fun c => (r, c)) <$> seq 1 (max_column s)). split.
      * apply list_elem_of_fmap. exists c. split; [done|]. apply elem_of_seq. lia.
      * apply list_elem_of_fmap. exists r. split; [done|]. apply elem_of_seq. lia.
Qed.

(** Every cell with coordinates from 1 lies in the used range. *)
Lemma cell_in_used_range (s : sheet) (r c : nat) (v : option cell_value) :
  s !! (r, c) = Some v -> (1 <= r)%nat -> (1 <= c)%nat -> used_range s (r, c).
Proof.
  intros Hcell Hr Hc. unfold used_range, max_row, max_column. simpl.
  apply elem_of_map_to_list in Hcell.
  destruct (map_to_list s) as [|kv l] eqn:Hl; [by apply elem_of_nil in Hcell|].
  assert (r <= max_list ((fun kv => fst (fst kv)) <$> kv :: l))%nat as Hmr.
  { apply max_list_elem_of_le, list_elem_of_fmap. by exists (r, c, v). }
  assert (c <= max_list ((fun kv => snd (fst kv)) <$> kv :: l))%nat as Hmc.
  { apply max_list_elem_of_le, list_elem_of_fmap. by exists (r, c, v). }
  split; [|split; split; [exact Hr|exact Hmr|exact Hc|exact Hmc]].
  intros ->. by rewrite map_to_list_empty in Hl.
Qed.

Lemma value_at_clear_sheet (s : sheet) (rc : nat * nat) :
  (used_range s rc -> value_at (clear_sheet s) rc = None) /\
  (~ used_range s rc -> value_at (clear_sheet s) rc = value_at s rc).
Proof.
  unfold value_at. rewrite clear_sheet_flat, foldl_insert_lookup.
  split; intros H.
  - by rewrite decide_True by (by apply elem_of_iter_rows).
  - by rewrite decide_False by (by rewrite elem_of_iter_rows).
Qed.

Lemma value_at_copy_rows (src dst : sheet) (rc : nat * nat) :
  (used_range src rc -> value_at (copy_rows src dst) rc = value_at src rc) /\
  (~ used_range src rc -> value_at (copy_rows src dst) rc = value_at dst rc).
Proof.
  unfold value_at at 1 3. rewrite copy_rows_flat, foldl_insert_lookup.
  split; intros H.
  - by rewrite decide_True by (by apply elem_of_iter_rows).
  - by rewrite decide_False by (by rewrite elem_of_iter_rows).
Qed.

(** Clearing, then copying: inside the used range of the destination a cell
    ends with the source's value at the same coordinate, or blank where the
    source does not reach. *)
Lemma merged_sheet_values (src dst : sheet) (rc : nat * nat) :
  used_range dst rc ->
  (used_range src rc -> value_at (copy_rows src (clear_sheet dst)) rc = value_at src rc) /\
  (~ used_range src rc -> value_at (copy_rows src (clear_sheet dst)) rc = None).
Proof.
  intros Hdst. split; intros Hsrc.
  - by apply value_at_copy_rows.
  - rewrite (proj2 (value_at_copy_rows src (clear_sheet dst) rc) Hsrc).
    by apply value_at_clear_sheet.
Qed.

Lemma get_sheet_None (title : string) (wb : workbook) :
  get_sheet title wb = None <-> title ∉ (fst <$> wb).
Proof.
  unfold get_sheet. destruct (list_find _ wb) as [[i ts]|] eqn:Hfind; simpl.
  - apply list_find_Some in Hfind as (Hi & <- & _). split; [done|].
    intros Hnot. destruct Hnot. apply list_elem_of_fmap. exists ts.
    split; [done|]. apply list_elem_of_lookup. by exists i.
  - split; [|done]. intros _ Hin. apply list_find_None in Hfind.
    apply list_elem_of_fmap in Hin as (ts & -> & Hin).
    by apply (proj1 (Forall_forall _ _) Hfind ts).
Qed.

Lemma get_set_sheet (title : string) (s s0 : sheet) (wb : workbook) :
  get_sheet title wb = Some s0 -> get_sheet title (set_sheet title s wb) = Some s.
Proof.
  unfold get_sheet, set_sheet.
  destruct (list_find _ wb) as [[i ts]|] eqn:Hfind; [|done]. intros _.
  apply list_find_Some in Hfind as (Hi & Htitle & Hfirst).
  assert (list_find (fun ts => fst ts = title) (<[i := (title, s)]> wb)
          = Some (i, (title, s))) as ->; [|done].
  apply list_find_Some. split_and!.
  - apply list_lookup_insert_eq. by apply lookup_lt_Some in Hi.
  - done.
  - intros j y Hj Hlt. rewrite list_lookup_insert_ne in Hj by lia. by apply (Hfirst j).
Qed.

(** ** Workbook merger *)

Lemma append_length (a b : string) :
  String.length (a +:+ b) = (String.length a + String.length b)%nat.
Proof. induction a as [|c a IH]; simpl; [done|]. by rewrite IH. Qed.

Lemma error_path_ne (path : string) : path <> path +:+ ".error".
Proof.
  intros Heq. apply (f_equal String.length) in Heq.
  rewrite append_length in Heq. simpl in Heq. lia.
Qed.

Lemma copy_file_ok (src dst : string) (w w' : world) (u : unit) :
  copy_file src dst w = (Ok u, w') ->
  exists c, files w !! src = Some c /\ src <> dst /\ (dst ∉ readonly w)
            /\ w' = World (<[dst := c]> (files w))
                          (if decide (src ∈ readonly w) then readonly w ∪ {[ dst ]}
                           else readonly w)
                          (log w).
Proof.
  unfold copy_file, write_file. destruct (files w !! src) as [c|]; [|done].
  destruct (decide (src = dst)); [done|].
  destruct (decide (dst ∈ readonly w)); [done|].
  intros [= <- <-]. by exists c.
Qed.

(** The copy of a writable file changes the files only. *)
Lemma copy_file_writable (src dst : string) (w : world) (c : content) :
  files w !! src = Some c -> src <> dst -> dst ∉ readonly w -> src ∉ readonly w ->
  copy_file src dst w = (Ok tt, World (<[dst := c]> (files w)) (readonly w) (log w)).
Proof.
  intros Hc Hne Hdst Hsrc. unfold copy_file, write_file. rewrite Hc.
  rewrite decide_False by done. rewrite decide_False by done.
  cbn [files readonly log]. by rewrite decide_False by done.
Qed.

Lemma copy_file_raise (src dst : string) (w w' : world) (e : exn) :
  copy_file src dst w = (Raise e, w') -> w' = w.
Proof.
  unfold copy_file, write_file. destruct (files w !! src) as [c|]; [|by intros [= _ <-]].
  destruct (decide (src = dst)); [by intros [= _ <-]|].
  destruct (decide (dst ∈ readonly w)); [by intros [= _ <-]|done].
Qed.

Lemma merge_and_save_ok (raw_file new_master_file : string) (w w' : world) (n : nat) :
  merge_and_save raw_file new_master_file w = (Ok n, w') ->
  exists raw_wb master_wb raw_sheet import_sheet,
    load_workbook raw_file w = Ok raw_wb /\
    get_sheet "RAW" raw_wb = Some raw_sheet /\
    load_workbook new_master_file w = Ok master_wb /\
    get_sheet "Raw Import" master_wb = Some import_sheet /\
    (new_master_file ∉ readonly w) /\
    n = length (iter_rows raw_sheet) /\
    w' = World (<[new_master_file :=
                   Xlsx (set_sheet "Raw Import"
                           (copy_rows raw_sheet (clear_sheet import_sheet)) master_wb)]>
                  (files w))
               (readonly w) (log w).
Proof.
  unfold merge_and_save, write_file.
  destruct (load_workbook raw_file w) as [raw_wb|]; [|done].
  destruct (load_workbook new_master_file w) as [master_wb|]; [|done].
  destruct (get_sheet "RAW" raw_wb) as [raw_sheet|] eqn:Hraw; [|done].
  destruct (get_sheet "Raw Import" master_wb) as [import_sheet|] eqn:Himp; [|done].
  destruct (decide (new_master_file ∈ readonly w)); [done|].
  intros [= <- <-]. by exists raw_wb, master_wb, raw_sheet, import_sheet.
Qed.

(** A merge that fails has written nothing. *)
Lemma merge_and_save_raise (raw_file new_master_file : string) (w w' : world) (e : exn) :
  merge_and_save raw_file new_master_file w = (Raise e, w') -> w' = w.
Proof.
  unfold merge_and_save, write_file.
  destruct (load_workbook raw_file w) as [raw_wb|]; [|by intros [= _ <-]].
  destruct (load_workbook new_master_file w) as [master_wb|]; [|by intros [= _ <-]].
  destruct (get_sheet "RAW" raw_wb) as [raw_sheet|]; [|by intros [= _ <-]].
  destruct (get_sheet "Raw Import" master_wb) as [import_sheet|]; [|by intros [= _ <-]].
  destruct (decide (new_master_file ∈ readonly w)); [by intros [= _ <-]|done].
Qed.

Section Merger.

Variable P : Platform.
Variable self : WorkbookProcessor.

Lemma update_body_raise (raw_file new_master_file : string) (w w' : world) (e : exn) :
  update_body P self raw_file new_master_file w = (Raise e, w') ->
  merge_and_save raw_file new_master_file w = (Raise e, w) /\ w' = w.
Proof.
  unfold update_body.
  destruct (merge_and_save raw_file new_master_file w) as [[n|e0] w0] eqn:Hmerge.
  - destruct (recalculate_never_raises P self new_master_file w0) as [w1 ->]. done.
  - intros [= <- <-]. by pose proof (merge_and_save_raise _ _ _ _ _ Hmerge) as ->.
Qed.

Lemma update_body_ok (raw_file new_master_file path : string) (w w' : world) :
  update_body P self raw_file new_master_file w = (Ok path, w') ->
  path = new_master_file /\
  exists n w0,
    merge_and_save raw_file new_master_file w = (Ok n, w0) /\
    _recalculate_with_libreoffice P self new_master_file w0 = (Ok tt, w').
Proof.
  unfold update_body.
  destruct (merge_and_save raw_file new_master_file w) as [[n|e0] w0] eqn:Hmerge; [|done].
  destruct (recalculate_never_raises P self new_master_file w0) as [w1 Hrec]. rewrite Hrec.
  intros [= <- <-]. split; [done|]. by exists n, w0.
Qed.

(** The error state kept after a failure. *)
Lemma save_error_state_spec (path : string) (w : world) :
  is_Some (files w !! path) ->
  let w' := save_error_state path w in
  readonly w ⊆ readonly w' /\ log w' = log w /\
  (forall p, p <> path +:+ ".error" -> files w' !! p = files w !! p) /\
  ((path +:+ ".error") ∉ readonly w -> files w' !! (path +:+ ".error") = files w !! path) /\
  ((path +:+ ".error") ∈ readonly w -> w' = w).
Proof.
  intros [c Hc]. unfold save_error_state, path_exists.
  rewrite bool_decide_eq_true_2 by (by exists c).
  unfold copy_file, write_file. rewrite Hc.
  rewrite decide_False by apply error_path_ne.
  destruct (decide (path +:+ ".error" ∈ readonly w)) as [Hro|Hrw]; simpl.
  - done.
  - split_and!; [|done| | |done].
    + destruct (decide (path ∈ readonly w)); set_solver.
    + intros p Hp. by rewrite lookup_insert_ne.
    + intros _. by rewrite lookup_insert_eq.
Qed.

End Merger.

(** C3. When, after the template was copied to the dated path, the raw
    workbook has no sheet titled [RAW] or the dated workbook has no sheet
    titled [Raw Import], [update_master_workbook] raises [ValueError] and no
    cell was written: the file at the dated path still is the template copy,
    and apart from the [.error] snapshot no other file changed. *)
Theorem C3_missing_sheet_raises_before_mutation (P : Platform) (self : WorkbookProcessor)
    (raw_file master_template : string) (target_date : option datetime)
    (d : datetime) (w w1 : world) (raw_wb master_wb : workbook) :
  let new_master_file := new_master_path self d in
  merger_target_date P self master_template target_date = Ok d ->
  copy_file master_template new_master_file w = (Ok tt, w1) ->
  load_workbook raw_file w1 = Ok raw_wb ->
  load_workbook new_master_file w1 = Ok master_wb ->
  "RAW" ∉ (fst <$> raw_wb) \/ "Raw Import" ∉ (fst <$> master_wb) ->
  exists msg w',
    update_master_workbook P self raw_file master_template target_date w
      = (Raise (ValueError msg), w') /\
    files w' !! new_master_file = files w !! master_template /\
    files w' !! new_master_file = Some (Xlsx master_wb) /\
    (forall p, p <> new_master_file -> p <> new_master_file +:+ ".error" ->
               files w' !! p = files w !! p).
Proof.
  intros nm Hd Hcopy Hraw Hmaster Hmissing.
  pose proof (copy_file_ok _ _ _ _ _ Hcopy) as (c & Hc & Hne & Hrw & Hw1).
  assert (files w1 !! nm = Some c) as Hnm.
  { rewrite Hw1. simpl. by rewrite lookup_insert_eq. }
  assert (c = Xlsx master_wb) as Hcm.
  { unfold load_workbook in Hmaster. rewrite Hnm in Hmaster.
    destruct c; by inversion Hmaster. }
  destruct (save_error_state_spec nm w1 (ltac:(by exists c))) as (_ & _ & Hframe & _ & _).
  assert (exists msg, merge_and_save raw_file nm w1 = (Raise (ValueError msg), w1)) as [msg Hmerge].
  { unfold merge_and_save. rewrite Hraw, Hmaster.
    destruct (get_sheet "RAW" raw_wb) as [raw_sheet|] eqn:Hr; [|by eexists].
    destruct (get_sheet "Raw Import" master_wb) as [import_sheet|] eqn:Hi; [|by eexists].
    destruct Hmissing as [Hm|Hm]; apply get_sheet_None in Hm; congruence. }
  exists msg, (save_error_state nm w1). split_and!.
  - unfold update_master_workbook. rewrite Hd. fold nm. rewrite Hcopy.
    unfold update_body. by rewrite Hmerge.
  - rewrite Hframe by apply error_path_ne. by rewrite Hnm, Hc.
  - rewrite Hframe by apply error_path_ne. by rewrite Hnm, Hcm.
  - intros p Hp Hpe. rewrite Hframe by done. rewrite Hw1. simpl.
    by rewrite lookup_insert_ne.
Qed.

(** C4. A successful [update_master_workbook] went through a merge that
    saved, at the dated path, a workbook whose [Raw Import] sheet holds, at
    every coordinate of that sheet's previous used range, the value of the
    [RAW] sheet at the same coordinate, or nothing where the [RAW] sheet does
    not reach; what comes after the save is the recalculation step only. *)
Theorem C4_merge_clears_then_copies (P : Platform) (self : WorkbookProcessor)
    (raw_file master_template : string) (target_date : option datetime)
    (w w' : world) (path : string) :
  update_master_workbook P self raw_file master_template target_date w = (Ok path, w') ->
  exists (w1 w2 : world) (raw_wb master_wb saved_wb : workbook)
         (raw_sheet import_sheet saved_sheet : sheet),
    copy_file master_template path w = (Ok tt, w1) /\
    load_workbook raw_file w1 = Ok raw_wb /\
    get_sheet "RAW" raw_wb = Some raw_sheet /\
    load_workbook path w1 = Ok master_wb /\
    get_sheet "Raw Import" master_wb = Some import_sheet /\
    load_workbook path w2 = Ok saved_wb /\
    get_sheet "Raw Import" saved_wb = Some saved_sheet /\
    (forall rc, used_range import_sheet rc ->
       (used_range raw_sheet rc -> value_at saved_sheet rc = value_at raw_sheet rc) /\
       (~ used_range raw_sheet rc -> value_at saved_sheet rc = None)) /\
    _recalculate_with_libreoffice P self path w2 = (Ok tt, w').
Proof.
  unfold update_master_workbook.
  destruct (merger_target_date P self master_template target_date) as [d|]; [|done].
  destruct (copy_file master_template (new_master_path self d) w) as [[[]|] w1] eqn:Hcopy; [|done].
  destruct (update_body P self raw_file (new_master_path self d) w1) as [[p|] w3] eqn:Hbody;
    [|done].
  intros [= <- <-].
  apply update_body_ok in Hbody as (-> & n & w2 & Hmerge & Hrecalc).
  apply merge_and_save_ok in Hmerge
    as (raw_wb & master_wb & raw_sheet & import_sheet & Hraw & Hrs & Hm & His & Hrw & _ & Hw2).
  exists w1, w2, raw_wb, master_wb,
    (set_sheet "Raw Import" (copy_rows raw_sheet (clear_sheet import_sheet)) master_wb),
    raw_sheet, import_sheet, (copy_rows raw_sheet (clear_sheet import_sheet)).
  split_and!; [done..| | | |done].
  - unfold load_workbook. rewrite Hw2. simpl. by rewrite lookup_insert_eq.
  - by apply (get_set_sheet _ _ import_sheet).
  - intros rc Hrc. by apply merged_sheet_values.
Qed.

(** C5. When the [try] block of [update_master_workbook] fails after the
    template was copied, the caller gets that same exception; the dated
    workbook is still in place and a copy of it is at [<path>.error], unless
    that copy could not be written, in which case nothing else happens. *)
Theorem C5_failure_keeps_error_state (P : Platform) (self : WorkbookProcessor)
    (raw_file master_template : string) (target_date : option datetime)
    (d : datetime) (w w1 w2 : world) (e : exn) :
  let new_master_file := new_master_path self d in
  let error_file := new_master_file +:+ ".error" in
  merger_target_date P self master_template target_date = Ok d ->
  copy_file master_template new_master_file w = (Ok tt, w1) ->
  update_body P self raw_file new_master_file w1 = (Raise e, w2) ->
  exists w3,
    update_master_workbook P self raw_file master_template target_date w = (Raise e, w3) /\
    is_Some (files w2 !! new_master_file) /\
    files w3 !! new_master_file = files w2 !! new_master_file /\
    (error_file ∉ readonly w2 -> files w3 !! error_file = files w2 !! new_master_file) /\
    (error_file ∈ readonly w2 -> w3 = w2) /\
    (forall p, p <> error_file -> files w3 !! p = files w2 !! p).
Proof.
  intros nm error_file Hd Hcopy Hbody.
  pose proof (copy_file_ok _ _ _ _ _ Hcopy) as (c & Hc & Hne & Hrw & Hw1).
  pose proof (update_body_raise P self _ _ _ _ _ Hbody) as [_ ->].
  assert (is_Some (files w1 !! nm)) as Hnm.
  { exists c. rewrite Hw1. simpl. by rewrite lookup_insert_eq. }
  destruct (save_error_state_spec nm w1 Hnm) as (_ & _ & Hframe & Hsnap & Hswallow).
  exists (save_error_state nm w1). split_and!; [|done| |done|done|done].
  - unfold update_master_workbook. rewrite Hd. fold nm. by rewrite Hcopy, Hbody.
  - apply Hframe, error_path_ne.
Qed.

(** ** Orchestrator *)

Lemma emit_lines_readonly (lvl : log_level) (lines : list string) (w : world) :
  readonly (emit_lines lvl lines w) = readonly w.
Proof.
  unfold emit_lines. revert w. induction lines as [|x lines IH]; intros w; cbn [foldl]; [done|].
  by rewrite IH.
Qed.

Lemma log_stdout_readonly (stdout : string) (w : world) :
  readonly (log_stdout stdout w) = readonly w.
Proof.
  unfold log_stdout. destruct (Py.split _ _); [done|].
  destruct (_ <? _)%nat; cbv zeta;
    repeat (rewrite emit_lines_readonly || cbn [readonly emit]); done.
Qed.

Lemma join_relative (a b : string) :
  Py.startswith b "/" = false ->
  exists sep, OsPath.join a b = (a +:+ sep) +:+ b.
Proof.
  intros Hb. unfold OsPath.join. rewrite Hb.
  destruct (_ || _).
  - exists "". f_equal. induction a as [|c a IH]; simpl; [done|]. by rewrite <- IH.
  - exists "/". by rewrite append_assoc.
Qed.

Lemma join_relative_ne (a b1 b2 : string) :
  Py.startswith b1 "/" = false -> Py.startswith b2 "/" = false -> b1 <> b2 ->
  OsPath.join a b1 <> OsPath.join a b2.
Proof.
  intros H1 H2 Hne. unfold OsPath.join. rewrite H1, H2.
  destruct (_ || _); intros Heq; apply Hne.
  - by apply (inj (String.append a)) in Heq.
  - apply (inj (String.append a)) in Heq. by injection Heq.
Qed.

Section Orchestrator.

Variable P : Platform.
Variable self : WorkbookProcessor.

(** The world a successful export leaves: the tool's files, the same write
    protection, a longer log. *)
Lemma run_vde_export_succeeds (output_file : string) (d start_time end_time : datetime)
    (w : world) (stdout stderr : string) (files' : gmap string content) :
  export_window self d = Ok (start_time, end_time) ->
  vde P (build_cmd P self output_file start_time end_time) (export_script_dir self) (files w)
    = Exited 0 (Some stdout) (Some stderr) files' ->
  is_Some (files' !! output_file) ->
  exists w1,
    run_vde_export P self output_file (Some d) w = (Ok output_file, w1) /\
    files w1 = files' /\ readonly w1 = readonly w.
Proof.
  intros Hwin Hvde Hout. unfold run_vde_export. rewrite Hwin.
  unfold run_export_cmd. cbv zeta. cbn [files emit]. rewrite Hvde. cbn [negb Z.eqb].
  unfold path_exists. rewrite log_stdout_files. cbn [files].
  rewrite bool_decide_eq_true_2 by done. cbn [negb].
  eexists. split; [done|].
  cbn [files readonly emit]. by rewrite log_stdout_files, log_stdout_readonly.
Qed.

(** An export that returns has left a file at the output path. *)
Lemma run_vde_export_ok (output_file : string) (target_date : option datetime)
    (w w1 : world) (x : string) :
  run_vde_export P self output_file target_date w = (Ok x, w1) ->
  x = output_file /\ is_Some (files w1 !! output_file).
Proof.
  unfold run_vde_export.
  destruct (match target_date with Some d => _ | None => _ end) as [[d|] w0]; [|done].
  destruct (export_window self d) as [[start_time end_time]|]; [|done].
  unfold run_export_cmd. cbv zeta.
  destruct (vde P _ _ _) as [e|rc [stdout|] [stderr|] files']; [done| |done..].
  destruct (negb (rc =? 0)); [done|].
  destruct (negb (path_exists _ output_file)) eqn:Hexists; [done|].
  intros [= <- <-]. split; [done|].
  apply negb_false_iff, bool_decide_eq_true_1 in Hexists. by cbn [files emit].
Qed.

Lemma update_master_workbook_ok (raw_file master_template : string) (d : datetime)
    (w w' : world) (path : string) :
  update_master_workbook P self raw_file master_template (Some d) w = (Ok path, w') ->
  path = new_master_path self d /\
  (forall p, is_Some (files w !! p) -> is_Some (files w' !! p)).
Proof.
  unfold update_master_workbook. cbn [merger_target_date].
  destruct (copy_file master_template (new_master_path self d) w) as [[[]|] w1] eqn:Hcopy; [|done].
  destruct (update_body P self raw_file (new_master_path self d) w1) as [[p|] w3] eqn:Hbody;
    [|done].
  intros [= <- <-].
  apply update_body_ok in Hbody as (-> & n & w2 & Hmerge & Hrecalc).
  split; [done|]. intros p Hp.
  apply copy_file_ok in Hcopy as (c & _ & _ & _ & Hw1).
  apply merge_and_save_ok in Hmerge as (? & ? & ? & ? & _ & _ & _ & _ & _ & _ & Hw2).
  pose proof (recalculate_frame P self _ _ _ _ Hrecalc) as (_ & _ & Hframe & Hkeep).
  assert (is_Some (files w2 !! p)) as Hp2.
  { rewrite Hw2, Hw1. simpl. rewrite !lookup_insert.
    repeat case_decide; by eauto. }
  destruct (decide (p = new_master_path self d)) as [->|Hne]; [by apply Hkeep|].
  by rewrite Hframe.
Qed.

Lemma update_master_workbook_succeeds (raw_file master_template : string) (d : datetime)
    (w : world) (raw_wb template_wb : workbook) (raw_sheet import_sheet : sheet) :
  let new_master_file := new_master_path self d in
  files w !! master_template = Some (Xlsx template_wb) ->
  get_sheet "Raw Import" template_wb = Some import_sheet ->
  files w !! raw_file = Some (Xlsx raw_wb) ->
  get_sheet "RAW" raw_wb = Some raw_sheet ->
  master_template <> new_master_file -> raw_file <> new_master_file ->
  new_master_file ∉ readonly w ->
  master_template ∉ readonly w ->
  exists w',
    update_master_workbook P self raw_file master_template (Some d) w
    = (Ok new_master_file, w').
Proof.
  intros nm Ht Hi Hr Hrs Htne Hrne Hrw Htw.
  unfold update_master_workbook. cbn [merger_target_date]. fold nm.
  rewrite (copy_file_writable _ _ _ _ Ht Htne Hrw Htw).
  unfold update_body, merge_and_save, load_workbook, write_file. cbn [files readonly].
  rewrite lookup_insert_ne by done. rewrite Hr, lookup_insert_eq, Hrs, Hi.
  rewrite decide_False by done.
  match goal with |- context [_recalculate_with_libreoffice P self nm ?w0] =>
    destruct (recalculate_never_raises P self nm w0) as [w' ->] end.
  by exists w'.
Qed.

End Orchestrator.

(** C1. For a master template named [3895th_070124.xlsx] and no explicit
    target date, [process] works for 2024-07-02 (in the zone [gettz] gives):
    it is the export to [<work_dir>/raw_export.xlsx] for that date followed by
    the merge of that file for the same date; when it returns, it returns
    [<work_dir>/3895th_070224.xlsx] and the raw file is in place; and it does
    return that path when the working directory can be made, the window is
    valid, the tool exits with status 0, its output being text, and leaves a
    raw workbook with a [RAW] sheet, and the template has a [Raw Import]
    sheet, is not write-protected (the copy gets its permission bits) and can
    be copied to the dated path. *)
Theorem C1_process_end_to_end (P : Platform) (self : WorkbookProcessor)
    (master_template : string) (w : world) :
  OsPath.basename master_template = "3895th_070124.xlsx" ->
  let target_date := Datetime 2024 7 2 0 0 0 0 (gettz P (timezone self)) in
  let raw_file := OsPath.join (work_dir self) "raw_export.xlsx" in
  let dated := OsPath.join (work_dir self) "3895th_070224.xlsx" in
  process_target_date P self master_template None = Ok target_date /\
  new_master_path self target_date = dated /\
  raw_file <> dated /\
  process P self master_template None w =
    match makedirs (work_dir self) w with
    | Raise e => (Raise e, w)
    | Ok _ =>
        match run_vde_export P self raw_file (Some target_date) w with
        | (Raise e, w1) => (Raise e, w1)
        | (Ok _, w1) =>
            update_master_workbook P self raw_file master_template (Some target_date) w1
        end
    end /\
  (forall start_time end_time,
      build_cmd P self raw_file start_time end_time !! 25%nat = Some raw_file) /\
  (forall path w',
      process P self master_template None w = (Ok path, w') ->
      path = dated /\ is_Some (files w' !! raw_file)) /\
  (forall start_time end_time stdout stderr files' raw_wb template_wb raw_sheet import_sheet,
      makedirs (work_dir self) w = Ok tt ->
      export_window self target_date = Ok (start_time, end_time) ->
      vde P (build_cmd P self raw_file start_time end_time) (export_script_dir self) (files w)
        = Exited 0 (Some stdout) (Some stderr) files' ->
      files' !! raw_file = Some (Xlsx raw_wb) ->
      get_sheet "RAW" raw_wb = Some raw_sheet ->
      files' !! master_template = Some (Xlsx template_wb) ->
      get_sheet "Raw Import" template_wb = Some import_sheet ->
      master_template <> dated ->
      dated ∉ readonly w ->
      master_template ∉ readonly w ->
      exists w', process P self master_template None w = (Ok dated, w')).
Proof.
  intros Hname target_date raw_file dated.
  assert (process_target_date P self master_template None = Ok target_date) as Hdate.
  { unfold process_target_date, _extract_date_from_filename, extract_date_body.
    by rewrite Hname. }
  assert (new_master_path self target_date = dated) as Hdated by done.
  assert (raw_file <> dated) as Hne by (by apply join_relative_ne).
  assert (process P self master_template None w =
    match makedirs (work_dir self) w with
    | Raise e => (Raise e, w)
    | Ok _ =>
        match run_vde_export P self raw_file (Some target_date) w with
        | (Raise e, w1) => (Raise e, w1)
        | (Ok _, w1) =>
            update_master_workbook P self raw_file master_template (Some target_date) w1
        end
    end) as Hprocess.
  { unfold process. by rewrite Hdate. }
  split_and!; [done..| |].
  - intros path w'. rewrite Hprocess.
    destruct (makedirs (work_dir self) w); [|done].
    destruct (run_vde_export P self raw_file (Some target_date) w) as [[x|] w1] eqn:Hexport;
      [|done].
    intros Hupdate.
    apply run_vde_export_ok in Hexport as [_ Hraw].
    apply update_master_workbook_ok in Hupdate as [-> Hkeep].
    split; [done|]. by apply Hkeep.
  - intros start_time end_time stdout stderr files' raw_wb template_wb raw_sheet import_sheet
      Hmk Hwin Hvde Hraw Hrs Htpl His Htne Hrw Htw.
    rewrite Hprocess, Hmk.
    destruct (run_vde_export_succeeds P self raw_file target_date start_time end_time w
                stdout stderr files' Hwin Hvde) as (w1 & -> & Hfiles & Hro); [by eauto|].
    rewrite <- Hfiles in Hraw, Htpl. rewrite <- Hro in Hrw, Htw.
    pose proof (update_master_workbook_succeeds P self raw_file master_template target_date w1
                  raw_wb template_wb raw_sheet import_sheet) as Hupd.
    cbv zeta in Hupd. rewrite Hdated in Hupd.
    destruct (Hupd Htpl His Hraw Hrs Htne Hne Hrw Htw) as [w' ->]. by exists w'.
Qed.

(** ** Concrete runs *)

(** C1 on the sample world: the run returns the dated path. *)
Lemma C1_process_witness :
  OsPath.basename demo_template = "3895th_070124.xlsx" /\
  exists w', process (demo_platform tool_ok) demo_config demo_template None demo_world
             = (Ok "/work/3895th_070224.xlsx", w').
Proof.
  split; [reflexivity|].
  destruct (C1_process_end_to_end (demo_platform tool_ok) demo_config demo_template
              demo_world eq_refl) as (_ & _ & _ & _ & _ & _ & Hreturns).
  eapply (Hreturns (Datetime 2024 7 2 7 0 0 0 (Some (Zone "America/New_York")))
                   (Datetime 2024 7 2 19 0 0 0 (Some (Zone "America/New_York")))
                   "exported 2 rows" ""
                   (<[demo_raw_file := Xlsx demo_raw_wb]> (files demo_world))
                   demo_raw_wb demo_template_wb demo_raw_sheet demo_import_sheet);
    try (vm_compute; reflexivity).
  - discriminate.
  - apply not_elem_of_empty.
  - apply not_elem_of_empty.
Defined.

(** C3 with a raw workbook whose only sheet is titled [Sheet1]. *)
Lemma C3_missing_sheet_witness :
  exists msg w',
    update_master_workbook (demo_platform tool_ok) demo_config demo_raw_file demo_template
                           (Some demo_target_date) demo_world_untitled
      = (Raise (ValueError msg), w') /\
    files w' !! "/work/3895th_070224.xlsx" = Some (Xlsx demo_template_wb).
Proof.
  destruct (C3_missing_sheet_raises_before_mutation (demo_platform tool_ok) demo_config
              demo_raw_file demo_template (Some demo_target_date) demo_target_date
              demo_world_untitled
              (World (<["/work/3895th_070224.xlsx" := Xlsx demo_template_wb]>
                        (files demo_world_untitled)) ∅ [])
              [("Sheet1", demo_raw_sheet)] demo_template_wb)
    as (msg & w' & Hrun & _ & Hfile & _); try (vm_compute; reflexivity).
  - left. apply get_sheet_None. vm_compute. reflexivity.
  - by exists msg, w'.
Defined.

(** C4 on the sample raw workbook and template. *)
Lemma C4_merge_witness :
  let r := update_master_workbook (demo_platform tool_ok) demo_config demo_raw_file
                                  demo_template (Some demo_target_date) demo_world_exported in
  fst r = Ok "/work/3895th_070224.xlsx" /\
  exists (w2 : world) (saved_wb : workbook) (saved_sheet : sheet),
    load_workbook "/work/3895th_070224.xlsx" w2 = Ok saved_wb /\
    get_sheet "Raw Import" saved_wb = Some saved_sheet /\
    (forall rc, used_range demo_import_sheet rc ->
       (used_range demo_raw_sheet rc -> value_at saved_sheet rc = value_at demo_raw_sheet rc) /\
       (~ used_range demo_raw_sheet rc -> value_at saved_sheet rc = None)) /\
    _recalculate_with_libreoffice (demo_platform tool_ok) demo_config
      "/work/3895th_070224.xlsx" w2 = (Ok tt, snd r).
Proof.
  intros r. split; [by vm_compute|].
  destruct (C4_merge_clears_then_copies (demo_platform tool_ok) demo_config demo_raw_file
              demo_template (Some demo_target_date) demo_world_exported (snd r)
              "/work/3895th_070224.xlsx")
    as (w1 & w2 & raw_wb & master_wb & saved_wb & raw_sheet & import_sheet & saved_sheet
        & Hcopy & Hraw & Hrs & Hm & His & Hsaved & Hss & Hvalues & Hrecalc).
  { vm_compute. reflexivity. }
  apply copy_file_ok in Hcopy as (c & Hc & _ & _ & ->).
  vm_compute in Hc. injection Hc as <-.
  assert (raw_sheet = demo_raw_sheet) as ->.
  { vm_compute in Hraw. injection Hraw as <-. vm_compute in Hrs. by injection Hrs. }
  assert (import_sheet = demo_import_sheet) as ->.
  { vm_compute in Hm. injection Hm as <-. vm_compute in His. by injection His. }
  by exists w2, saved_wb, saved_sheet.
Defined.

(** C5 with the raw file missing: the snapshot is the template copy. *)
Lemma C5_failure_witness :
  exists e w3,
    update_master_workbook (demo_platform tool_ok) demo_config demo_raw_file demo_template
                           (Some demo_target_date) demo_world = (Raise e, w3) /\
    files w3 !! "/work/3895th_070224.xlsx.error" = Some (Xlsx demo_template_wb).
Proof.
  destruct (C5_failure_keeps_error_state (demo_platform tool_ok) demo_config demo_raw_file
              demo_template (Some demo_target_date) demo_target_date demo_world
              (World (<["/work/3895th_070224.xlsx" := Xlsx demo_template_wb]>
                        (files demo_world)) ∅ [])
              (World (<["/work/3895th_070224.xlsx" := Xlsx demo_template_wb]>
                        (files demo_world)) ∅ [])
              (FileNotFoundError demo_raw_file))
    as (w3 & Hrun & _ & _ & Hsnap & _); try (vm_compute; reflexivity).
  exists (FileNotFoundError demo_raw_file), w3. split; [done|].
  change (new_master_path demo_config demo_target_date +:+ ".error")
    with "/work/3895th_070224.xlsx.error" in Hsnap.
  rewrite Hsnap by apply not_elem_of_empty. by vm_compute.
Defined.

(** C8 on a name without token, a token with month 13, and a leap day. *)
Lemma C8_extract_date_witness :
  _extract_date_from_filename (demo_platform tool_ok) demo_config "/srv/reports/notes.xlsx"
    = Ok None /\
  _extract_date_from_filename (demo_platform tool_ok) demo_config "3895th_133124.xlsx"
    = Ok None /\
  _extract_date_from_filename (demo_platform tool_ok) demo_config "/srv/3895th_022924.xlsx"
    = Ok (Some (Datetime 2024 2 29 0 0 0 0 (Some (Zone "America/New_York")))).
Proof.
  destruct (C8_extract_date_from_filename (demo_platform tool_ok) demo_config)
    as (_ & Hnone & Hinvalid & Hvalid & _ & _).
  split_and!.
  - apply Hnone. apply re_search_None. reflexivity.
  - apply (Hinvalid _ "133124"); [reflexivity|].
    unfold valid_token. vm_compute. intros [[_ Hm] _]. by apply Hm.
  - apply (Hvalid _ "022924"); [reflexivity|].
    unfold valid_token. vm_compute. repeat split; discriminate.
Defined.

(** * Further properties of the code *)

(** ** Calendar steps *)

Lemma days_in_month_bounds (y m : Z) : 28 <= days_in_month y m <= 31.
Proof.
  unfold days_in_month.
  repeat match goal with |- context [if ?b then _ else _] => destruct b end; lia.
Qed.

Lemma days_in_month_december (y : Z) : days_in_month y 12 = 31.
Proof. reflexivity. Qed.

(** Stepping back one day and then forward one day gives the instant back. *)
Lemma minus_then_plus_one_day (d y : datetime) :
  valid_date d -> minus_one_day d = Ok y ->
  valid_date y /\ plus_one_day y = Ok d.
Proof.
  destruct d as [yr mo dy h mi s us z]. unfold valid_date, minus_one_day, plus_one_day.
  cbn [year month day hour minute second microsecond tz].
  intros (Hy & Hm & Hd).
  pose proof (days_in_month_bounds yr (mo - 1)) as Hprev.
  destruct (1 <? dy) eqn:Hdy; [|destruct (1 <? mo) eqn:Hmo].
  - destruct (yr <? 1) eqn:Hlow; [lia|]. intros [= <-].
    cbn [year month day hour minute second microsecond tz].
    split; [lia|].
    replace (dy - 1 <? days_in_month yr mo) with true by lia.
    replace (9999 <? yr) with false by lia.
    do 2 f_equal; lia.
  - destruct (yr <? 1) eqn:Hlow; [lia|]. intros [= <-].
    cbn [year month day hour minute second microsecond tz].
    split; [lia|].
    rewrite Z.ltb_irrefl.
    replace (mo - 1 <? 12) with true by lia.
    replace (9999 <? yr) with false by lia.
    do 2 f_equal; lia.
  - destruct (yr - 1 <? 1) eqn:Hlow; [done|]. intros [= <-].
    cbn [year month day hour minute second microsecond tz].
    rewrite days_in_month_december.
    split; [lia|].
    replace (31 <? 31) with false by lia.
    replace (12 <? 12) with false by lia.
    replace (9999 <? yr - 1 + 1) with false by lia.
    do 2 f_equal; lia.
Qed.

(** Stepping forward one day and then back one day gives the instant back. *)
Lemma plus_then_minus_one_day (d y : datetime) :
  valid_date d -> plus_one_day d = Ok y ->
  valid_date y /\ minus_one_day y = Ok d.
Proof.
  destruct d as [yr mo dy h mi s us z]. unfold valid_date, minus_one_day, plus_one_day.
  cbn [year month day hour minute second microsecond tz].
  intros (Hy & Hm & Hd).
  pose proof (days_in_month_bounds yr (mo + 1)) as Hnext.
  pose proof (days_in_month_bounds yr mo) as Hthis.
  destruct (dy <? days_in_month yr mo) eqn:Hdy; [|destruct (mo <? 12) eqn:Hmo].
  - destruct (9999 <? yr) eqn:Hhigh; [lia|]. intros [= <-].
    cbn [year month day hour minute second microsecond tz].
    split; [lia|].
    replace (1 <? dy + 1) with true by lia.
    replace (yr <? 1) with false by lia.
    do 2 f_equal; lia.
  - destruct (9999 <? yr) eqn:Hhigh; [lia|]. intros [= <-].
    cbn [year month day hour minute second microsecond tz].
    split; [lia|].
    rewrite Z.ltb_irrefl.
    replace (1 <? mo + 1) with true by lia.
    replace (yr <? 1) with false by lia.
    replace (mo + 1 - 1) with mo by lia.
    do 2 f_equal; lia.
  - destruct (9999 <? yr + 1) eqn:Hhigh; [done|]. intros [= <-].
    cbn [year month day hour minute second microsecond tz].
    assert (mo = 12) as -> by lia. rewrite days_in_month_december in *.
    split; [change (days_in_month (yr + 1) 1) with 31; lia|].
    rewrite !Z.ltb_irrefl.
    replace (yr + 1 - 1 <? 1) with false by lia.
    do 2 f_equal; lia.
Qed.

(** Unless the clock reads the first day [datetime] can hold, the yesterday
    fallback exists and one day added to it is the clock's reading. *)
Lemma yesterday_then_plus_one_day (P : Platform) (self : WorkbookProcessor) :
  let now := datetime_now P (gettz P (timezone self)) in
  valid_date now ->
  1 < year now \/ 1 < month now \/ 1 < day now ->
  exists y, get_yesterday_date P self = Ok y /\ valid_date y /\ plus_one_day y = Ok now.
Proof.
  intros now Hvalid Hnotfirst. unfold get_yesterday_date. fold now.
  destruct (minus_one_day now) as [y|e] eqn:Hminus.
  - destruct (minus_then_plus_one_day now y Hvalid Hminus) as [Hy Hplus]. by exists y.
  - exfalso. unfold minus_one_day in Hminus. destruct Hvalid as (Hy & Hm & Hd).
    destruct (1 <? day now) eqn:Hday; [|destruct (1 <? month now) eqn:Hmonth].
    + destruct (year now <? 1) eqn:Hlow; [lia|done].
    + destruct (year now <? 1) eqn:Hlow; [lia|done].
    + destruct (year now - 1 <? 1) eqn:Hlow; [lia|done].
Qed.

(** X1. The yesterday fallback is the day before the clock's day, at the same
    time of day and in the same zone. *)
Theorem get_yesterday_date_is_previous_day (P : Platform) (self : WorkbookProcessor) :
  let now := datetime_now P (gettz P (timezone self)) in
  valid_date now ->
  1 < year now \/ 1 < month now \/ 1 < day now ->
  exists y,
    get_yesterday_date P self = Ok y /\
    valid_date y /\ plus_one_day y = Ok now /\
    (hour y, minute y, second y, microsecond y)
      = (hour now, minute now, second now, microsecond now) /\
    tz y = gettz P (timezone self).
Proof.
  intros now Hvalid Hnotfirst.
  destruct (yesterday_then_plus_one_day P self Hvalid Hnotfirst) as (y & Hy & Hvy & Hplus).
  exists y. split_and!; [done..| |].
  - revert Hy. unfold get_yesterday_date, minus_one_day. fold now.
    repeat match goal with |- context [if ?b then _ else _] => destruct b end;
      by intros [= <-].
  - unfold get_yesterday_date in Hy. by rewrite (minus_one_day_tz _ _ Hy).
Qed.

Lemma get_yesterday_date_witness :
  exists y,
    get_yesterday_date (demo_platform tool_ok) demo_config = Ok y /\
    (year y, month y, day y) = (2024, 7, 2) /\
    (hour y, minute y) = (9, 30).
Proof.
  destruct (get_yesterday_date_is_previous_day (demo_platform tool_ok) demo_config)
    as (y & Hy & _ & Hplus & Htime & _).
  - vm_compute. repeat split; discriminate.
  - left. reflexivity.
  - exists y. split; [done|]. vm_compute in Hy. injection Hy as <-. done.
Defined.

(** ** The export window *)

Lemma split_nonempty (sep : ascii) (s : string) : Py.split sep s <> [].
Proof.
  destruct s as [|c s]; simpl; [done|].
  destruct (Ascii.eqb c sep); [done|]. by destruct (Py.split sep s).
Qed.

Lemma split_no_sep (sep : ascii) (s : string) :
  Py.contains_char sep s = false -> Py.split sep s = [s].
Proof.
  induction s as [|c s IH]; simpl; [done|].
  intros H. apply orb_false_iff in H as [Hc Hs].
  rewrite Ascii.eqb_sym, Hc. by rewrite (IH Hs).
Qed.

Lemma split_app_sep (sep : ascii) (a rest : string) :
  Py.contains_char sep a = false ->
  Py.split sep (a +:+ String sep rest) = a :: Py.split sep rest.
Proof.
  induction a as [|c a IH]; simpl.
  - intros _. by rewrite Ascii.eqb_refl.
  - intros H. apply orb_false_iff in H as [Hc Ha].
    rewrite Ascii.eqb_sym, Hc. by rewrite (IH Ha).
Qed.

(** Joining the pieces of a split with the separator gives the text back. *)
Lemma join_split (sep : ascii) (s : string) :
  Py.join (String sep "") (Py.split sep s) = s.
Proof.
  induction s as [|c s IH]; simpl; [done|].
  destruct (Ascii.eqb c sep) eqn:Hc.
  - apply Ascii.eqb_eq in Hc as ->.
    pose proof (split_nonempty sep s) as Hne.
    destruct (Py.split sep s) as [|p ps] eqn:Hs; [done|].
    change (Py.join (String sep "") ("" :: p :: ps))
      with (String sep (Py.join (String sep "") (p :: ps))).
    by rewrite IH.
  - pose proof (split_nonempty sep s) as Hne.
    destruct (Py.split sep s) as [|p ps] eqn:Hs; [done|].
    destruct ps as [|q ps]; simpl in *; by rewrite <- IH.
Qed.

Lemma split_pieces_no_sep (sep : ascii) (s : string) :
  Forall (fun p => Py.contains_char sep p = false) (Py.split sep s).
Proof.
  induction s as [|c s IH]; simpl; [by repeat constructor|].
  destruct (Ascii.eqb c sep) eqn:Hc; [by constructor|].
  pose proof (split_nonempty sep s) as Hne.
  destruct (Py.split sep s) as [|p ps]; [done|].
  apply Forall_cons in IH as [Hp Hps]. constructor; [|done].
  simpl. by rewrite Ascii.eqb_sym, Hc.
Qed.

(** A text splits in two at the separator exactly when it is two pieces
    without separator around one separator. *)
Lemma split_two (sep : ascii) (s a b : string) :
  Py.split sep s = [a; b] <->
  s = a +:+ String sep b
  /\ Py.contains_char sep a = false /\ Py.contains_char sep b = false.
Proof.
  split.
  - intros Hs. pose proof (join_split sep s) as Hjoin.
    pose proof (split_pieces_no_sep sep s) as Hpieces.
    rewrite Hs in Hjoin, Hpieces.
    apply Forall_cons in Hpieces as [Ha Hb]. apply Forall_cons in Hb as [Hb _].
    split_and!; [|done..]. by rewrite <- Hjoin.
  - intros (-> & Ha & Hb). by rewrite split_app_sep, split_no_sep.
Qed.

(** X2. [parse_hm] accepts exactly the texts [a:b] whose two parts, free of
    colons, [int()] reads; it gives the two numbers read. *)
Theorem parse_hm_ok_iff (s : string) (h m : Z) :
  parse_hm s = Ok (h, m) <->
  exists a b,
    s = a +:+ ":" +:+ b
    /\ Py.contains_char ":" a = false /\ Py.contains_char ":" b = false
    /\ Py.int a = Some h /\ Py.int b = Some m.
Proof.
  unfold parse_hm. split.
  - destruct (Py.split ":" s) as [|a [|b [|c rest]]] eqn:Hs; [done| | |].
    + by destruct (int_or_raise a).
    + apply split_two in Hs as (-> & Ha & Hb).
      destruct (int_or_raise a) as [h'|] eqn:Hia; [|done].
      destruct (int_or_raise b) as [m'|] eqn:Hib; [|done].
      simpl. intros [= -> ->]. exists a, b.
      by rewrite <- !int_or_raise_ok.
    + destruct (int_or_raise a); [|done]. destruct (int_or_raise b); [|done].
      by destruct (int_or_raise c).
  - intros (a & b & -> & Ha & Hb & Hia & Hib).
    assert (Py.split ":" (a +:+ ":" +:+ b) = [a; b]) as -> by (by apply split_two).
    apply int_or_raise_ok in Hia, Hib. by rewrite Hia, Hib.
Qed.

Lemma replace_time_ok_iff (d r : datetime) (h mi : Z) :
  replace_time d h mi = Ok r <->
  0 <= h <= 23 /\ 0 <= mi <= 59 /\
  r = Datetime (year d) (month d) (day d) h mi 0 0 (tz d).
Proof.
  unfold replace_time, fits_c_int.
  destruct (negb (_ && _)) eqn:Hfit.
  { split; [done|]. intros (? & ? & _). lia. }
  destruct ((0 <=? h) && (h <=? 23)) eqn:Hh; destruct ((0 <=? mi) && (mi <=? 59)) eqn:Hm;
    simpl; split; try done; try (intros (? & ? & _); lia).
  - intros [= <-]. split_and!; [lia..|done].
  - by intros (_ & _ & ->).
Qed.

(** X3. The export window exists exactly when both configured texts are read by
    [parse_hm] as an hour in 0..23 and a minute in 0..59; its two ends are
    then on the target date, in its zone, at these times to the second. The
    two ends are not compared with each other. *)
Theorem export_window_ok_iff (self : WorkbookProcessor) (d start_time end_time : datetime) :
  export_window self d = Ok (start_time, end_time) <->
  exists sh sm eh em,
    parse_hm (export_start_time self) = Ok (sh, sm) /\
    parse_hm (export_end_time self) = Ok (eh, em) /\
    (0 <= sh <= 23 /\ 0 <= sm <= 59) /\ (0 <= eh <= 23 /\ 0 <= em <= 59) /\
    start_time = Datetime (year d) (month d) (day d) sh sm 0 0 (tz d) /\
    end_time = Datetime (year d) (month d) (day d) eh em 0 0 (tz d).
Proof.
  unfold export_window. split.
  - destruct (parse_hm (export_start_time self)) as [[sh sm]|]; [|done].
    destruct (parse_hm (export_end_time self)) as [[eh em]|]; [|done].
    cbn [res_bind fst snd].
    destruct (replace_time d sh sm) as [s|] eqn:Hs; [|done].
    destruct (replace_time d eh em) as [e|] eqn:He; [|done].
    cbn [res_bind]. intros [= <- <-].
    apply replace_time_ok_iff in Hs as (? & ? & ->).
    apply replace_time_ok_iff in He as (? & ? & ->).
    by exists sh, sm, eh, em.
  - intros (sh & sm & eh & em & -> & -> & [? ?] & [? ?] & -> & ->).
    cbn [res_bind fst snd].
    rewrite (proj2 (replace_time_ok_iff d _ sh sm)) by done.
    by rewrite (proj2 (replace_time_ok_iff d _ eh em)) by done.
Qed.

(** X4. Exchanging the two configured texts exchanges the two ends: a window
    that ends before it starts is accepted. *)
Theorem export_window_swap (self : WorkbookProcessor) (d start_time end_time : datetime) :
  export_window self d = Ok (start_time, end_time) ->
  export_window (with_window self (export_end_time self) (export_start_time self)) d
    = Ok (end_time, start_time).
Proof.
  unfold export_window. cbn [with_window export_start_time export_end_time].
  destruct (parse_hm (export_start_time self)) as [[sh sm]|]; [|done].
  destruct (parse_hm (export_end_time self)) as [[eh em]|]; [|done].
  cbn [res_bind fst snd].
  destruct (replace_time d sh sm) as [s|]; [|done].
  destruct (replace_time d eh em) as [e|]; [|done].
  cbn [res_bind]. by intros [= <- <-].
Qed.

(** ** File names and dates: the round trips *)

Lemma rev_app_append (a acc : string) : String.rev_app a acc = String.rev a +:+ acc.
Proof.
  unfold String.rev. revert acc. induction a as [|c a IH]; intros acc; simpl; [done|].
  rewrite IH, (IH (String c "")). by rewrite append_assoc.
Qed.

Lemma rev_append (a b : string) : String.rev (a +:+ b) = String.rev b +:+ String.rev a.
Proof.
  induction a as [|c a IH]; simpl.
  - induction (String.rev b) as [|x r IHr]; simpl; [done|]. by rewrite <- IHr.
  - unfold String.rev in *. simpl. rewrite !(rev_app_append _ (String c "")).
    unfold String.rev. by rewrite IH, append_assoc.
Qed.

Lemma rev_involutive (a : string) : String.rev (String.rev a) = a.
Proof.
  induction a as [|c a IH]; [done|].
  change (String c a) with (String c "" +:+ a) at 1.
  rewrite rev_append, rev_append, IH. done.
Qed.

(** A text that ends with a slash is a text followed by a slash. *)
Lemma endswith_slash (a : string) :
  Py.endswith a "/" = true -> exists a', a = a' +:+ "/".
Proof.
  unfold Py.endswith. intros H. apply startswith_inv in H as [t Ht].
  exists (String.rev t). rewrite <- (rev_involutive a), Ht.
  change (String.rev "/" +:+ t) with (String "/" "" +:+ t). by rewrite rev_append.
Qed.

Lemma contains_char_append (c : ascii) (a b : string) :
  Py.contains_char c (a +:+ b) = Py.contains_char c a || Py.contains_char c b.
Proof.
  induction a as [|x a IH]; [done|].
  change (String x a +:+ b) with (String x (a +:+ b)). cbn [Py.contains_char].
  by rewrite IH, orb_assoc.
Qed.

Lemma basename_no_slash (b : string) :
  Py.contains_char "/" b = false -> OsPath.basename b = b.
Proof.
  destruct b as [|c b]; [done|]. cbn [OsPath.basename Py.contains_char].
  intros H. apply orb_false_iff in H as [Hc Hb]. rewrite Hb.
  by rewrite Ascii.eqb_sym, Hc.
Qed.

Lemma basename_after_slash (p b : string) :
  Py.contains_char "/" b = false -> OsPath.basename (p +:+ "/" +:+ b) = b.
Proof.
  intros Hb. induction p as [|c p IH].
  - change ("" +:+ "/" +:+ b) with (String "/" b). cbn [OsPath.basename].
    by rewrite Hb, Ascii.eqb_refl.
  - change (String c p +:+ "/" +:+ b) with (String c (p +:+ "/" +:+ b)).
    cbn [OsPath.basename]. rewrite contains_char_append.
    change (Py.contains_char "/" ("/" +:+ b)) with (Ascii.eqb "/" "/" || Py.contains_char "/" b).
    by rewrite Ascii.eqb_refl, orb_true_r.
Qed.

(** [os.path.basename(os.path.join(a, b))] is [b] for a name without slash. *)
Lemma basename_join (a b : string) :
  Py.contains_char "/" b = false -> OsPath.basename (OsPath.join a b) = b.
Proof.
  intros Hb. unfold OsPath.join.
  assert (Py.startswith b "/" = false) as ->.
  { destruct b as [|c b]; [done|]. cbn [Py.contains_char] in Hb.
    apply orb_false_iff in Hb as [Hc _]. cbn [Py.startswith].
    by rewrite Hc. }
  destruct (String.eqb a "") eqn:Ha.
  - apply String.eqb_eq in Ha as ->. simpl. by apply basename_no_slash.
  - simpl. destruct (Py.endswith a "/") eqn:Hend.
    + apply endswith_slash in Hend as [a' ->].
      rewrite append_assoc. by apply basename_after_slash.
    + by apply basename_after_slash.
Qed.

Lemma digit_char_facts (n : Z) :
  Py.is_digit (Py.digit_char n) = true /\ Py.digit_val (Py.digit_char n) = n mod 10.
Proof.
  unfold Py.digit_char.
  assert (0 <= n mod 10 < 10) as Hr by (apply Z.mod_pos_bound; lia).
  assert (exists k : nat, (k < 10)%nat /\ n mod 10 = Z.of_nat k) as (k & Hk & ->).
  { exists (Z.to_nat (n mod 10)). split; lia. }
  rewrite Nat2Z.id.
  do 10 (destruct k as [|k]; [by vm_compute|]). lia.
Qed.

Lemma zero_pad_two (n : Z) :
  Py.zero_pad 2 n = String (Py.digit_char (n / 10)) (String (Py.digit_char n) "").
Proof. reflexivity. Qed.

(** Two digits written by [%02d] are read back as the number, up to 99. *)
Lemma decimal_zero_pad_two (n : Z) :
  0 <= n <= 99 -> decimal (Py.zero_pad 2 n) = n.
Proof.
  intros Hn. rewrite zero_pad_two. unfold decimal. simpl.
  destruct (digit_char_facts (n / 10)) as [_ ->].
  destruct (digit_char_facts n) as [_ ->].
  rewrite (Z.mod_small (n / 10)) by (split; [apply Z.div_pos; lia | apply Z.div_lt_upper_bound; lia]).
  pose proof (Z.div_mod n 10 ltac:(lia)). lia.
Qed.

Lemma digit_val_char (c : ascii) :
  Py.is_digit c = true -> Py.digit_char (Py.digit_val c) = c.
Proof. destruct c as [[] [] [] [] [] [] [] []]; vm_compute; congruence. Qed.

(** Two digits, read as a number, are written back by [%02d]. *)
Lemma zero_pad_two_decimal (a b : ascii) :
  Py.is_digit a = true -> Py.is_digit b = true ->
  Py.zero_pad 2 (decimal (String a (String b ""))) = String a (String b "").
Proof.
  intros Ha Hb. rewrite zero_pad_two. unfold decimal. simpl.
  destruct (is_digit_facts a Ha) as (_ & _ & _ & Hra).
  destruct (is_digit_facts b Hb) as (_ & _ & _ & Hrb).
  assert (Py.digit_char ((0 * 10 + Py.digit_val a) * 10 + Py.digit_val b) = b) as ->.
  { rewrite <- (digit_val_char b Hb) at 2. unfold Py.digit_char. do 3 f_equal.
    rewrite Z.add_comm, Z.mod_add by lia. done. }
  assert (((0 * 10 + Py.digit_val a) * 10 + Py.digit_val b) / 10 = Py.digit_val a) as ->.
  { rewrite Z.add_comm, Z.div_add by lia. rewrite Z.div_small by lia. lia. }
  by rewrite digit_val_char.
Qed.

Lemma digit_not_slash (c : ascii) : Py.is_digit c = true -> Ascii.eqb "/" c = false.
Proof. destruct c as [[] [] [] [] [] [] [] []]; vm_compute; congruence. Qed.

Lemma digits_no_slash (s : string) :
  Py.all_chars Py.is_digit s = true -> Py.contains_char "/" s = false.
Proof.
  induction s as [|c s IH]; [done|]. cbn [Py.all_chars Py.contains_char].
  intros H. apply andb_true_iff in H as [Hc Hs]. by rewrite (digit_not_slash c Hc), IH.
Qed.

Lemma re_search_of_match (s d : string) : re_match_here s = Some d -> re_search s = Some d.
Proof.
  intros H. destruct s as [|c s]; [by vm_compute in H|].
  cbn [re_search]. by rewrite H.
Qed.

Lemma is_leap_century (y : Z) : is_leap y = true -> is_leap (2000 + y mod 100) = true.
Proof.
  unfold is_leap. intros H.
  apply andb_true_iff in H as [H4 H100]. apply Z.eqb_eq in H4.
  assert ((2000 + y mod 100) mod 4 = 0) as -> by (Z.div_mod_to_equations; lia).
  apply orb_true_iff in H100 as [H100|H400].
  - apply negb_true_iff, Z.eqb_neq in H100.
    assert ((2000 + y mod 100) mod 100 <> 0) as Hne by (Z.div_mod_to_equations; lia).
    apply Z.eqb_neq in Hne. by rewrite Hne.
  - apply Z.eqb_eq in H400.
    assert ((2000 + y mod 100) mod 400 = 0) as -> by (Z.div_mod_to_equations; lia).
    simpl. apply orb_true_r.
Qed.

Lemma days_in_month_century (y m : Z) :
  days_in_month y m <= days_in_month (2000 + y mod 100) m.
Proof.
  unfold days_in_month. destruct (m =? 2); [|apply Z.le_refl].
  destruct (is_leap y) eqn:Hy; [by rewrite (is_leap_century y Hy)|].
  destruct (is_leap (2000 + y mod 100)); lia.
Qed.

(** The token that names a date: six digits that read back as its month,
    its day and the last two digits of its year. *)
Lemma dated_token (d : datetime) :
  let tok := strftime_mmddyy d in
  String.length tok = 6%nat /\ Py.all_chars Py.is_digit tok = true /\
  (0 <= month d <= 99 -> token_month tok = month d) /\
  (0 <= day d <= 99 -> token_day tok = day d) /\
  token_year tok = 2000 + year d mod 100.
Proof.
  unfold strftime_mmddyy, token_month, token_day, token_year.
  rewrite !zero_pad_two. cbn [String.append Py.take Py.drop String.length Py.all_chars].
  split_and!.
  - done.
  - by rewrite !(proj1 (digit_char_facts _)).
  - intros Hm. rewrite <- zero_pad_two. by apply decimal_zero_pad_two.
  - intros Hd. rewrite <- zero_pad_two. by apply decimal_zero_pad_two.
  - rewrite <- zero_pad_two. rewrite decimal_zero_pad_two; [done|].
    pose proof (Z.mod_pos_bound (year d) 100). lia.
Qed.

Section FileNames.

Variable P : Platform.
Variable self : WorkbookProcessor.

Lemma dated_name_search (d : datetime) :
  re_search (OsPath.basename (new_master_path self d)) = Some (strftime_mmddyy d).
Proof.
  destruct (dated_token d) as (Hlen & Hdig & _).
  unfold new_master_path. rewrite basename_join.
  - apply re_search_of_match, re_match_here_Some. by exists "".
  - rewrite !contains_char_append. by rewrite (digits_no_slash _ Hdig).
Qed.

Lemma dated_name_extract (d : datetime) :
  valid_date d ->
  _extract_date_from_filename P self (new_master_path self d)
    = Ok (Some (read_back d (gettz P (timezone self)))).
Proof.
  intros (Hy & Hm & Hd).
  destruct (dated_token d) as (_ & _ & Hmonth & Hday & Hyear).
  pose proof (days_in_month_bounds (year d) (month d)) as Hdim.
  pose proof (days_in_month_century (year d) (month d)) as Hcent.
  rewrite (extract_valid_token P self _ _ (dated_name_search d)).
  - unfold read_back. by rewrite Hmonth, Hday, Hyear by lia.
  - unfold valid_token. rewrite Hmonth, Hday, Hyear by lia. lia.
Qed.

(** X5. The name the merger gives the workbook of a date is read back by the
    date resolver as that month and day of the year 2000 + (year mod 100), at
    midnight in the configured zone: as the same day for the years 2000 to
    2099. *)
Theorem dated_name_round_trip (d : datetime) :
  valid_date d ->
  _extract_date_from_filename P self (new_master_path self d)
    = Ok (Some (read_back d (gettz P (timezone self)))) /\
  (2000 <= year d <= 2099 ->
   read_back d (gettz P (timezone self))
   = Datetime (year d) (month d) (day d) 0 0 0 0 (gettz P (timezone self))).
Proof.
  intros Hvalid. split; [by apply dated_name_extract|].
  intros Hrange. unfold read_back. f_equal. Z.div_mod_to_equations; lia.
Qed.

(** X6. For a file name of ASCII characters, a date read from the name is
    written back as the same six digits. (Outside ASCII the pattern's [\d]
    also accepts other decimal digits, which [strftime] does not write.) *)
Theorem token_round_trip (filename tok : string) :
  Py.isascii filename = true ->
  re_search (OsPath.basename filename) = Some tok -> valid_token tok ->
  exists dt,
    _extract_date_from_filename P self filename = Ok (Some dt) /\
    strftime_mmddyy dt = tok.
Proof.
  intros _ Hs Hvalid. eexists. split; [by apply extract_valid_token|].
  apply re_search_Some in Hs as (Hlen & Hdig & _).
  destruct (six_digits tok Hlen Hdig)
    as (c0 & c1 & c2 & c3 & c4 & c5 & -> & H0 & H1 & H2 & H3 & H4 & H5).
  unfold strftime_mmddyy, token_month, token_day, token_year.
  cbn [year month day Py.take Py.drop].
  pose proof (decimal_two_digits_bounds c4 c5 H4 H5) as Hyy.
  replace ((2000 + decimal (String c4 (String c5 ""))) mod 100)
    with (decimal (String c4 (String c5 ""))) by (Z.div_mod_to_equations; lia).
  by rewrite !zero_pad_two_decimal.
Qed.

(** X7. The workbook of one run is a template for the next: named for a date,
    it makes [process] work for the day after, and the workbook of that day
    gets another name. *)
Theorem dated_name_schedules_next_day (d : datetime) :
  valid_date d ->
  exists next,
    process_target_date P self (new_master_path self d) None = Ok next /\
    plus_one_day (read_back d (gettz P (timezone self))) = Ok next /\
    valid_date next /\
    new_master_path self next <> new_master_path self d.
Proof.
  intros Hvalid. pose proof Hvalid as (Hy & Hm & Hd).
  pose proof (dated_name_extract d Hvalid) as Hread.
  set (back := read_back d (gettz P (timezone self))) in *.
  assert (valid_date back) as Hback.
  { unfold valid_date, back, read_back. cbn [year month day].
    pose proof (days_in_month_century (year d) (month d)).
    pose proof (Z.mod_pos_bound (year d) 100). lia. }
  destruct (plus_one_day back) as [next|e] eqn:Hplus.
  - destruct (plus_then_minus_one_day back next Hback Hplus) as [Hnext _].
    exists next. split_and!; [|done..|].
    + unfold process_target_date. by rewrite Hread.
    + intros Heq.
      assert (strftime_mmddyy next = strftime_mmddyy d) as Htok.
      { destruct (dated_token next) as (Hl1 & _). destruct (dated_token d) as (Hl2 & _).
        destruct (decide (strftime_mmddyy next = strftime_mmddyy d)) as [|Hne]; [done|].
        exfalso. revert Heq. unfold new_master_path. apply join_relative_ne; [done..|].
        intros Hnames. apply Hne. apply (inj (String.append "3895th_")) in Hnames.
        rewrite <- (take_app_length 6 _ ".xlsx" Hl1), <- (take_app_length 6 _ ".xlsx" Hl2).
        by rewrite Hnames. }
      destruct (dated_token next) as (_ & _ & Hm1 & Hd1 & _).
      destruct (dated_token d) as (_ & _ & Hm2 & Hd2 & _).
      destruct Hnext as (_ & Hmn & Hdn).
      pose proof (days_in_month_bounds (year next) (month next)).
      pose proof (days_in_month_bounds (year d) (month d)).
      rewrite Htok in Hm1, Hd1.
      assert (month next = month d) as Hmeq by (rewrite <- Hm1, <- Hm2 by lia; done).
      assert (day next = day d) as Hdeq by (rewrite <- Hd1, <- Hd2 by lia; done).
      revert Hplus. unfold plus_one_day, back, read_back. cbn [year month day].
      repeat match goal with |- context [if ?b then _ else _] => destruct b eqn:? end;
        try done; intros [= <-]; cbn [month day] in *; lia.
  - exfalso. revert Hplus. unfold plus_one_day, back, read_back. cbn [year month day].
    pose proof (Z.mod_pos_bound (year d) 100).
    repeat match goal with |- context [if ?b then _ else _] => destruct b eqn:? end;
      try done; lia.
Qed.

End FileNames.

(** ** The two date resolvers *)

(** X8. [process] and [update_master_workbook] resolve a missing date alike from
    a template name that holds a date, and take an explicit date as it is;
    for a name without date the merger on its own takes today where
    [process] takes yesterday. *)
Theorem date_resolvers_compared (P : Platform) (self : WorkbookProcessor)
    (master_template : string) :
  (forall d, process_target_date P self master_template (Some d) = Ok d
             /\ merger_target_date P self master_template (Some d) = Ok d) /\
  (forall d,
      _extract_date_from_filename P self master_template = Ok (Some d) ->
      process_target_date P self master_template None = plus_one_day d /\
      merger_target_date P self master_template None = plus_one_day d) /\
  (_extract_date_from_filename P self master_template = Ok None ->
   let now := datetime_now P (gettz P (timezone self)) in
   valid_date now -> 1 < year now \/ 1 < month now \/ 1 < day now ->
   exists y,
     process_target_date P self master_template None = Ok y /\
     merger_target_date P self master_template None = Ok now /\
     plus_one_day y = Ok now).
Proof.
  split_and!.
  - done.
  - intros d Hd. unfold process_target_date, merger_target_date. by rewrite Hd.
  - intros Hnone now Hvalid Hnotfirst.
    destruct (yesterday_then_plus_one_day P self Hvalid Hnotfirst) as (y & Hy & _ & Hplus).
    exists y. unfold process_target_date, merger_target_date. rewrite Hnone. by cbn [res_bind].
Qed.

Lemma date_resolvers_compared_witness :
  exists y,
    process_target_date (demo_platform tool_ok) demo_config "notes.xlsx" None = Ok y /\
    merger_target_date (demo_platform tool_ok) demo_config "notes.xlsx" None
      = Ok (datetime_now (demo_platform tool_ok) (gettz (demo_platform tool_ok)
                                                    (timezone demo_config))) /\
    (day y, day (datetime_now (demo_platform tool_ok)
                   (gettz (demo_platform tool_ok) (timezone demo_config)))) = (2, 3).
Proof.
  destruct (date_resolvers_compared (demo_platform tool_ok) demo_config "notes.xlsx")
    as (_ & _ & Hfallback).
  destruct Hfallback as (y & Hp & Hm & Hplus).
  - reflexivity.
  - vm_compute. repeat split; discriminate.
  - left. reflexivity.
  - exists y. split_and!; [done..|]. vm_compute in Hp. by injection Hp as <-.
Defined.

(** ** The merge, seen from the workbook *)

Lemma set_sheet_titles (title : string) (s : sheet) (wb : workbook) :
  fst <$> set_sheet title s wb = fst <$> wb.
Proof.
  unfold set_sheet. destruct (list_find _ wb) as [[i ts]|] eqn:Hfind; [|done].
  apply list_find_Some in Hfind as (Hi & Htitle & _).
  rewrite list_fmap_insert. apply list_insert_id.
  rewrite list_lookup_fmap, Hi. simpl. by rewrite Htitle.
Qed.

Lemma list_find_insert_other {A} (p : A -> Prop) `{forall x, Decision (p x)}
    (l : list A) (i : nat) (x y : A) :
  l !! i = Some y -> ~ p x -> ~ p y -> list_find p (<[i := x]> l) = list_find p l.
Proof.
  revert i. induction l as [|z l IH]; intros i Hi Hx Hy; [done|].
  destruct i as [|i]; simpl in *.
  - injection Hi as ->. by rewrite !decide_False.
  - destruct (decide (p z)); [done|]. by rewrite (IH i).
Qed.

Lemma get_sheet_set_other (title other : string) (s : sheet) (wb : workbook) :
  other <> title -> get_sheet other (set_sheet title s wb) = get_sheet other wb.
Proof.
  intros Hne. unfold get_sheet, set_sheet.
  destruct (list_find (fun ts => fst ts = title) wb) as [[i ts]|] eqn:Hfind; [|done].
  apply list_find_Some in Hfind as (Hi & Htitle & _).
  rewrite (list_find_insert_other _ wb i (title, s) ts); [done|done|by apply not_eq_sym|].
  rewrite Htitle. by apply not_eq_sym.
Qed.

(** After clearing and copying, the destination holds the source's value at
    every coordinate from (1, 1) on: nothing of its former content is left. *)
Lemma merged_sheet_is_source (src dst : sheet) (r c : nat) :
  (1 <= r)%nat -> (1 <= c)%nat ->
  value_at (copy_rows src (clear_sheet dst)) (r, c) = value_at src (r, c).
Proof.
  intros Hr Hc.
  assert (forall s : sheet, ~ used_range s (r, c) -> value_at s (r, c) = None) as Hout.
  { intros s Hs. unfold value_at. destruct (s !! (r, c)) as [v|] eqn:Hcell; [|done].
    destruct Hs. by apply (cell_in_used_range s r c v). }
  destruct (value_at_copy_rows src (clear_sheet dst) (r, c)) as [Hin Hnot].
  destruct (decide ((r, c) ∈ mjoin (iter_rows src))) as [Hsrc|Hsrc];
    rewrite elem_of_iter_rows in Hsrc; [by apply Hin|].
  rewrite (Hnot Hsrc), (Hout src Hsrc).
  destruct (value_at_clear_sheet dst (r, c)) as [Hcin Hcnot].
  destruct (decide ((r, c) ∈ mjoin (iter_rows dst))) as [Hdst|Hdst];
    rewrite elem_of_iter_rows in Hdst; [by apply Hcin|].
  by rewrite (Hcnot Hdst), (Hout dst Hdst).
Qed.

Section MergerMore.

Variable P : Platform.
Variable self : WorkbookProcessor.

(** What a successful [update_master_workbook] went through. *)
Lemma update_master_workbook_ok_inv (raw_file master_template : string)
    (target_date : option datetime) (w w' : world) (path : string) :
  update_master_workbook P self raw_file master_template target_date w = (Ok path, w') ->
  exists (d : datetime) (w1 w2 : world) (raw_wb template_wb : workbook)
         (raw_sheet import_sheet : sheet),
    merger_target_date P self master_template target_date = Ok d /\
    path = new_master_path self d /\
    files w !! master_template = Some (Xlsx template_wb) /\
    master_template <> path /\
    copy_file master_template path w = (Ok tt, w1) /\
    load_workbook raw_file w1 = Ok raw_wb /\
    get_sheet "RAW" raw_wb = Some raw_sheet /\
    get_sheet "Raw Import" template_wb = Some import_sheet /\
    w2 = World (<[path := Xlsx (set_sheet "Raw Import"
                                  (copy_rows raw_sheet (clear_sheet import_sheet))
                                  template_wb)]> (files w1))
               (readonly w1) (log w1) /\
    _recalculate_with_libreoffice P self path w2 = (Ok tt, w').
Proof.
  unfold update_master_workbook.
  destruct (merger_target_date P self master_template target_date) as [d|]; [|done].
  destruct (copy_file master_template (new_master_path self d) w) as [[[]|] w1] eqn:Hcopy; [|done].
  destruct (update_body P self raw_file (new_master_path self d) w1) as [[p|] w3] eqn:Hbody;
    [|done].
  intros [= <- <-].
  apply update_body_ok in Hbody as (-> & n & w2 & Hmerge & Hrecalc).
  apply merge_and_save_ok in Hmerge
    as (raw_wb & master_wb & raw_sheet & import_sheet & Hraw & Hrs & Hm & His & Hrw & _ & Hw2).
  pose proof (copy_file_ok _ _ _ _ _ Hcopy) as (c & Hc & Hne & _ & Hw1).
  assert (c = Xlsx master_wb) as ->.
  { unfold load_workbook in Hm. rewrite Hw1 in Hm. simpl in Hm.
    rewrite lookup_insert_eq in Hm. destruct c; by inversion Hm. }
  exists d, w1, w2, raw_wb, master_wb, raw_sheet, import_sheet.
  by split_and!.
Qed.

(** X9. The merge touches one sheet: in the workbook that is saved, the tabs
    are those of the template, in the same order, and every sheet other than
    [Raw Import] is the template's. *)
Theorem merge_keeps_other_sheets (raw_file master_template : string)
    (target_date : option datetime) (w w' : world) (path : string) :
  update_master_workbook P self raw_file master_template target_date w = (Ok path, w') ->
  exists (w2 : world) (template_wb saved_wb : workbook),
    files w !! master_template = Some (Xlsx template_wb) /\
    load_workbook path w2 = Ok saved_wb /\
    _recalculate_with_libreoffice P self path w2 = (Ok tt, w') /\
    fst <$> saved_wb = fst <$> template_wb /\
    (forall title, title <> "Raw Import" ->
                   get_sheet title saved_wb = get_sheet title template_wb).
Proof.
  intros Hrun. apply update_master_workbook_ok_inv in Hrun
    as (d & w1 & w2 & raw_wb & template_wb & raw_sheet & import_sheet
        & _ & -> & Ht & _ & _ & _ & _ & _ & Hw2 & Hrecalc).
  eexists w2, template_wb, _. split_and!; [done| |done| |].
  - unfold load_workbook. rewrite Hw2. simpl. by rewrite lookup_insert_eq.
  - apply set_sheet_titles.
  - intros title Hne. by apply get_sheet_set_other.
Qed.

(** X10. In the workbook that is saved, [Raw Import] holds at every coordinate
    from (1, 1) on what [RAW] holds there: it is a copy of the values of
    [RAW], whatever it held before. *)
Theorem merge_makes_import_equal_raw (raw_file master_template : string)
    (target_date : option datetime) (w w' : world) (path : string) :
  update_master_workbook P self raw_file master_template target_date w = (Ok path, w') ->
  exists (w1 w2 : world) (raw_wb saved_wb : workbook) (raw_sheet saved_sheet : sheet),
    copy_file master_template path w = (Ok tt, w1) /\
    load_workbook raw_file w1 = Ok raw_wb /\
    get_sheet "RAW" raw_wb = Some raw_sheet /\
    load_workbook path w2 = Ok saved_wb /\
    get_sheet "Raw Import" saved_wb = Some saved_sheet /\
    _recalculate_with_libreoffice P self path w2 = (Ok tt, w') /\
    (forall r c, (1 <= r)%nat -> (1 <= c)%nat ->
                 value_at saved_sheet (r, c) = value_at raw_sheet (r, c)).
Proof.
  intros Hrun. apply update_master_workbook_ok_inv in Hrun
    as (d & w1 & w2 & raw_wb & template_wb & raw_sheet & import_sheet
        & _ & -> & Ht & _ & Hcopy & Hraw & Hrs & His & Hw2 & Hrecalc).
  eexists w1, w2, raw_wb, _, raw_sheet, _. split_and!; [done..| | |done|].
  - unfold load_workbook. rewrite Hw2. simpl. by rewrite lookup_insert_eq.
  - by apply (get_set_sheet _ _ import_sheet).
  - intros r c Hr Hc. by apply merged_sheet_is_source.
Qed.

Lemma endswith_app (a b : string) : Py.endswith (a +:+ b) b = true.
Proof. unfold Py.endswith. rewrite rev_append. apply startswith_app. Qed.

(** X11. [update_master_workbook] never changes a template file whose name
    does not end in [.error], whether it returns or raises. (The snapshot
    [<dated path>.error] is the one file other than the dated workbook that
    is written.) *)
Theorem update_never_changes_template (raw_file master_template : string)
    (target_date : option datetime) (w w' : world) (r : res string) :
  Py.endswith master_template ".error" = false ->
  update_master_workbook P self raw_file master_template target_date w = (r, w') ->
  files w' !! master_template = files w !! master_template.
Proof.
  intros Hname. unfold update_master_workbook.
  destruct (merger_target_date P self master_template target_date) as [d|];
    [|by intros [= _ <-]].
  set (nm := new_master_path self d).
  assert (master_template <> nm +:+ ".error") as Hother.
  { intros ->. by rewrite endswith_app in Hname. }
  destruct (copy_file master_template nm w) as [[[]|e] w1] eqn:Hcopy.
  2:{ intros [= _ <-]. by rewrite (copy_file_raise _ _ _ _ _ Hcopy). }
  pose proof (copy_file_ok _ _ _ _ _ Hcopy) as (c & Hc & Hne & _ & Hw1).
  assert (files w1 !! master_template = files w !! master_template) as H1.
  { rewrite Hw1. simpl. by rewrite lookup_insert_ne. }
  assert (files w1 !! nm = Some c) as Hnm.
  { rewrite Hw1. simpl. by rewrite lookup_insert_eq. }
  destruct (update_body P self raw_file nm w1) as [[p|e] w3] eqn:Hbody.
  - intros [= _ <-].
    apply update_body_ok in Hbody as (_ & n & w2 & Hmerge & Hrecalc).
    apply merge_and_save_ok in Hmerge as (? & ? & ? & ? & _ & _ & _ & _ & _ & _ & Hw2).
    pose proof (recalculate_frame P self _ _ _ _ Hrecalc) as (_ & _ & Hframe & _).
    rewrite Hframe by done. rewrite Hw2. simpl. by rewrite lookup_insert_ne.
  - intros [= _ <-].
    apply update_body_raise in Hbody as [_ ->].
    destruct (save_error_state_spec nm w1 (ltac:(by exists c))) as (_ & _ & Hframe & _ & _).
    by rewrite Hframe.
Qed.

(** X20. A write-protected template cannot be merged into: the dated copy
    gets the permission bits of the template, so the save of the merged
    workbook fails with [PermissionError], although the dated path itself
    was writable. The dated file is left as the copy of the template, and
    so is the snapshot [<dated path>.error], both write-protected. *)
Theorem read_only_template_blocks_save (raw_file master_template : string) (d : datetime)
    (w : world) (raw_wb template_wb : workbook) (raw_sheet import_sheet : sheet) :
  let new_master_file := new_master_path self d in
  let error_file := new_master_file +:+ ".error" in
  files w !! master_template = Some (Xlsx template_wb) ->
  get_sheet "Raw Import" template_wb = Some import_sheet ->
  files w !! raw_file = Some (Xlsx raw_wb) ->
  get_sheet "RAW" raw_wb = Some raw_sheet ->
  master_template <> new_master_file -> raw_file <> new_master_file ->
  new_master_file ∉ readonly w ->
  master_template ∈ readonly w ->
  exists w',
    update_master_workbook P self raw_file master_template (Some d) w
      = (Raise PermissionError, w') /\
    files w' !! new_master_file = Some (Xlsx template_wb) /\
    new_master_file ∈ readonly w' /\
    (error_file ∉ readonly w ->
     files w' !! error_file = Some (Xlsx template_wb) /\ error_file ∈ readonly w').
Proof.
  intros nm error_file Ht Hi Hr Hrs Htne Hrne Hrw Htro.
  unfold update_master_workbook. cbn [merger_target_date]. fold nm.
  set (w1 := World (<[nm := Xlsx template_wb]> (files w)) (readonly w ∪ {[ nm ]}) (log w)).
  assert (copy_file master_template nm w = (Ok tt, w1)) as ->.
  { unfold copy_file, write_file. rewrite Ht.
    rewrite decide_False by done. rewrite decide_False by done.
    cbn [files readonly log]. by rewrite decide_True by done. }
  assert (nm ∈ readonly w1) as Hnm_ro.
  { apply elem_of_union. right. by apply elem_of_singleton. }
  assert (files w1 !! nm = Some (Xlsx template_wb)) as Hnm.
  { unfold w1. cbn [files]. by rewrite lookup_insert_eq. }
  assert (update_body P self raw_file nm w1 = (Raise PermissionError, w1)) as ->.
  { unfold update_body, merge_and_save, load_workbook, write_file.
    rewrite Hnm. unfold w1 at 1. cbn [files]. rewrite lookup_insert_ne by done.
    rewrite Hr, Hrs, Hi. by rewrite decide_True by done. }
  eexists. split; [done|].
  unfold save_error_state, path_exists.
  rewrite bool_decide_eq_true_2 by (by rewrite Hnm).
  unfold copy_file, write_file. rewrite Hnm.
  rewrite decide_False by apply error_path_ne.
  destruct (decide (nm +:+ ".error" ∈ readonly w1)) as [Hero|Herw].
  - split_and!; [done..|].
    intros Hew. exfalso. apply Hew. unfold w1 in Hero. cbn [readonly] in Hero.
    apply elem_of_union in Hero as [?|Heq]; [done|].
    apply elem_of_singleton in Heq. by destruct (error_path_ne nm).
  - cbn [files readonly log]. rewrite decide_True by done.
    split_and!.
    + rewrite lookup_insert_ne by (apply not_eq_sym, error_path_ne). done.
    + apply elem_of_union. by left.
    + intros _. split; [by rewrite lookup_insert_eq|].
      apply elem_of_union. right. by apply elem_of_singleton.
Qed.

End MergerMore.

(** ** Recalculation: the success path *)

(** X12. With the office suite available, the first file of the scratch
    directory whose name starts with the stem of the workbook's name replaces
    the workbook, whatever the exit status of the office suite; nothing else
    changes. *)
Theorem recalculate_copies_first_match (P : Platform) (self : WorkbookProcessor)
    (excel_file : string) (w : world) (temp_dir : string) (rc : Z) (stderr : string)
    (before after : list (string * content)) (name : string) (c : content) :
  libreoffice_available self = true ->
  mkdtemp P = Some temp_dir ->
  libreoffice P [ "libreoffice"; "--headless"; "--calc"; "--convert-to"; "xlsx";
                  "--outdir"; temp_dir; excel_file ] (files w)
    = Converted rc stderr (before ++ (name, c) :: after) ->
  (forall entry, entry ∈ before ->
     Py.startswith (fst entry) (OsPath.splitext_root (OsPath.basename excel_file)) = false) ->
  Py.startswith name (OsPath.splitext_root (OsPath.basename excel_file)) = true ->
  excel_file ∉ readonly w ->
  _recalculate_with_libreoffice P self excel_file w
    = (Ok tt, World (<[excel_file := c]> (files w)) (readonly w) (log w)).
Proof.
  intros Havail Htmp Hrun Hbefore Hname Hrw.
  unfold _recalculate_with_libreoffice, recalculate_body. rewrite Havail, Htmp, Hrun.
  cbn [negb]. rewrite filter_app, filter_none, filter_cons_True by
    (try done; intros entry Hin; rewrite (Hbefore entry Hin); discriminate).
  cbn [app snd]. unfold write_file. by rewrite decide_False.
Qed.

Lemma recalculate_copies_first_match_witness :
  _recalculate_with_libreoffice (demo_platform_converting demo_raw_wb) demo_config
    "/work/3895th_070224.xlsx" demo_world
  = (Ok tt, World (<["/work/3895th_070224.xlsx" := Xlsx demo_raw_wb]> (files demo_world))
                  (readonly demo_world) (log demo_world)).
Proof.
  apply (recalculate_copies_first_match (demo_platform_converting demo_raw_wb) demo_config
           "/work/3895th_070224.xlsx" demo_world "/tmp/tmpq1w2e3" 0 ""
           [(".~lock.3895th_070224.xlsx#", Blob "lock")] []
           "3895th_070224.xlsx" (Xlsx demo_raw_wb));
    try reflexivity.
  - intros entry Hin. apply list_elem_of_singleton in Hin as ->. reflexivity.
  - apply not_elem_of_empty.
Defined.

(** ** The orchestrator on every input *)

(** X13. Whenever [process] returns, it returns the dated path of the date it
    resolved (the explicit date if one was given), and both the raw file and
    the dated workbook are in place. *)
Theorem process_returns_dated_path (P : Platform) (self : WorkbookProcessor)
    (master_template : string) (target_date : option datetime)
    (w w' : world) (path : string) :
  process P self master_template target_date w = (Ok path, w') ->
  exists d,
    process_target_date P self master_template target_date = Ok d /\
    (forall d', target_date = Some d' -> d = d') /\
    path = new_master_path self d /\
    is_Some (files w' !! OsPath.join (work_dir self) "raw_export.xlsx") /\
    is_Some (files w' !! path).
Proof.
  unfold process.
  destruct (makedirs (work_dir self) w); [|done].
  destruct (process_target_date P self master_template target_date) as [d|] eqn:Hd; [|done].
  destruct (run_vde_export P self _ (Some d) w) as [[x|] w1] eqn:Hexport; [|done].
  intros Hupdate. exists d.
  apply run_vde_export_ok in Hexport as [_ Hraw].
  pose proof (update_master_workbook_ok P self _ _ _ _ _ _ Hupdate) as [-> Hkeep].
  split_and!; [done| |done|by apply Hkeep|].
  - intros d' ->. simpl in Hd. by injection Hd.
  - apply update_master_workbook_ok_inv in Hupdate
      as (d0 & w2 & w3 & ? & ? & ? & ? & Hd0 & Hp & _ & _ & _ & _ & _ & _ & Hw3 & Hrecalc).
    pose proof (recalculate_frame P self _ _ _ _ Hrecalc) as (_ & _ & _ & Hsome).
    apply Hsome. rewrite Hw3. simpl. rewrite lookup_insert_eq. by eexists.
Qed.

Lemma process_returns_dated_path_witness :
  exists w' d,
    process (demo_platform tool_ok) demo_config "/srv/templates/notes.xlsx"
            (Some demo_target_date)
            (World {[ "/srv/templates/notes.xlsx" := Xlsx demo_template_wb ]} ∅ [])
      = (Ok "/work/3895th_070224.xlsx", w') /\
    "/work/3895th_070224.xlsx" = new_master_path demo_config d /\
    is_Some (files w' !! "/work/3895th_070224.xlsx").
Proof.
  destruct (process (demo_platform tool_ok) demo_config "/srv/templates/notes.xlsx"
              (Some demo_target_date)
              (World {[ "/srv/templates/notes.xlsx" := Xlsx demo_template_wb ]} ∅ []))
    as [r w'] eqn:Hrun.
  assert (r = Ok "/work/3895th_070224.xlsx") as ->.
  { apply (f_equal fst) in Hrun. vm_compute in Hrun. by subst r. }
  destruct (process_returns_dated_path _ _ _ _ _ _ _ Hrun) as (d & _ & _ & Hp & _ & Hfile).
  by exists w', d.
Defined.

(** ** The export invoker: what it logs and what it leaves alone *)

Lemma emit_lines_log_exact (lvl : log_level) (lines : list string) (w : world) :
  log (emit_lines lvl lines w) = log w ++ ((fun l => (lvl, "  " +:+ l)) <$> lines).
Proof.
  unfold emit_lines. revert w. induction lines as [|x lines IH]; intros w; cbn [foldl fmap list_fmap].
  - by rewrite app_nil_r.
  - rewrite IH, emit_log. by rewrite <- app_assoc.
Qed.

(** X14. However long the output of the tool is, at most 13 lines of it reach the
    log, all at level [INFO]; an output of up to ten lines is logged whole
    under one heading. The files are not touched. *)
Theorem log_stdout_bounded (stdout : string) (w : world) :
  let lines := Py.split "010" (Py.strip stdout) in
  exists added,
    log (log_stdout stdout w) = log w ++ added /\
    (length added <= 13)%nat /\
    Forall (fun entry => fst entry = INFO) added /\
    ((length lines <= 10)%nat ->
     added = (INFO, "vde.py output:") :: ((fun l => (INFO, "  " +:+ l)) <$> lines)) /\
    files (log_stdout stdout w) = files w /\
    readonly (log_stdout stdout w) = readonly w.
Proof.
  intros lines. unfold log_stdout. fold lines.
  pose proof (split_nonempty "010" (Py.strip stdout)) as Hne. fold lines in Hne.
  destruct lines as [|x l] eqn:Hlines; [done|]. rewrite <- Hlines in *. clear Hne.
  destruct (10 <? length lines)%nat eqn:Hlong; cbv zeta.
  - apply Nat.ltb_lt in Hlong.
    exists ((INFO, "vde.py output first lines:")
              :: ((fun l => (INFO, "  " +:+ l)) <$> take 5 lines)
              ++ [(INFO, "..."); (INFO, "vde.py output last lines:")]
              ++ ((fun l => (INFO, "  " +:+ l)) <$> drop (length lines - 5) lines)).
    split_and!.
    + rewrite !emit_lines_log_exact, !emit_log, emit_lines_log_exact, emit_log.
      rewrite <- !app_assoc. done.
    + cbn [length]. rewrite !length_app, !length_fmap, length_take, length_drop.
      cbn [length]. lia.
    + constructor; [done|]. rewrite !Forall_app. split_and!.
      * apply Forall_fmap, Forall_forall. done.
      * by repeat constructor.
      * apply Forall_fmap, Forall_forall. done.
    + lia.
    + repeat (rewrite emit_lines_files || cbn [files emit]); done.
    + repeat (rewrite emit_lines_readonly || cbn [readonly emit]); done.
  - apply Nat.ltb_ge in Hlong.
    exists ((INFO, "vde.py output:") :: ((fun l => (INFO, "  " +:+ l)) <$> lines)).
    split_and!.
    + rewrite emit_lines_log_exact, emit_log. by rewrite <- app_assoc.
    + cbn [length]. rewrite length_fmap. lia.
    + constructor; [done|]. apply Forall_fmap, Forall_forall. done.
    + done.
    + by rewrite emit_lines_files.
    + by rewrite emit_lines_readonly.
Qed.

Lemma export_failed_frame (P : Platform) (cmd : list string) (rc : Z) (stderr : string)
    (w : world) :
  files (snd (export_failed P cmd rc stderr w)) = files w /\
  readonly (snd (export_failed P cmd rc stderr w)) = readonly w.
Proof.
  unfold export_failed. cbv zeta. cbn [snd].
  destruct (String.eqb stderr "");
    by repeat (rewrite emit_lines_files || rewrite emit_lines_readonly
               || cbn [files readonly emit]).
Qed.

Section ExportFrame.

Variable P : Platform.
Variable self : WorkbookProcessor.
Variable output_file : string.

(** The files after [run_export_cmd] are those the tool left. *)
Lemma run_export_cmd_frame (cmd : list string) (w : world) :
  files (snd (run_export_cmd P self cmd output_file w)) =
    match vde P cmd (export_script_dir self) (files w) with
    | SpawnFailed _ => files w
    | Exited _ _ _ files' => files'
    end /\
  readonly (snd (run_export_cmd P self cmd output_file w)) = readonly w.
Proof.
  unfold run_export_cmd. cbv zeta. cbn [files emit].
  destruct (vde P cmd _ _) as [e|rc [stdout|] [stderr|] files']; [done| |done..].
  destruct (negb (rc =? 0)).
  - match goal with |- context [export_failed P cmd rc stderr ?w0] =>
      destruct (export_failed_frame P cmd rc stderr w0) as [-> ->] end. done.
  - destruct (negb (path_exists _ output_file)); cbn [snd files readonly emit];
      by rewrite log_stdout_files, log_stdout_readonly.
Qed.

(** X15. [run_vde_export] writes no file and changes no write protection of its
    own, and only adds to the log: the files afterwards are those before, or
    those the one run of the tool left. *)
Theorem run_vde_export_frame (target_date : option datetime) (w w' : world) (r : res string) :
  run_vde_export P self output_file target_date w = (r, w') ->
  readonly w' = readonly w /\
  (exists added, log w' = log w ++ added) /\
  (files w' = files w \/
   exists cmd rc stdout stderr,
     vde P cmd (export_script_dir self) (files w) = Exited rc stdout stderr (files w')).
Proof.
  unfold run_vde_export.
  assert (forall (d : datetime) (w0 : world),
    files w0 = files w -> readonly w0 = readonly w ->
    (exists pre, log w0 = log w ++ pre) ->
    match export_window self d with
    | Ok (start_time, end_time) =>
        run_export_cmd P self (build_cmd P self output_file start_time end_time) output_file
          (emit INFO ("Exporting data from " +:+ str_datetime P start_time +:+ " to "
                      +:+ str_datetime P end_time +:+ " (" +:+ export_start_time self
                      +:+ " to " +:+ export_end_time self +:+ ")") w0)
    | Raise e => (Raise e, w0)
    end = (r, w') ->
    readonly w' = readonly w /\
    (exists added, log w' = log w ++ added) /\
    (files w' = files w \/
     exists cmd rc stdout stderr,
       vde P cmd (export_script_dir self) (files w) = Exited rc stdout stderr (files w')))
    as Hcore.
  { intros d w0 Hf Hro [pre Hlog].
    destruct (export_window self d) as [[start_time end_time]|e].
    2:{ intros [= <- <-]. split_and!; [done|by exists pre|by left]. }
    set (cmd := build_cmd P self output_file start_time end_time).
    set (w1 := emit INFO _ w0).
    intros Hrun.
    destruct (run_export_cmd_frame cmd w1) as [Hfiles Hreadonly].
    destruct (run_export_cmd_log P self cmd output_file w1) as [rest Hrest].
    rewrite Hrun in Hfiles, Hreadonly, Hrest. cbn [snd] in *.
    split_and!.
    - by rewrite Hreadonly.
    - eexists. rewrite Hrest. unfold w1. rewrite emit_log, Hlog.
      by rewrite <- !app_assoc.
    - unfold w1 in Hfiles. cbn [files emit] in Hfiles. rewrite Hf in Hfiles.
      destruct (vde P cmd (export_script_dir self) (files w))
        as [e|rc stdout stderr files'] eqn:Hvde; [by left|].
      right. exists cmd, rc, stdout, stderr. by rewrite Hfiles. }
  destruct target_date as [d|].
  - apply Hcore; [done..|]. exists []. by rewrite app_nil_r.
  - destruct (get_yesterday_date P self) as [d|e].
    + apply Hcore; [done..|]. by eexists.
    + intros [= <- <-]. split_and!; [done| |by left]. exists []. by rewrite app_nil_r.
Qed.

(** X16. Without a target date the export is the export for yesterday with one
    more line in the log: same result, same files. *)
Theorem run_vde_export_defaults_to_yesterday (y : datetime) (w : world) :
  get_yesterday_date P self = Ok y ->
  run_vde_export P self output_file None w =
    run_vde_export P self output_file (Some y)
      (emit INFO ("No target date provided, using yesterday: " +:+ fmt_date y) w) /\
  fst (run_vde_export P self output_file None w)
    = fst (run_vde_export P self output_file (Some y) w) /\
  files (snd (run_vde_export P self output_file None w))
    = files (snd (run_vde_export P self output_file (Some y) w)).
Proof.
  intros Hy.
  assert (run_vde_export P self output_file None w =
          run_vde_export P self output_file (Some y)
            (emit INFO ("No target date provided, using yesterday: " +:+ fmt_date y) w)) as Heq.
  { unfold run_vde_export. by rewrite Hy. }
  split; [done|]. rewrite Heq. unfold run_vde_export.
  destruct (export_window self y) as [[start_time end_time]|e]; [|done].
  rewrite !run_export_cmd_result.
  split; [done|].
  by rewrite !(proj1 (run_export_cmd_frame _ _)).
Qed.

End ExportFrame.

Lemma run_vde_export_defaults_witness :
  fst (run_vde_export (demo_platform tool_ok) demo_config demo_raw_file None demo_world)
  = fst (run_vde_export (demo_platform tool_ok) demo_config demo_raw_file
           (Some (Datetime 2024 7 2 9 30 0 0 (Some (Zone "America/New_York")))) demo_world).
Proof.
  refine (proj1 (proj2 (run_vde_export_defaults_to_yesterday (demo_platform tool_ok)
                          demo_config demo_raw_file _ demo_world _))).
  reflexivity.
Defined.

Lemma run_vde_export_frame_witness :
  let r := run_vde_export (demo_platform tool_fails) demo_config demo_raw_file
                          (Some demo_target_date) demo_world in
  readonly (snd r) = readonly demo_world /\ exists added, log (snd r) = log demo_world ++ added.
Proof.
  intros r.
  destruct (run_vde_export_frame (demo_platform tool_fails) demo_config demo_raw_file
              (Some demo_target_date) demo_world (snd r) (fst r)) as (Hro & Hlog & _).
  - apply surjective_pairing.
  - done.
Defined.

(** ** Construction *)

Lemma join_after_name (x : string) (c : ascii) (b : string) :
  c <> "/"%char -> Py.startswith b "/" = false ->
  OsPath.join (x +:+ String c "") b = (x +:+ String c "") +:+ "/" +:+ b.
Proof.
  intros Hc Hb. unfold OsPath.join. rewrite Hb.
  assert (String.eqb (x +:+ String c "") "" = false) as ->.
  { apply String.eqb_neq. by destruct x. }
  assert (Py.endswith (x +:+ String c "") "/" = false) as ->; [|done].
  unfold Py.endswith. rewrite rev_append.
  change (String.rev (String c "")) with (String c "").
  change (String.rev "/") with "/".
  cbn [String.append Py.startswith].
  apply andb_false_iff. left. by apply Ascii.eqb_neq, not_eq_sym.
Qed.

(** The interpreter that [run_vde_export] starts lies below the directory
    whose presence [__init__] probes. *)
Lemma interpreter_below_venv (self : WorkbookProcessor) :
  Py.startswith (OsPath.join (OsPath.join (venv_path self) "bin") "python")
                (venv_path self +:+ "/") = true.
Proof.
  unfold venv_path.
  destruct (join_relative (export_script_dir self) ".venv" eq_refl) as [sep ->].
  set (a := export_script_dir self +:+ sep).
  replace (a +:+ ".venv") with ((a +:+ ".ven") +:+ "v") by (by rewrite append_assoc).
  rewrite (join_after_name _ "v" "bin") by done.
  set (v := (a +:+ ".ven") +:+ "v").
  replace (v +:+ "/" +:+ "bin") with ((v +:+ "/bi") +:+ "n") by (by rewrite !append_assoc).
  rewrite (join_after_name _ "n" "python") by done.
  rewrite !append_assoc.
  change ("/bi" +:+ "n" +:+ "/" +:+ "python") with ("/" +:+ "bin/python").
  rewrite <- append_assoc. apply startswith_app.
Qed.

Lemma exists_on_disk_below (w : world) (dir path : string) :
  is_Some (files w !! path) -> Py.startswith path (dir +:+ "/") = true ->
  exists_on_disk w dir = true.
Proof.
  intros [c Hc] Hbelow. unfold exists_on_disk. apply orb_true_iff. right.
  apply existsb_exists. exists (path, c). split; [|done].
  apply list_elem_of_In. by apply elem_of_map_to_list.
Qed.

Section Construction.

Variable sh : Shell.
Variables (work_dir0 export_script api_key_id0 api_key0 org_id0 : string).
Variables (timezone0 export_start_time0 export_end_time0 : option string).
Variable w : world.

Local Abbreviation built :=
  (__init__ sh work_dir0 export_script api_key_id0 api_key0 org_id0
            timezone0 export_start_time0 export_end_time0 w).

(** X17. What construction does to the files. With the virtual environment
    in place, and so with the interpreter that [run_vde_export] will start in
    place, no file changes; the same without [setup.sh]. With the virtual
    environment missing and [setup.sh] there, the setup script is run
    through [bash]: the files are then those this run left, whatever its
    exit status, and no file changes if it could not be started. The
    capability flag is the exit status 0 of [which libreoffice]. *)
Theorem init_probes :
  let self := fst built in
  let w' := snd built in
  let setup_script := OsPath.join (OsPath.dirname export_script) "setup.sh" in
  (exists_on_disk w (venv_path self) = true -> files w' = files w) /\
  (exists_on_disk w setup_script = false -> files w' = files w) /\
  (is_Some (files w !! OsPath.join (OsPath.join (venv_path self) "bin") "python") ->
   files w' = files w) /\
  (exists_on_disk w (venv_path self) = false -> exists_on_disk w setup_script = true ->
   match bash sh ["bash"; "-c"; "cd " +:+ OsPath.dirname export_script +:+ " && source ./setup.sh"]
              (files w) with
   | SetupExited rc files' => files w' = files'
   | SetupNotStarted => files w' = files w
   end) /\
  (libreoffice_available self = true <-> which sh ["which"; "libreoffice"] = Some 0).
Proof.
  intros self w' setup_script.
  assert (venv_path self = OsPath.join (OsPath.dirname export_script) ".venv") as Hvenv.
  { unfold self, __init__, venv_path, export_script_dir. cbv zeta.
    by destruct (negb _). }
  assert (exists_on_disk w (venv_path self) = true -> files w' = files w) as Hpresent.
  { intros Hex. unfold w', __init__. cbv zeta. rewrite <- Hvenv. by rewrite Hex. }
  assert (w' = if exists_on_disk w (venv_path self) then w
               else snd (_setup_venv sh (OsPath.dirname export_script) w)) as Hw'.
  { unfold w', __init__. cbv zeta. rewrite <- Hvenv.
    by destruct (exists_on_disk w (venv_path self)). }
  split_and!.
  - done.
  - intros Hmissing. rewrite Hw'. destruct (exists_on_disk w (venv_path self)); [done|].
    unfold _setup_venv. cbv zeta. fold setup_script. by rewrite Hmissing.
  - intros Hpython. apply Hpresent.
    apply (exists_on_disk_below w _ _ Hpython), interpreter_below_venv.
  - intros Hvenv' Hscript. rewrite Hw', Hvenv'.
    unfold _setup_venv. cbv zeta. fold setup_script. rewrite Hscript.
    destruct (bash sh _ _) as [|rc files']; [done|].
    by destruct (negb (rc =? 0)).
  - assert (libreoffice_available self = _check_libreoffice sh) as ->.
    { unfold self, __init__. cbv zeta. by destruct (negb _). }
    unfold _check_libreoffice. destruct (which sh _) as [rc|]; [|done].
    split.
    + intros Hrc. apply Z.eqb_eq in Hrc. by subst rc.
    + by intros [= ->].
Qed.

End Construction.

(** On a fresh checkout the setup script is run and leaves the interpreter;
    with the interpreter in place no file changes. *)
Lemma init_probes_witness :
  files (snd (__init__ demo_shell "/work" "/opt/vde/vde.py" "0d1f-key-id" "s3cr3tk3y" "org-17"
                       None None None demo_world_fresh))
  = <["/opt/vde/.venv/bin/python" := Blob "ELF"]> (files demo_world_fresh) /\
  files (snd (__init__ demo_shell "/work" "/opt/vde/vde.py" "0d1f-key-id" "s3cr3tk3y" "org-17"
                       None None None demo_world_installed))
  = files demo_world_installed.
Proof.
  split.
  - refine (proj1 (proj2 (proj2 (proj2
              (init_probes demo_shell "/work" "/opt/vde/vde.py" "0d1f-key-id"
                           "s3cr3tk3y" "org-17" None None None demo_world_fresh)))) _ _);
      vm_compute; reflexivity.
  - refine (proj1 (proj2 (proj2
              (init_probes demo_shell "/work" "/opt/vde/vde.py" "0d1f-key-id"
                           "s3cr3tk3y" "org-17" None None None demo_world_installed))) _).
    vm_compute. by eexists.
Defined.

(** ** Credentials in the log *)

(** X18. Whenever the export tool exits with a non-zero status, its output
    being text, the command is logged unmasked: the [ERROR] line that reports
    the failure holds the configured key and key id as [repr] writes them,
    and so does the message of the [RuntimeError] that is raised. *)
Theorem failed_export_logs_unmasked_command (P : Platform) (self : WorkbookProcessor)
    (output_file : string) (d start_time end_time : datetime) (w : world)
    (rc : Z) (stdout stderr : string) (files' : gmap string content) :
  export_window self d = Ok (start_time, end_time) ->
  vde P (build_cmd P self output_file start_time end_time) (export_script_dir self) (files w)
    = Exited rc (Some stdout) (Some stderr) files' ->
  rc <> 0 ->
  (exists line,
      (ERROR, line) ∈ log (snd (run_vde_export P self output_file (Some d) w))
      /\ Py.contains line (Py.repr (api_key self)) = true
      /\ Py.contains line (Py.repr (api_key_id self)) = true) /\
  (exists msg,
      fst (run_vde_export P self output_file (Some d) w) = Raise (RuntimeError msg)
      /\ Py.contains msg (Py.repr (api_key self)) = true
      /\ Py.contains msg (Py.repr (api_key_id self)) = true).
Proof.
  intros Hwin Hvde Hrc. split.
  - by apply (export_failure_logs_credentials P self output_file d start_time end_time w
                rc stdout stderr files').
  - rewrite (run_vde_export_result P self output_file (Some d) d start_time end_time w
               eq_refl Hwin), Hvde.
    replace (negb (rc =? 0)) with true by (symmetry; apply negb_true_iff; lia).
    eexists. split; [done|].
    split; apply contains_app_r, called_process_error_str_contains, list_elem_of_lookup.
    + by exists 7%nat.
    + by exists 5%nat.
Qed.

(** X19. Unless the script path is itself the text [--apiKeyId] or
    [--apiKey], the line logged before the tool runs is the same whatever the
    configured key id and key are. *)
Theorem masked_log_line_hides_credentials (P : Platform) (self : WorkbookProcessor)
    (key_id key : string) (output_file : string) (start_time end_time : datetime) :
  export_script_path self <> "--apiKeyId" -> export_script_path self <> "--apiKey" ->
  masked_log_line (build_cmd P (with_credentials self key_id key)
                             output_file start_time end_time)
  = masked_log_line (build_cmd P self output_file start_time end_time).
Proof.
  intros Hs1 Hs2. unfold masked_log_line.
  by rewrite (masked_command_independent_of_credentials P self key_id key) by done.
Qed.

(** ** The further properties on sample inputs *)

Lemma parse_hm_witness : parse_hm " 7:00" = Ok (7, 0).
Proof.
  apply (proj2 (parse_hm_ok_iff " 7:00" 7 0)).
  exists " 7", "00". by repeat split.
Defined.

Lemma export_window_witness :
  export_window demo_config demo_target_date
  = Ok (Datetime 2024 7 2 7 0 0 0 (Some (Zone "America/New_York")),
        Datetime 2024 7 2 19 0 0 0 (Some (Zone "America/New_York"))).
Proof.
  apply (proj2 (export_window_ok_iff demo_config demo_target_date _ _)).
  exists 7, 0, 19, 0. repeat split; (reflexivity || lia).
Defined.

Lemma export_window_swap_witness :
  export_window (with_window demo_config "19:00" "7:00") demo_target_date
  = Ok (Datetime 2024 7 2 19 0 0 0 (Some (Zone "America/New_York")),
        Datetime 2024 7 2 7 0 0 0 (Some (Zone "America/New_York"))).
Proof.
  apply (export_window_swap demo_config demo_target_date
           (Datetime 2024 7 2 7 0 0 0 (Some (Zone "America/New_York")))
           (Datetime 2024 7 2 19 0 0 0 (Some (Zone "America/New_York")))).
  reflexivity.
Defined.

Lemma dated_name_round_trip_witness :
  valid_date demo_target_date /\
  _extract_date_from_filename (demo_platform tool_ok) demo_config
    (new_master_path demo_config demo_target_date) = Ok (Some demo_target_date).
Proof.
  assert (valid_date demo_target_date) as Hvalid by (vm_compute; repeat split; discriminate).
  split; [exact Hvalid|].
  exact (proj1 (dated_name_round_trip (demo_platform tool_ok) demo_config
                  demo_target_date Hvalid)).
Defined.

Lemma token_round_trip_witness :
  exists dt,
    _extract_date_from_filename (demo_platform tool_ok) demo_config demo_template = Ok (Some dt)
    /\ strftime_mmddyy dt = "070124".
Proof.
  apply (token_round_trip (demo_platform tool_ok) demo_config demo_template "070124").
  - reflexivity.
  - reflexivity.
  - vm_compute. repeat split; discriminate.
Defined.

Lemma dated_name_schedules_witness :
  exists next,
    process_target_date (demo_platform tool_ok) demo_config
      (new_master_path demo_config demo_target_date) None = Ok next /\
    (year next, month next, day next) = (2024, 7, 3).
Proof.
  destruct (dated_name_schedules_next_day (demo_platform tool_ok) demo_config demo_target_date)
    as (next & Hnext & Hplus & _).
  - vm_compute. repeat split; discriminate.
  - exists next. split; [done|]. vm_compute in Hplus. by injection Hplus as <-.
Defined.

Lemma merge_keeps_other_sheets_witness :
  let r := update_master_workbook (demo_platform tool_ok) demo_config demo_raw_file
                                  demo_template (Some demo_target_date) demo_world_exported in
  exists (w2 : world) (saved_wb : workbook),
    load_workbook "/work/3895th_070224.xlsx" w2 = Ok saved_wb /\
    fst <$> saved_wb = ["Summary"; "Raw Import"] /\
    get_sheet "Summary" saved_wb = get_sheet "Summary" demo_template_wb.
Proof.
  intros r.
  destruct (merge_keeps_other_sheets (demo_platform tool_ok) demo_config demo_raw_file
              demo_template (Some demo_target_date) demo_world_exported (snd r)
              "/work/3895th_070224.xlsx")
    as (w2 & template_wb & saved_wb & Ht & Hsaved & _ & Htitles & Hothers).
  { vm_compute. reflexivity. }
  vm_compute in Ht. injection Ht as <-.
  exists w2, saved_wb. split_and!; [done|done|]. by apply Hothers.
Defined.

Lemma merge_makes_import_equal_raw_witness :
  let r := update_master_workbook (demo_platform tool_ok) demo_config demo_raw_file
                                  demo_template (Some demo_target_date) demo_world_exported in
  exists (w2 : world) (saved_wb : workbook) (saved_sheet : sheet),
    load_workbook "/work/3895th_070224.xlsx" w2 = Ok saved_wb /\
    get_sheet "Raw Import" saved_wb = Some saved_sheet /\
    value_at saved_sheet (1, 1)%nat = Some (Text "time") /\
    value_at saved_sheet (3, 3)%nat = None.
Proof.
  intros r.
  destruct (merge_makes_import_equal_raw (demo_platform tool_ok) demo_config demo_raw_file
              demo_template (Some demo_target_date) demo_world_exported (snd r)
              "/work/3895th_070224.xlsx")
    as (w1 & w2 & raw_wb & saved_wb & raw_sheet & saved_sheet
        & Hcopy & Hraw & Hrs & Hsaved & Hss & _ & Hvalues).
  { vm_compute. reflexivity. }
  apply copy_file_ok in Hcopy as (c & _ & _ & _ & ->).
  vm_compute in Hraw. injection Hraw as <-. vm_compute in Hrs. injection Hrs as <-.
  exists w2, saved_wb, saved_sheet. split_and!; [done..| |].
  - rewrite Hvalues by lia. reflexivity.
  - rewrite Hvalues by lia. reflexivity.
Defined.

Lemma update_never_changes_template_witness :
  let r := update_master_workbook (demo_platform tool_ok) demo_config demo_raw_file
                                  demo_template (Some demo_target_date) demo_world in
  files (snd r) !! demo_template = Some (Xlsx demo_template_wb).
Proof.
  intros r.
  rewrite (update_never_changes_template (demo_platform tool_ok) demo_config demo_raw_file
             demo_template (Some demo_target_date) demo_world (snd r) (fst r)).
  - reflexivity.
  - reflexivity.
  - apply surjective_pairing.
Defined.

Lemma read_only_template_blocks_save_witness :
  exists w',
    update_master_workbook (demo_platform tool_ok) demo_config demo_raw_file demo_template
                           (Some demo_target_date) demo_world_protected
      = (Raise PermissionError, w') /\
    files w' !! "/work/3895th_070224.xlsx.error" = Some (Xlsx demo_template_wb).
Proof.
  destruct (read_only_template_blocks_save (demo_platform tool_ok) demo_config demo_raw_file
              demo_template demo_target_date demo_world_protected
              demo_raw_wb demo_template_wb demo_raw_sheet demo_import_sheet)
    as (w' & Hrun & _ & _ & Hsnap); try (vm_compute; reflexivity); try discriminate.
  exists w'. split; [done|]. apply Hsnap.
  vm_compute. discriminate.
Defined.

Lemma log_stdout_bounded_witness :
  log (log_stdout "exported 2 rows" demo_world)
  = [(INFO, "vde.py output:"); (INFO, "  exported 2 rows")].
Proof.
  destruct (log_stdout_bounded "exported 2 rows" demo_world)
    as (added & Hlog & _ & _ & Hshort & _).
  rewrite Hlog, Hshort; [reflexivity|]. vm_compute. lia.
Defined.

Lemma failed_export_logs_unmasked_command_witness :
  exists line,
    (ERROR, line) ∈ log (snd (run_vde_export (demo_platform tool_fails) demo_config
                                demo_raw_file (Some demo_target_date) demo_world))
    /\ Py.contains line "'s3cr3tk3y'" = true
    /\ Py.contains line "'0d1f-key-id'" = true.
Proof.
  apply (failed_export_logs_unmasked_command (demo_platform tool_fails) demo_config
           demo_raw_file demo_target_date
           (Datetime 2024 7 2 7 0 0 0 (Some (Zone "America/New_York")))
           (Datetime 2024 7 2 19 0 0 0 (Some (Zone "America/New_York")))
           demo_world 1 "" "401 Unauthorized" (files demo_world));
    [reflexivity|reflexivity|discriminate].
Defined.

Lemma masked_log_line_hides_credentials_witness :
  masked_log_line
    (build_cmd (demo_platform tool_ok) (with_credentials demo_config "other-id" "other-key")
               demo_raw_file demo_target_date demo_target_date)
  = masked_log_line
      (build_cmd (demo_platform tool_ok) demo_config
                 demo_raw_file demo_target_date demo_target_date).
Proof.
  apply (masked_log_line_hides_credentials (demo_platform tool_ok) demo_config
           "other-id" "other-key" demo_raw_file demo_target_date demo_target_date);
    discriminate.
Defined.
